(** * json_editor_dspy: reconciliation engine, cache and mutation pipeline

    A shallow embedding of the parts of the repository that carry its
    matching, status-derivation, caching and promotion rules:

    - [src/services/driveService.ts]  ([extractValidJson], the listing
      fetches, [matchFilesWithFolders]);
    - [src/contexts/FileContext.tsx]  ([calcProgress],
      [determineFileStatuses], [updateJsonFile], [approveJsonFile]);
    - [server/server.js]              ([cacheDel], [listAll],
      [fetchFileBytes], the [/api/save-json] route).

    Modelling conventions.
    - A JavaScript string is the Rocq [string] of its UTF-8 bytes.
      Searching, splitting and replacing with the ASCII patterns of the
      code is the same on the bytes as on the characters.  [trim] removes
      the white space and line terminators of ECMAScript, the ones outside
      ASCII included.  [toLowerCase] maps the ASCII letters only: the case
      of other letters is not folded in the model.
    - Objects are records.  An optional property is an [option] field,
      [None] standing for [undefined].
    - The numbers the code stores in [progress] are quotients of two
      small counts; they are modelled by the exact rational ([Q]) that
      the expression denotes.
    - In-place mutation of objects held in an array is modelled by
      threading the array through the computation and updating it by
      index.  The arrays come from [JSON.parse], so no object occurs twice
      in them.
    - The remote store is an interface ([Drive.Api]) with two
      implementations: one that answers listing requests from a script,
      and one that holds its objects in memory; both record the calls they
      receive.  A store call may be rejected.
    - An [async] function is a function on the state it touches.  A loop
      whose length depends on the store takes a bound on its number of
      requests.  Where two calls may interleave ([fetchFileBytes]), the
      function is split at its [await].
    - [JSON.parse] is a recogniser of the JSON grammar.

    The embedding comes first, then the vocabulary of the statements, then
    the properties. *)

From Stdlib Require Import String Ascii List ZArith QArith Lia Bool DecimalString.
From stdpp Require Import base gmap strings list.

Open Scope string_scope.
Open Scope list_scope.

(* ================================================================= *)
(** ** JavaScript string primitives used by the code *)

Module Js.

Definition isUpper (c : ascii) : bool :=
  (65 <=? nat_of_ascii c)%nat && (nat_of_ascii c <=? 90)%nat.

Definition lowerChar (c : ascii) : ascii :=
  if isUpper c then ascii_of_nat (nat_of_ascii c + 32) else c.

(** [s.toLowerCase()] *)
Fixpoint toLowerCase (s : string) : string :=
  match s with
  | EmptyString => EmptyString
  | String c r => String (lowerChar c) (toLowerCase r)
  end.

(** [s.startsWith(p)] *)
Fixpoint startsWith (s p : string) : bool :=
  match p, s with
  | EmptyString, _ => true
  | String _ _, EmptyString => false
  | String a p', String b s' => Ascii.eqb a b && startsWith s' p'
  end.

(** [s.includes(sub)] *)
Fixpoint includes (s sub : string) : bool :=
  startsWith s sub ||
  match s with
  | EmptyString => false
  | String _ r => includes r sub
  end.

Fixpoint drop (n : nat) (s : string) : string :=
  match n, s with
  | O, _ => s
  | S _, EmptyString => EmptyString
  | S n', String _ r => drop n' r
  end.

(** [s.replace(pat, rep)] with a string pattern: only the first
    occurrence of [pat] is replaced. *)
Fixpoint replace (s pat rep : string) : string :=
  if startsWith s pat then rep +:+ drop (String.length pat) s
  else match s with
       | EmptyString => EmptyString
       | String c r => String c (replace r pat rep)
       end.

(** [s.replace(/\.md$/, '')]: the pattern is anchored at the end of the
    input, so it can only match the last three characters. *)
Fixpoint replaceMdAtEnd (s : string) : string :=
  if String.eqb s ".md" then EmptyString
  else match s with
       | EmptyString => EmptyString
       | String c r => String c (replaceMdAtEnd r)
       end.

(** [s.split(sep)] for a one-character separator. *)
Fixpoint split (s : string) (sep : ascii) : list string :=
  match s with
  | EmptyString => [EmptyString]
  | String c r =>
      if Ascii.eqb c sep then EmptyString :: split r sep
      else match split r sep with
           | h :: t => String c h :: t
           | [] => [String c EmptyString]
           end
  end.

(** [parts.join(sep)] *)
Definition join (parts : list string) (sep : string) : string :=
  String.concat sep parts.

(** What [trim] removes is the [WhiteSpace] and [LineTerminator] of
    ECMAScript.  In UTF-8 six of these characters take one byte (TAB, LF,
    VT, FF, CR, SPACE), one takes two (U+00A0, bytes C2 A0), and the others
    take three: U+1680 (E1 9A 80), U+2000 to U+200A, U+2028, U+2029 and
    U+202F (E2 80 and a byte from 80 to 8A, A8, A9 or AF), U+205F
    (E2 81 9F), U+3000 (E3 80 80) and U+FEFF (EF BB BF). *)
Definition isByte (c : ascii) (n : nat) : bool := (nat_of_ascii c =? n)%nat.

Definition isSpace (c : ascii) : bool :=
  let n := nat_of_ascii c in
  ((9 <=? n)%nat && (n <=? 13)%nat) || (n =? 32)%nat.

Definition isSpace2 (c1 c2 : ascii) : bool := isByte c1 194 && isByte c2 160.

Definition isSpace3 (c1 c2 c3 : ascii) : bool :=
  let n3 := nat_of_ascii c3 in
  (isByte c1 225 && (isByte c2 154 && isByte c3 128))
  || (isByte c1 226
      && ((isByte c2 128
           && (((128 <=? n3)%nat && (n3 <=? 138)%nat)
               || isByte c3 168 || isByte c3 169 || isByte c3 175))
          || (isByte c2 129 && isByte c3 159)))
  || (isByte c1 227 && (isByte c2 128 && isByte c3 128))
  || (isByte c1 239 && (isByte c2 187 && isByte c3 191)).

(** What follows the white space character at the head of [s], when [s]
    starts with one. *)
Definition afterSpace (s : string) : option string :=
  match s with
  | EmptyString => None
  | String c1 r1 =>
      if isSpace c1 then Some r1
      else
        match r1 with
        | EmptyString => None
        | String c2 r2 =>
            if isSpace2 c1 c2 then Some r2
            else
              match r2 with
              | EmptyString => None
              | String c3 r3 => if isSpace3 c1 c2 c3 then Some r3 else None
              end
        end
  end.

(** [s.trimStart()] *)
Fixpoint trimStart (s : string) : string :=
  match s with
  | EmptyString => EmptyString
  | String c1 r1 =>
      if isSpace c1 then trimStart r1
      else
        match r1 with
        | EmptyString => s
        | String c2 r2 =>
            if isSpace2 c1 c2 then trimStart r2
            else
              match r2 with
              | EmptyString => s
              | String c3 r3 => if isSpace3 c1 c2 c3 then trimStart r3 else s
              end
        end
  end.

(** A text of white space only. *)
Fixpoint allSpace (s : string) : bool :=
  match s with
  | EmptyString => true
  | String c1 r1 =>
      if isSpace c1 then allSpace r1
      else
        match r1 with
        | EmptyString => false
        | String c2 r2 =>
            if isSpace2 c1 c2 then allSpace r2
            else
              match r2 with
              | EmptyString => false
              | String c3 r3 => isSpace3 c1 c2 c3 && allSpace r3
              end
        end
  end.

(** [s.trimEnd()]: the text ends where only white space follows. *)
Fixpoint trimEnd (s : string) : string :=
  match s with
  | EmptyString => EmptyString
  | String c r => if allSpace s then EmptyString else String c (trimEnd r)
  end.

(** [s.trim()] *)
Definition trim (s : string) : string := trimEnd (trimStart s).

(** Truthiness of a string: every string but the empty one. *)
Definition truthy (s : string) : bool :=
  match s with EmptyString => false | String _ _ => true end.

(** Truthiness of a possibly undefined string. *)
Definition truthyOpt (o : option string) : bool :=
  match o with Some s => truthy s | None => false end.

End Js.

(* ================================================================= *)
(** ** The client-side data model ([src/types]) *)

(** ['pending' | 'in-progress' | 'completed'] *)
Inductive Status := Pending | InProgress | Completed.

(** [JsonFile.content] is typed [any].  A string is kept as it is; any
    other defined value is represented by the text that
    [JSON.stringify(value, null, 2)] gives for it. *)
Inductive Content :=
| ContentString (s : string)
| ContentValue (stringified : string).

Module MarkdownFile.
Record t := mk {
  id : string;
  name : string;
  content : option string;
  matchingFolderId : option string;
  status : Status
}.
Definition setMatchingFolderId (v : string) (m : t) : t :=
  mk (id m) (name m) (content m) (Some v) (status m).
Definition setStatus (v : Status) (m : t) : t :=
  mk (id m) (name m) (content m) (matchingFolderId m) v.
End MarkdownFile.

(** An item.  The interface declares [folderId: string], but the items of
    a container come from the listing with [id], [name] and
    [modifiedTime] only: their [folderId] is [undefined] ([None]), and so
    are their flags, which read as [false]. *)
Module JsonFile.
Record t := mk {
  id : string;
  name : string;
  content : option Content;
  folderId : option string;
  edited : bool;
  approved : bool
}.
End JsonFile.

(** A container.  [progress] is [undefined] until it is assigned; the
    state updaters read it in [=== 100] and [> 0] only, where [undefined]
    answers as 0 does, and it stands as 0 here. *)
Module JsonFolder.
Record t := mk {
  id : string;
  name : string;
  files : list JsonFile.t;
  matchingMarkdownId : option string;
  progress : Q
}.
Definition setMatchingMarkdownId (v : string) (f : t) : t :=
  mk (id f) (name f) (files f) (Some v) (progress f).
Definition setProgress (v : Q) (f : t) : t :=
  mk (id f) (name f) (files f) (matchingMarkdownId f) v.
Definition setFiles (v : list JsonFile.t) (f : t) : t :=
  mk (id f) (name f) v (matchingMarkdownId f) (progress f).
End JsonFolder.

Module ResultFile.
Record t := mk { id : string; name : string }.
End ResultFile.

Module ResultFolder.
Record t := mk {
  folderId : string;
  folderName : string;
  files : list ResultFile.t
}.
End ResultFolder.

Record FileState := {
  markdownFiles : list MarkdownFile.t;
  jsonFolders : list JsonFolder.t;
  isLoading : bool;
  error : option string
}.

(** [array.findIndex(p)], with [None] for [-1]. *)
Fixpoint findIndex {A} (p : A -> bool) (l : list A) : option nat :=
  match l with
  | [] => None
  | x :: r => if p x then Some O else S <$> findIndex p r
  end.

(* ================================================================= *)
(** ** [JSON.parse] *)

(** The built-in [JSON.parse], as a recogniser for the JSON grammar that
    returns the syntax tree of the text.  Numbers and strings are kept as
    they are written. *)
Module Json.

#[warnings="-register-all"]
Inductive value :=
| Null
| Bool (b : bool)
| Number (lexeme : string)
| Str (raw : string)
| Array (items : list value)
| Object (members : list (string * value)).

(** The double quote. *)
Definition QUOTE : ascii := ascii_of_nat 34.

Definition isChar (c : ascii) (lit : string) : bool :=
  match lit with
  | String d EmptyString => Ascii.eqb c d
  | _ => false
  end.

Definition isWs (c : ascii) : bool :=
  let n := nat_of_ascii c in
  (n =? 32)%nat || (n =? 9)%nat || (n =? 10)%nat || (n =? 13)%nat.

Fixpoint skipWs (s : string) : string :=
  match s with
  | EmptyString => EmptyString
  | String c r => if isWs c then skipWs r else s
  end.

Definition isDigit (c : ascii) : bool :=
  (48 <=? nat_of_ascii c)%nat && (nat_of_ascii c <=? 57)%nat.

Definition isHex (c : ascii) : bool :=
  let n := nat_of_ascii c in
  isDigit c || ((65 <=? n)%nat && (n <=? 70)%nat)
            || ((97 <=? n)%nat && (n <=? 102)%nat).

Fixpoint spanDigits (s : string) : string * string :=
  match s with
  | EmptyString => (EmptyString, EmptyString)
  | String c r =>
      if isDigit c then let '(d, rest) := spanDigits r in (String c d, rest)
      else (EmptyString, s)
  end.

(** An integer part: one digit, or several that do not start with 0. *)
Definition validInt (digits : string) : bool :=
  match digits with
  | EmptyString => false
  | String _ EmptyString => true
  | String c _ => negb (isChar c "0")
  end.

(** A number at the head of [s]: its lexeme and what follows it. *)
Definition number (s : string) : option (string * string) :=
  let '(sign, s1) :=
    match s with
    | String c r => if isChar c "-" then ("-", r) else ("", s)
    | EmptyString => ("", s)
    end in
  let '(int, s2) := spanDigits s1 in
  if negb (validInt int) then None
  else
    let frac :=
      match s2 with
      | String c r =>
          if isChar c "." then
            let '(f, s3) := spanDigits r in
            if Js.truthy f then Some ("." +:+ f, s3) else None
          else Some ("", s2)
      | EmptyString => Some ("", s2)
      end in
    match frac with
    | None => None
    | Some (f, s3) =>
        match s3 with
        | String c r =>
            if isChar c "e" || isChar c "E" then
              let '(esign, r1) :=
                match r with
                | String d r' =>
                    if isChar d "+" || isChar d "-" then (String d "", r') else ("", r)
                | EmptyString => ("", r)
                end in
              let '(e, s4) := spanDigits r1 in
              if Js.truthy e
              then Some (sign +:+ int +:+ f +:+ String c esign +:+ e, s4)
              else None
            else Some (sign +:+ int +:+ f, s3)
        | EmptyString => Some (sign +:+ int +:+ f, s3)
        end
    end.

Definition isEscape (c : ascii) : bool :=
  Ascii.eqb c QUOTE || isChar c "\" || isChar c "/" || isChar c "b" || isChar c "f"
  || isChar c "n" || isChar c "r" || isChar c "t".

(** The rest of a string after its opening quote: the characters up to
    the closing quote, and what follows it. *)
Fixpoint stringBody (s : string) : option (string * string) :=
  match s with
  | EmptyString => None
  | String c r =>
      if Ascii.eqb c QUOTE then Some (EmptyString, r)
      else if isChar c "\" then
        match r with
        | String e r' =>
            if isChar e "u" then
              match r' with
              | String h1 (String h2 (String h3 (String h4 r''))) =>
                  if isHex h1 && isHex h2 && isHex h3 && isHex h4 then
                    match stringBody r'' with
                    | Some (b, rest) =>
                        Some (String c (String e (String h1 (String h2
                                (String h3 (String h4 b))))), rest)
                    | None => None
                    end
                  else None
              | _ => None
              end
            else if isEscape e then
              match stringBody r' with
              | Some (b, rest) => Some (String c (String e b), rest)
              | None => None
              end
            else None
        | EmptyString => None
        end
      else if (nat_of_ascii c <? 32)%nat then None
      else
        match stringBody r with
        | Some (b, rest) => Some (String c b, rest)
        | None => None
        end
  end.

Fixpoint parseValue (fuel : nat) (s : string) : option (value * string) :=
  match fuel with
  | O => None
  | S fuel' =>
      let s := skipWs s in
      if Js.startsWith s "null" then Some (Null, Js.drop 4 s)
      else if Js.startsWith s "true" then Some (Bool true, Js.drop 4 s)
      else if Js.startsWith s "false" then Some (Bool false, Js.drop 5 s)
      else
        match s with
        | EmptyString => None
        | String c r =>
            if Ascii.eqb c QUOTE then
              match stringBody r with
              | Some (raw, rest) => Some (Str raw, rest)
              | None => None
              end
            else if isChar c "[" then
              match skipWs r with
              | String d rest =>
                  if isChar d "]" then Some (Array [], rest)
                  else parseElements fuel' r []
              | EmptyString => None
              end
            else if isChar c "{" then
              match skipWs r with
              | String d rest =>
                  if isChar d "}" then Some (Object [], rest)
                  else parseMembers fuel' r []
              | EmptyString => None
              end
            else
              match number s with
              | Some (lexeme, rest) => Some (Number lexeme, rest)
              | None => None
              end
        end
  end
with parseElements (fuel : nat) (s : string) (acc : list value)
    : option (value * string) :=
  match fuel with
  | O => None
  | S fuel' =>
      match parseValue fuel' s with
      | None => None
      | Some (v, rest) =>
          match skipWs rest with
          | String c rest' =>
              if isChar c "," then parseElements fuel' rest' (v :: acc)
              else if isChar c "]" then Some (Array (List.rev (v :: acc)), rest')
              else None
          | EmptyString => None
          end
      end
  end
with parseMembers (fuel : nat) (s : string) (acc : list (string * value))
    : option (value * string) :=
  match fuel with
  | O => None
  | S fuel' =>
      match skipWs s with
      | String c r =>
          if Ascii.eqb c QUOTE then
            match stringBody r with
            | Some (key, rest) =>
                match skipWs rest with
                | String c2 rest2 =>
                    if isChar c2 ":" then
                      match parseValue fuel' rest2 with
                      | Some (v, rest3) =>
                          match skipWs rest3 with
                          | String c3 rest4 =>
                              if isChar c3 "," then
                                parseMembers fuel' rest4 ((key, v) :: acc)
                              else if isChar c3 "}" then
                                Some (Object (List.rev ((key, v) :: acc)), rest4)
                              else None
                          | EmptyString => None
                          end
                      | None => None
                      end
                    else None
                | EmptyString => None
                end
            | None => None
            end
          else None
      | EmptyString => None
      end
  end.

(** [JSON.parse(text)]; [None] when it throws a [SyntaxError]. *)
Definition parse (text : string) : option value :=
  match parseValue (2 * String.length text + 2) text with
  | Some (v, rest) =>
      match skipWs rest with
      | EmptyString => Some v
      | String _ _ => None
      end
  | None => None
  end.

End Json.

(* ================================================================= *)
(** ** [driveService.ts]: listing fetches, matching documents with containers *)

Module DriveService.

(* ----------------------- listing fetches ------------------------ *)

(** A settled promise on the client: fulfilled with a value, or rejected
    with an [Error] of the given message. *)
Inductive Promise (A : Type) :=
| Fulfilled (a : A)
| Failed (message : string).
Arguments Fulfilled {A} a.
Arguments Failed {A} message.

(** What the code reads of a [Response]. *)
Record HttpResponse := {
  ok : bool;
  status : nat;
  text : string
}.

Definition LF : ascii := ascii_of_nat 10.

(** The longest run of characters other than a line feed is dropped:
    what [[^\n]*] consumes. *)
Fixpoint dropLine (s : string) : string :=
  match s with
  | EmptyString => EmptyString
  | String c r => if Ascii.eqb c LF then s else dropLine r
  end.

(** [text.replace(/\/\/# sourceMappingURL=[^\n]*/, '')]: the first
    source-map comment is cut out, up to the end of its line. *)
Fixpoint removeSourceMap (s : string) : string :=
  if Js.startsWith s "//# sourceMappingURL="
  then dropLine (Js.drop (String.length "//# sourceMappingURL=") s)
  else match s with
       | EmptyString => EmptyString
       | String c r => String c (removeSourceMap r)
       end.

(** [extractValidJson], applied to the text of the response. *)
Definition extractValidJson (text : string) : Promise Json.value :=
  if negb (Js.truthy text)
     || Js.startsWith (Js.trim text) "//# sourceMappingURL"
  then Fulfilled (Json.Array [])
  else
    let jsonText := Js.trim (removeSourceMap text) in
    if Js.truthy jsonText then
      match Json.parse jsonText with
      | Some v => Fulfilled v
      | None => Failed "Failed to parse response data"
      end
    else Fulfilled (Json.Array []).

Definition showNat (n : nat) : string :=
  NilEmpty.string_of_uint (Nat.to_uint n).

(** The three listing fetches differ in their URL and error text only:
    a response that is not [ok] is an error, any other goes through
    [extractValidJson]. *)
Definition fetchListing (what : string) (response : HttpResponse)
    : Promise Json.value :=
  if negb (ok response)
  then Failed ("Failed to fetch " +:+ what +:+ ": " +:+ showNat (status response))
  else extractValidJson (text response).

Definition fetchMarkdownFiles := fetchListing "markdown files".
Definition fetchJsonFolders := fetchListing "JSON folders".
Definition fetchResultFiles := fetchListing "result files".

(* --------------------------- matching --------------------------- *)

(** The callback of [matchedJsonFolders.find] for a document prefix. *)
Definition folderMatches (mdPrefix : string) (folder : JsonFolder.t) : bool :=
  let folderParts := Js.split (JsonFolder.name folder) "_" in
  let folderPrefix := Js.join (take 3 folderParts) "_" in
  String.eqb (Js.toLowerCase folderPrefix) (Js.toLowerCase mdPrefix).

(** The prefix the code computes for a document. *)
Definition mdPrefixOf (mdFile : MarkdownFile.t) : string :=
  let mdNameWithoutExt := Js.replace (MarkdownFile.name mdFile) ".md" "" in
  let mdParts := Js.split mdNameWithoutExt "_" in
  Js.join (take 3 mdParts) "_".

(** One turn of the [forEach] callback: the document object and the
    container array after the callback ran on [mdFile]. *)
Definition visit (matchedJsonFolders : list JsonFolder.t)
    (mdFile : MarkdownFile.t) : MarkdownFile.t * list JsonFolder.t :=
  let mdPrefix := mdPrefixOf mdFile in
  match List.find (folderMatches mdPrefix) matchedJsonFolders with
  | Some matchingFolder =>
      let mdFile' :=
        MarkdownFile.setMatchingFolderId (JsonFolder.id matchingFolder) mdFile in
      match findIndex
              (fun f => String.eqb (JsonFolder.id f) (JsonFolder.id matchingFolder))
              matchedJsonFolders with
      | Some folderIndex =>
          (mdFile',
           alter (JsonFolder.setMatchingMarkdownId (MarkdownFile.id mdFile))
                 folderIndex matchedJsonFolders)
      | None => (mdFile', matchedJsonFolders)
      end
  | None => (mdFile, matchedJsonFolders)
  end.

(** [matchedMarkdownFiles.forEach(...)], threading the container array. *)
Fixpoint forEachMarkdown (mds : list MarkdownFile.t)
    (folders : list JsonFolder.t) : list MarkdownFile.t * list JsonFolder.t :=
  match mds with
  | [] => ([], folders)
  | mdFile :: rest =>
      let '(mdFile', folders') := visit folders mdFile in
      let '(rest', folders'') := forEachMarkdown rest folders' in
      (mdFile' :: rest', folders'')
  end.

(** [matchFilesWithFolders]: the pair
    [(matchedMarkdownFiles, matchedJsonFolders)]. *)
Definition matchFilesWithFolders (markdownFiles : list MarkdownFile.t)
    (jsonFolders : list JsonFolder.t)
    : list MarkdownFile.t * list JsonFolder.t :=
  forEachMarkdown markdownFiles jsonFolders.

End DriveService.

(* ================================================================= *)
(** ** [FileContext.tsx]: progress and status derivation *)

Module FileContext.

(** A count as a JavaScript number. *)
Definition num (n : nat) : Q := inject_Z (Z.of_nat n).

(** [calcProgress]:
    [files.length ? (files.filter(f => f.approved).length / files.length) * 100 : 0].
    The value here is the exact quotient; the code computes it in double
    precision, which rounds the division before it multiplies.  The two
    agree on 0 and on 100, and on which side of them a value lies. *)
Definition calcProgress (files : list JsonFile.t) : Q :=
  match length files with
  | O => 0
  | S _ =>
      (num (length (List.filter JsonFile.approved files)) / num (length files)
       * 100)%Q
  end.

(** [f => f.id === md.matchingFolderId]; an [undefined]
    [matchingFolderId] is strictly equal to no id. *)
Definition isFolderOf (md : MarkdownFile.t) (f : JsonFolder.t) : bool :=
  match MarkdownFile.matchingFolderId md with
  | Some fid => String.eqb (JsonFolder.id f) fid
  | None => false
  end.

(** In-place mutation of the object that [array.find(p)] returned. *)
Fixpoint mutateFound {A} (p : A -> bool) (f : A -> A) (l : list A) : list A :=
  match l with
  | [] => []
  | x :: r => if p x then f x :: r else x :: mutateFound p f r
  end.

(** [jsonNames.filter(n => resultNames.includes(n)).length] *)
Definition completedCount (jsonNames resultNames : list string) : nat :=
  length (List.filter (fun n => existsb (String.eqb n) resultNames) jsonNames).

(** The callback of [markdownFiles.map] in [determineFileStatuses]: the
    new document object, and the container array after the assignment
    [folder.progress = progress]. *)
Definition deriveStatus (jsonFolders : list JsonFolder.t)
    (resultFolders : list ResultFolder.t) (md : MarkdownFile.t)
    : MarkdownFile.t * list JsonFolder.t :=
  match List.find (isFolderOf md) jsonFolders with
  | None => (MarkdownFile.setStatus Pending md, jsonFolders)
  | Some folder =>
      let mdBase := Js.replaceMdAtEnd (MarkdownFile.name md) in
      match List.find (fun r => Js.includes mdBase (ResultFolder.folderName r))
                      resultFolders with
      | None =>
          let edited := existsb JsonFile.edited (JsonFolder.files folder) in
          (MarkdownFile.setStatus (if edited then InProgress else Pending) md,
           jsonFolders)
      | Some resultFolder =>
          let jsonNames := map JsonFile.name (JsonFolder.files folder) in
          let resultNames := map ResultFile.name (ResultFolder.files resultFolder) in
          let completed := completedCount jsonNames resultNames in
          let progress :=
            match length jsonNames with
            | O => 0%Q
            | S _ => (num completed / num (length jsonNames) * 100)%Q
            end in
          (MarkdownFile.setStatus
             (if (completed =? 0)%nat then Pending
              else if (completed <? length jsonNames)%nat then InProgress
              else Completed)
             md,
           mutateFound (isFolderOf md) (JsonFolder.setProgress progress) jsonFolders)
      end
  end.

(** [determineFileStatuses]: the mapped document array, together with the
    container array as the callbacks left it. *)
Fixpoint determineFileStatuses (markdownFiles : list MarkdownFile.t)
    (jsonFolders : list JsonFolder.t) (resultFolders : list ResultFolder.t)
    : list MarkdownFile.t * list JsonFolder.t :=
  match markdownFiles with
  | [] => ([], jsonFolders)
  | md :: rest =>
      let '(md', folders') := deriveStatus jsonFolders resultFolders md in
      let '(rest', folders'') := determineFileStatuses rest folders' resultFolders in
      (md' :: rest', folders'')
  end.

(** The computation in [loadFiles] between the three listings and
    [setFileState]: matching, then status derivation on the matched
    arrays. *)
Definition reconcile (markdownFiles : list MarkdownFile.t)
    (jsonFolders : list JsonFolder.t) (resultFolders : list ResultFolder.t)
    : list MarkdownFile.t * list JsonFolder.t :=
  let '(matchedMarkdownFiles, matchedJsonFolders) :=
    DriveService.matchFilesWithFolders markdownFiles jsonFolders in
  determineFileStatuses matchedMarkdownFiles matchedJsonFolders resultFolders.

(** [{ ...file, content, edited: true }] *)
Definition markEdited (content : option Content) (file : JsonFile.t) : JsonFile.t :=
  JsonFile.mk (JsonFile.id file) (JsonFile.name file) content
              (JsonFile.folderId file) true (JsonFile.approved file).

(** [{ ...file, approved: true }] *)
Definition markApproved (file : JsonFile.t) : JsonFile.t :=
  JsonFile.mk (JsonFile.id file) (JsonFile.name file) (JsonFile.content file)
              (JsonFile.folderId file) (JsonFile.edited file) true.

(** [folder.id === jsonFile.folderId]; an [undefined] [folderId] is
    strictly equal to no id. *)
Definition holdsItem (jsonFile : JsonFile.t) (folder : JsonFolder.t) : bool :=
  match JsonFile.folderId jsonFile with
  | Some fid => String.eqb (JsonFolder.id folder) fid
  | None => false
  end.

(** The folder update shared by [updateJsonFile] and [approveJsonFile]:
    the files of the item's folder are mapped and its progress is
    recomputed from the mapped files; other folders are kept. *)
Definition updateFolders (change : JsonFile.t -> JsonFile.t)
    (jsonFile : JsonFile.t) (folders : list JsonFolder.t) : list JsonFolder.t :=
  map (fun folder =>
         if holdsItem jsonFile folder then
           let files' :=
             map (fun file =>
                    if String.eqb (JsonFile.id file) (JsonFile.id jsonFile)
                    then change file else file)
                 (JsonFolder.files folder) in
           JsonFolder.setProgress (calcProgress files')
             (JsonFolder.setFiles files' folder)
         else folder)
      folders.

(** The state updater of [updateJsonFile]. *)
Definition updateJsonFile (jsonFile : JsonFile.t) (content : option Content)
    (prev : FileState) : FileState :=
  {| markdownFiles := markdownFiles prev;
     jsonFolders := updateFolders (markEdited content) jsonFile (jsonFolders prev);
     isLoading := isLoading prev;
     error := error prev |}.

(** The status [approveJsonFile] derives from a container's progress. *)
Definition statusOfProgress (p : Q) : Status :=
  if Qeq_bool p 100 then Completed
  else if negb (Qle_bool p 0) then InProgress
  else Pending.

(** The state updater of [approveJsonFile]. *)
Definition approveJsonFile (jsonFile : JsonFile.t) (prev : FileState) : FileState :=
  let updatedFolders := updateFolders markApproved jsonFile (jsonFolders prev) in
  let updatedMarkdownFiles :=
    map (fun md =>
           match List.find (isFolderOf md) updatedFolders with
           | None => md
           | Some match_ =>
               MarkdownFile.setStatus
                 (statusOfProgress (JsonFolder.progress match_)) md
           end)
        (markdownFiles prev) in
  {| markdownFiles := updatedMarkdownFiles;
     jsonFolders := updatedFolders;
     isLoading := isLoading prev;
     error := error prev |}.

End FileContext.

(* ================================================================= *)
(** ** [server.js]: cache, paged listing, downloads and promotion *)

(** The outcome of an asynchronous call: the promise resolves, rejects, or
    has not settled within the number of store round trips allowed. *)
Inductive Async (A : Type) :=
| Resolved (a : A)
| Rejected
| Unsettled.
Arguments Resolved {A} a.
Arguments Rejected {A}.
Arguments Unsettled {A}.

(** A computation over a store state [S] that may throw. *)
Definition Task (S A : Type) : Type := S -> Async A * S.

Definition ret {S A} (a : A) : Task S A := fun s => (Resolved a, s).

Definition bind {S A B} (m : Task S A) (k : A -> Task S B) : Task S B :=
  fun s =>
    match m s with
    | (Resolved a, s') => k a s'
    | (Rejected, s') => (Rejected, s')
    | (Unsettled, s') => (Unsettled, s')
    end.

Notation "'let*' x ':=' m 'in' k" := (bind m (fun x => k))
  (at level 10, x pattern, m at level 100, k at level 200).

(** A store call: [None] is a rejected request. *)
Definition await {S A} (call : S -> option A * S) : Task S A :=
  fun s =>
    match call s with
    | (Some a, s') => (Resolved a, s')
    | (None, s') => (Rejected, s')
    end.

Module Drive.

(** The search expressions the server sends.  Each of them asks for the
    non-trashed children of one parent, optionally with an exact name and
    an exact MIME type; the record is the meaning of the query string. *)
Record Query := {
  parent : string;
  nameIs : option string;
  mimeTypeIs : option string
}.

(** One entry of a listing ([id], [name], [modifiedTime]). *)
Record Listing := {
  id : string;
  name : string;
  modifiedTime : option string
}.

(** The parameters of [drive.files.list]. *)
Record ListParams := {
  q : Query;
  fields : string;
  pageSize : nat;
  pageToken : option string
}.

(** The [data] of a [drive.files.list] response. *)
Record ListData := {
  files : option (list Listing);
  nextPageToken : option string
}.

(** The parameters of [drive.files.create]. *)
Record CreateParams := {
  resourceName : string;
  resourceParents : list string;
  resourceMimeType : string;
  mediaBody : option string
}.

(** The three store calls the server makes besides downloads. *)
Class Api (S : Type) := {
  files_list : ListParams -> S -> option ListData * S;
  files_create : CreateParams -> S -> option string * S;
  files_delete : string -> S -> option unit * S
}.

End Drive.

Module Server.

(* --------------------------- cache ------------------------------ *)

(** [new NodeCache({ stdTTL: CACHE_TTL_SEC })].  The map is the content of
    the cache at one moment: the entries that were set and have neither
    been deleted nor run out of time.  An entry runs out [CACHE_TTL_SEC]
    (300) seconds after it was set.  Time is not part of the state: between
    two calls entries may have left the content, and a statement about a
    later call says what the cache holds then. *)
Section Cache.
Context {V : Type}.

Definition cacheGet (k : string) (cache : gmap string V) : option V :=
  cache !! k.

Definition cacheSet (k : string) (v : V) (cache : gmap string V)
    : gmap string V :=
  <[k := v]> cache.

(** [cache.keys()] *)
Definition keys (cache : gmap string V) : list string :=
  (map_to_list cache).*1.

(** [cacheDel]; the argument is [None] when the caller passes none, and
    the parameter then takes its default [''].  A truthy prefix walks
    over the keys and deletes those that start with it; the empty
    prefix flushes the cache. *)
Definition cacheDel (pref : option string) (cache : gmap string V)
    : gmap string V :=
  let pref := default "" pref in
  if Js.truthy pref then
    foldl (fun c k => if Js.startsWith k pref then delete k c else c)
          cache (keys cache)
  else ∅.
End Cache.

(* ------------------------- paged listing ------------------------ *)

Section Listing.
Context {S : Type} `{!Drive.Api S}.

(** The [do ... while (pageToken)] loop of [listAll], entered with the
    current [pageToken] and [out].  [fuel] bounds the number of page
    requests. *)
Fixpoint listAllFrom (fuel : nat) (query : Drive.Query) (fields : string)
    (pageToken : option string) (out : list Drive.Listing)
    : Task S (list Drive.Listing) :=
  match fuel with
  | O => fun s => (Unsettled, s)
  | Datatypes.S fuel' =>
      let* data :=
        await (Drive.files_list
                 {| Drive.q := query;
                    Drive.fields := "nextPageToken, files(" +:+ fields +:+ ")";
                    Drive.pageSize := 1000;
                    Drive.pageToken := pageToken |}) in
      let out' :=
        match Drive.files data with
        | Some (file :: more) => out ++ file :: more
        | _ => out
        end in
      let pageToken' := Drive.nextPageToken data in
      if Js.truthyOpt pageToken'
      then listAllFrom fuel' query fields pageToken' out'
      else ret out'
  end.

(** [listAll(query, fields)] *)
Definition listAll (fuel : nat) (query : Drive.Query) (fields : string)
    : Task S (list Drive.Listing) :=
  listAllFrom fuel query fields None [].
End Listing.

(* --------------------------- downloads -------------------------- *)

(** A [Buffer]: a sequence of bytes. *)
Definition Buffer := string.

(** What [drive.files.get] may hand back as [data].  A parsed object is
    represented by the text [JSON.stringify(data)] gives for it, any
    other non-binary value by [String(data)]. *)
Inductive TransportData :=
| DataBuffer (bytes : Buffer)
| DataArrayBuffer (bytes : Buffer)
| DataObject (stringified : string)
| DataOther (str : string).

(** The normalisation at the end of [fetchFileBytes]. *)
Definition toBuffer (data : TransportData) : Buffer :=
  match data with
  | DataBuffer bytes => bytes
  | DataArrayBuffer bytes => bytes
  | DataObject stringified => stringified
  | DataOther str => str
  end.

(** The state a download touches: the cache, and the log of the
    [drive.files.get] round trips issued so far. *)
Record Downloads := {
  dlCache : gmap string Buffer;
  getRequests : list string
}.

(** Where a call of [fetchFileBytes] stands when it first gives up
    control. *)
Inductive Started :=
| Hit (hit : Buffer)
| AwaitingDrive.

(** [fetchFileBytes] up to its [await]: a cached buffer is returned at
    once (a [Buffer] is an object, hence truthy); otherwise the request
    to the store goes out. *)
Definition fetchFileBytes_start (fileId : string) (st : Downloads)
    : Started * Downloads :=
  let key := "file-" +:+ fileId in
  match cacheGet key (dlCache st) with
  | Some hit => (Hit hit, st)
  | None =>
      (AwaitingDrive,
       {| dlCache := dlCache st; getRequests := getRequests st ++ [fileId] |})
  end.

(** [fetchFileBytes] from its [await] on, when the store has answered:
    [None] is a rejected request. *)
Definition fetchFileBytes_resume (fileId : string)
    (response : option TransportData) (st : Downloads)
    : Async Buffer * Downloads :=
  let key := "file-" +:+ fileId in
  match response with
  | None => (Rejected, st)
  | Some data =>
      let buf := toBuffer data in
      (Resolved buf,
       {| dlCache := cacheSet key buf (dlCache st);
          getRequests := getRequests st |})
  end.

(** [fetchFileBytes] run without another task in between. *)
Definition fetchFileBytes (fileId : string) (response : option TransportData)
    (st : Downloads) : Async Buffer * Downloads :=
  match fetchFileBytes_start fileId st with
  | (Hit hit, st') => (Resolved hit, st')
  | (AwaitingDrive, st') => fetchFileBytes_resume fileId response st'
  end.

(** The event loop as seen by the downloads: a caller enters
    [fetchFileBytes], or the store answers the oldest request still in
    flight for an id. *)
Inductive Event :=
| Enter (fileId : string)
| Answer (fileId : string) (response : option TransportData).

Fixpoint removeFirst (x : string) (l : list string) : option (list string) :=
  match l with
  | [] => None
  | y :: r => if String.eqb x y then Some r
              else cons y <$> removeFirst x r
  end.

(** One event: the downloads state and the ids whose request is in
    flight. *)
Definition step (ev : Event) (cfg : Downloads * list string)
    : Downloads * list string :=
  let '(st, inFlight) := cfg in
  match ev with
  | Enter fileId =>
      match fetchFileBytes_start fileId st with
      | (Hit _, st') => (st', inFlight)
      | (AwaitingDrive, st') => (st', inFlight ++ [fileId])
      end
  | Answer fileId response =>
      match removeFirst fileId inFlight with
      | Some inFlight' => ((fetchFileBytes_resume fileId response st).2, inFlight')
      | None => (st, inFlight)
      end
  end.

Definition run (events : list Event) (cfg : Downloads * list string)
    : Downloads * list string :=
  foldl (fun c ev => step ev c) cfg events.

(* ------------------------ POST /api/save-json ------------------- *)

Record State (S V : Type) := {
  drive : S;
  cache : gmap string V
}.
Arguments drive {S V} _.
Arguments cache {S V} _.

(** [req.body.jsonFile] when it is an object.  A name is a string, or
    [None] when the property is missing or [null], which are falsy alike;
    a content is [None] when it is [undefined]. *)
Record JsonFileBody := {
  name : option string;
  content : option Content
}.

(** The property [jsonFile] of the body: missing, [null], or an object. *)
Inductive JsonFileProp :=
| JsonFileMissing
| JsonFileNull
| JsonFileObject (item : JsonFileBody).

(** [req.body]: [undefined], or an object with the properties [jsonFile]
    and [folderName]; [folderName] is a string, or [None] when it is
    missing or [null]. *)
Inductive SaveJsonBody :=
| BodyUndefined
| Body (jsonFile : JsonFileProp) (folderName : option string).

Record Response := {
  statusCode : nat;
  message : string
}.

Definition FOLDER_MIME : string := "application/vnd.google-apps.folder".
Definition JSON_MIME : string := "application/json".

Section SaveJson.
Context {S V : Type} `{!Drive.Api S}.
Variable RESULT_FOLDER_ID : string.

(** [!folderName || !jsonFile.name || jsonFile.content === undefined] *)
Definition invalid (folderName : option string) (jsonFile : JsonFileBody)
    : bool :=
  negb (Js.truthyOpt folderName)
  || negb (Js.truthyOpt (name jsonFile))
  || match content jsonFile with None => true | Some _ => false end.

(** The store side of the route, after validation: find or create the
    destination folder, delete a file of the same name, create the
    file. *)
Definition promote (fuel : nat) (folderName fileName : string)
    (fileContent : Content) : Task S unit :=
  let* matches :=
    listAll fuel
      {| Drive.parent := RESULT_FOLDER_ID;
         Drive.nameIs := Some folderName;
         Drive.mimeTypeIs := Some FOLDER_MIME |}
      "id" in
  let* destFolderId :=
    match matches with
    | first :: _ => ret (Drive.id first)
    | [] =>
        await (Drive.files_create
                 {| Drive.resourceName := folderName;
                    Drive.resourceParents := [RESULT_FOLDER_ID];
                    Drive.resourceMimeType := FOLDER_MIME;
                    Drive.mediaBody := None |})
    end in
  let mediaBody :=
    match fileContent with
    | ContentString s => s
    | ContentValue stringified => stringified
    end in
  let* existingFiles :=
    listAll fuel
      {| Drive.parent := destFolderId;
         Drive.nameIs := Some fileName;
         Drive.mimeTypeIs := Some JSON_MIME |}
      "id,name" in
  let* _ :=
    match existingFiles with
    | first :: _ => await (Drive.files_delete (Drive.id first))
    | [] => ret tt
    end in
  let* _ :=
    await (Drive.files_create
             {| Drive.resourceName := fileName;
                Drive.resourceParents := [destFolderId];
                Drive.resourceMimeType := JSON_MIME;
                Drive.mediaBody := Some mediaBody |}) in
  ret tt.

(** The route from its validation on, for a [jsonFile] that is an object:
    the response, and the server state it leaves. *)
Definition saveItem (fuel : nat) (folderName : option string)
    (jsonFile : JsonFileBody) (st : State S V) : Async Response * State S V :=
  let badRequest :=
    {| statusCode := 400;
       message := "Invalid request: must include folderName, jsonFile.name, jsonFile.content" |} in
  if invalid folderName jsonFile then (Resolved badRequest, st)
  else
    match content jsonFile with
    | None => (Resolved badRequest, st) (* excluded by [invalid] *)
    | Some fileContent =>
        match promote fuel (default "" folderName)
                      (default "" (name jsonFile)) fileContent (drive st) with
        | (Resolved _, d) =>
            (Resolved {| statusCode := 200; message := "File saved successfully" |},
             {| drive := d; cache := cacheDel (Some "result-index") (cache st) |})
        | (Rejected, d) =>
            (Resolved {| statusCode := 500; message := "Failed to save JSON file" |},
             {| drive := d; cache := cache st |})
        | (Unsettled, d) =>
            (Unsettled, {| drive := d; cache := cache st |})
        end
    end.

(** The route handler.  [const { jsonFile = {}, folderName } = req.body]
    throws for a body that is [undefined], and takes [{}] for a [jsonFile]
    that is missing, not for one that is [null]: there the validation reads
    [jsonFile.name] of [null], unless [!folderName] has decided it before,
    and throws.  What is thrown is caught by the route and answered 500. *)
Definition saveJson (fuel : nat) (body : SaveJsonBody) (st : State S V)
    : Async Response * State S V :=
  let thrown :=
    (Resolved {| statusCode := 500; message := "Failed to save JSON file" |}, st) in
  match body with
  | BodyUndefined => thrown
  | Body JsonFileNull folderName =>
      if negb (Js.truthyOpt folderName)
      then
        (Resolved
           {| statusCode := 400;
              message := "Invalid request: must include folderName, jsonFile.name, jsonFile.content" |},
         st)
      else thrown
  | Body JsonFileMissing folderName =>
      saveItem fuel folderName {| name := None; content := None |} st
  | Body (JsonFileObject jsonFile) folderName =>
      saveItem fuel folderName jsonFile st
  end.
End SaveJson.

End Server.

(* ================================================================= *)
(** ** Two stores behind [Drive.Api] *)

(** A store that answers listing requests from a script, one response per
    request, and records the requests it received. *)
Module ScriptedDrive.

Record t := {
  script : list (option Drive.ListData);
  requests : list Drive.ListParams
}.

Definition respond (p : Drive.ListParams) (s : t) : option Drive.ListData * t :=
  match script s with
  | response :: rest =>
      (response, {| script := rest; requests := requests s ++ [p] |})
  | [] => (None, {| script := []; requests := requests s ++ [p] |})
  end.

#[global] Instance api : Drive.Api t := {|
  Drive.files_list := respond;
  Drive.files_create := fun _ s => (None, s);
  Drive.files_delete := fun _ s => (None, s)
|}.

End ScriptedDrive.

(** A store held in memory: the objects it contains and the calls it
    received, oldest first.  A listing is answered in one page with every
    object the query selects, in storage order. *)
Module MemDrive.

Record Object := {
  id : string;
  name : string;
  parents : list string;
  mimeType : string;
  trashed : bool;
  body : option string
}.

Inductive Call :=
| Listed (p : Drive.ListParams)
| Created (p : Drive.CreateParams)
| Deleted (fileId : string).

Record t := {
  objects : list Object;
  calls : list Call
}.

Definition optEq (want : option string) (have : string) : bool :=
  match want with
  | Some w => String.eqb have w
  | None => true
  end.

(** ['<parent>' in parents and name='...' and mimeType='...' and trashed=false] *)
Definition selects (q : Drive.Query) (o : Object) : bool :=
  existsb (String.eqb (Drive.parent q)) (parents o)
  && optEq (Drive.nameIs q) (name o)
  && optEq (Drive.mimeTypeIs q) (mimeType o)
  && negb (trashed o).

Definition toListing (o : Object) : Drive.Listing :=
  {| Drive.id := id o; Drive.name := name o; Drive.modifiedTime := None |}.

Definition listPage (p : Drive.ListParams) (s : t) : option Drive.ListData * t :=
  (Some {| Drive.files :=
             Some (map toListing (List.filter (selects (Drive.q p)) (objects s)));
           Drive.nextPageToken := None |},
   {| objects := objects s; calls := calls s ++ [Listed p] |}).

Fixpoint pad (n : nat) : string :=
  match n with
  | O => EmptyString
  | S k => String "x" (pad k)
  end.

(** The id the store gives a new object: longer than every id in use. *)
Definition freshId (objs : list Object) : string :=
  pad (S (list_max (map (fun o => String.length (id o)) objs))).

Definition createObject (p : Drive.CreateParams) (s : t) : option string * t :=
  let newId := freshId (objects s) in
  (Some newId,
   {| objects :=
        objects s ++
        [{| id := newId;
            name := Drive.resourceName p;
            parents := Drive.resourceParents p;
            mimeType := Drive.resourceMimeType p;
            trashed := false;
            body := Drive.mediaBody p |}];
      calls := calls s ++ [Created p] |}).

(** Deleting an id the store does not hold is rejected. *)
Definition deleteObject (fileId : string) (s : t) : option unit * t :=
  let s' objs := {| objects := objs; calls := calls s ++ [Deleted fileId] |} in
  if existsb (fun o => String.eqb (id o) fileId) (objects s)
  then (Some tt,
        s' (List.filter (fun o => negb (String.eqb (id o) fileId)) (objects s)))
  else (None, s' (objects s)).

#[global] Instance api : Drive.Api t := {|
  Drive.files_list := listPage;
  Drive.files_create := createObject;
  Drive.files_delete := deleteObject
|}.

End MemDrive.

(* ================================================================= *)
(** ** [server.js]: the other routes *)

Module Routes.

(** What the server puts in its cache: a listing ([markdown-index]), the
    containers with their files ([json-index], [result-index]), or the
    bytes of a file ([file-<id>]).  Each is an array or a [Buffer], hence
    truthy: a key that is present is a hit. *)
Inductive Cached :=
| Files (files : list Drive.Listing)
| Folders (folders : list (Drive.Listing * list Drive.Listing))
| Bytes (buf : Server.Buffer).

(** What a listing route answers: [res.json(value)], or
    [res.status(500).json({ error })]. *)
Inductive Reply :=
| Json (value : Cached)
| Error500 (error : string).

Section MarkdownFiles.
Context {S : Type} `{!Drive.Api S}.
Variable MARKDOWN_FOLDER_ID : string.

(** [GET /api/markdown-files] *)
Definition markdownFiles (fuel : nat) (st : Server.State S Cached)
    : Async Reply * Server.State S Cached :=
  let k := "markdown-index" in
  match Server.cacheGet k (Server.cache st) with
  | Some hit => (Resolved (Json hit), st)
  | None =>
      match Server.listAll fuel
              {| Drive.parent := MARKDOWN_FOLDER_ID;
                 Drive.nameIs := None;
                 Drive.mimeTypeIs := None |}
              "id,name,modifiedTime" (Server.drive st) with
      | (Resolved files, d) =>
          (Resolved (Json (Files files)),
           {| Server.drive := d;
              Server.cache := Server.cacheSet k (Files files) (Server.cache st) |})
      | (Rejected, d) =>
          (Resolved (Error500 "Failed to list markdown files"),
           {| Server.drive := d; Server.cache := Server.cache st |})
      | (Unsettled, d) =>
          (Unsettled, {| Server.drive := d; Server.cache := Server.cache st |})
      end
  end.
End MarkdownFiles.

(** The body of [POST /api/cache/clear]'s answer. *)
Record Cleared := {
  message : string;
  clearedPrefix : string
}.

(** [POST /api/cache/clear]; [keyPrefix] is [None] when the request has no
    body or the body has no such property, and then defaults to ['']. *)
Definition cacheClear {V} (keyPrefix : option string) (cache : gmap string V)
    : Cleared * gmap string V :=
  let keyPrefix := default "" keyPrefix in
  ({| message := "Cache cleared";
      clearedPrefix := if Js.truthy keyPrefix then keyPrefix else "all" |},
   Server.cacheDel (Some keyPrefix) cache).

(** [GET /api/health]: the number of cached keys. *)
Definition health {V} (cache : gmap string V) : nat :=
  length (Server.keys cache).

(** What [GET /api/files/:fileId/download] answers: the headers it has set
    and the bytes it has sent, or status 500. *)
Inductive Download :=
| Attachment (disposition : string) (body : Server.Buffer)
| DownloadFailed.

(** The [Content-Disposition] header for a file name. *)
Definition disposition (name : string) : string :=
  "attachment; filename=" +:+ String Json.QUOTE name +:+ String Json.QUOTE "".

(** [res.setHeader(name, value)] throws [ERR_INVALID_CHAR] unless every
    character of the value is TAB or lies between U+0020 and U+007E or
    between U+0080 and U+00FF.  In UTF-8 these are the byte 09, the bytes
    20 to 7E, and the lead bytes C2 and C3 with their continuation bytes;
    a character above U+00FF has a lead byte above C3. *)
Definition headerByte (c : ascii) : bool :=
  let n := nat_of_ascii c in
  (n =? 9)%nat || ((32 <=? n)%nat && (n <=? 126)%nat)
  || ((128 <=? n)%nat && (n <=? 195)%nat).

Fixpoint validHeaderValue (value : string) : bool :=
  match value with
  | EmptyString => true
  | String c r => headerByte c && validHeaderValue r
  end.

(** One more [drive.files.get] round trip for [fileId]. *)
Definition asked (fileId : string) (st : Server.Downloads) : Server.Downloads :=
  {| Server.dlCache := Server.dlCache st;
     Server.getRequests := Server.getRequests st ++ [fileId] |}.

(** [GET /api/files/:fileId/download], run without another task in
    between.  [name] is the answer of the store to the request for the
    name, [stream] the chunks of the media stream, which the route asks for
    only when the bytes are not cached; [None] is a rejected request.  A
    header that [setHeader] refuses makes the route answer 500 like a
    rejected request.  The stream is one that ends: its chunks are piped to
    the client, and at its end their concatenation is cached. *)
Definition download (fileId : string) (name : option string)
    (stream : option (list Server.Buffer)) (st : Server.Downloads)
    : Download * Server.Downloads :=
  let st1 := asked fileId st in
  match name with
  | None => (DownloadFailed, st1)
  | Some name =>
      if negb (validHeaderValue (disposition name)) then (DownloadFailed, st1)
      else
        match Server.cacheGet ("file-" +:+ fileId) (Server.dlCache st1) with
        | Some hit => (Attachment (disposition name) hit, st1)
        | None =>
            let st2 := asked fileId st1 in
            match stream with
            | None => (DownloadFailed, st2)
            | Some chunks =>
                let bytes := String.concat "" chunks in
                (Attachment (disposition name) bytes,
                 {| Server.dlCache :=
                      Server.cacheSet ("file-" +:+ fileId) bytes (Server.dlCache st2);
                    Server.getRequests := Server.getRequests st2 |})
            end
        end
  end.

End Routes.

(* ================================================================= *)
(** ** Two more stores *)

(** The in-memory store behind a connection that answers a number of calls
    and rejects every call after them; a rejected call does not reach the
    store. *)
Module FlakyDrive.

Record t := {
  store : MemDrive.t;
  healthy : nat
}.

Definition call {A} (op : MemDrive.t -> option A * MemDrive.t) (s : t)
    : option A * t :=
  match healthy s with
  | O => (None, s)
  | S n => let '(a, m) := op (store s) in (a, {| store := m; healthy := n |})
  end.

#[global] Instance api : Drive.Api t := {|
  Drive.files_list := fun p => call (MemDrive.listPage p);
  Drive.files_create := fun p => call (MemDrive.createObject p);
  Drive.files_delete := fun fileId => call (MemDrive.deleteObject fileId)
|}.

End FlakyDrive.

(** A store whose every page announces a successor.  Its state is the
    number of pages it has served. *)
Module EndlessDrive.

Definition t := nat.

Definition page (n : nat) : Drive.ListData :=
  {| Drive.files :=
       Some [{| Drive.id := MemDrive.pad n; Drive.name := MemDrive.pad n;
                Drive.modifiedTime := None |}];
     Drive.nextPageToken := Some "more" |}.

#[global] Instance api : Drive.Api t := {|
  Drive.files_list := fun _ n => (Some (page n), S n);
  Drive.files_create := fun _ n => (None, n);
  Drive.files_delete := fun _ n => (None, n)
|}.

End EndlessDrive.

(* ================================================================= *)
(** ** The client's way to the results: [saveJsonFile], [saveToResults] *)

Module Client.

(** The request body the server reads out of
    [JSON.stringify({ jsonFile, folderName })]: of the item its name and
    its content, which is absent when it is [undefined]. *)
Definition payload (jsonFile : JsonFile.t) (folderName : string)
    : Server.SaveJsonBody :=
  Server.Body
    (Server.JsonFileObject
       {| Server.name := Some (JsonFile.name jsonFile);
          Server.content := JsonFile.content jsonFile |})
    (Some folderName).

(** [result.id] of a parsed response body: the member [id] of an object
    (the last one, should the key be repeated), [undefined] otherwise.  Keys
    are compared as they are written. *)
Definition idOf (result : Json.value) : option Json.value :=
  match result with
  | Json.Object members =>
      snd <$> List.find (fun m => String.eqb (fst m) "id") (List.rev members)
  | _ => None
  end.

Section SaveJsonFile.
Context {T : Type}.

(** [fetch('/api/save-json', { method: 'POST', body })] against a server
    in state [T]; [None] is a request that fails.  The errors [fetch] and
    [response.json()] throw are the engine's: their messages below stand
    for them. *)
Variable post : Server.SaveJsonBody -> T -> option DriveService.HttpResponse * T.

(** [saveJsonFile] *)
Definition saveJsonFile (jsonFile : JsonFile.t) (folderName : string) (t : T)
    : DriveService.Promise (option Json.value) * T :=
  match JsonFile.content jsonFile with
  | None => (DriveService.Failed "JSON file content is undefined", t)
  | Some _ =>
      match post (payload jsonFile folderName) t with
      | (None, t') => (DriveService.Failed "Failed to fetch", t')
      | (Some response, t') =>
          if negb (DriveService.ok response) then
            (DriveService.Failed
               ("Failed to save JSON file: "
                +:+ DriveService.showNat (DriveService.status response)
                +:+ " - " +:+ DriveService.text response),
             t')
          else
            match Json.parse (DriveService.text response) with
            | Some result => (DriveService.Fulfilled (idOf result), t')
            | None => (DriveService.Failed "Unexpected token in JSON", t')
            end
      end
  end.

(** [{ ...prev, error: 'Failed to save file ...' }] *)
Definition saveFailed (prev : FileState) : FileState :=
  {| markdownFiles := markdownFiles prev;
     jsonFolders := jsonFolders prev;
     isLoading := isLoading prev;
     error := Some "Failed to save file to results folder. Please try again." |}.

(** [{ ...fileToSave, content: parsed }] *)
Definition withContent (parsed : Content) (file : JsonFile.t) : JsonFile.t :=
  JsonFile.mk (JsonFile.id file) (JsonFile.name file) (Some parsed)
              (JsonFile.folderId file) (JsonFile.edited file) (JsonFile.approved file).

(** [saveToResults]: the client state and the server after the call.
    [fetched] is what [fetchFileContent] and [JSON.parse] deliver for the
    item; it is asked for only when the item has no content.  The state
    updaters the function queues are applied in the order it queues them,
    with no other update in between; [clearCache] writes a time stamp to
    the local storage and touches none of this. *)
Definition saveToResults (isAuthenticated : bool)
    (fetched : DriveService.Promise Content)
    (jsonFile : JsonFile.t) (folderName : string)
    (state : FileState) (t : T) : FileState * T :=
  if negb isAuthenticated then (state, t)
  else
    let prepared :=
      match JsonFile.content jsonFile with
      | Some _ => DriveService.Fulfilled (jsonFile, state)
      | None =>
          match fetched with
          | DriveService.Fulfilled parsed =>
              let fileToSave := withContent parsed jsonFile in
              DriveService.Fulfilled
                (fileToSave,
                 FileContext.updateJsonFile fileToSave (Some parsed) state)
          | DriveService.Failed message => DriveService.Failed message
          end
      end in
    match prepared with
    | DriveService.Failed _ => (saveFailed state, t)
    | DriveService.Fulfilled (fileToSave, state1) =>
        match saveJsonFile fileToSave folderName t with
        | (DriveService.Fulfilled _, t') =>
            (FileContext.approveJsonFile fileToSave state1, t')
        | (DriveService.Failed _, t') => (saveFailed state1, t')
        end
    end.

End SaveJsonFile.

(** The route behind [fetch].  [response.ok] is a status from 200 to 299;
    the body is the JSON text [res.json] writes, an object with the member
    [message] for status 200 and [error] otherwise (the messages of the
    route hold no character that JSON escapes).  A request that is not
    answered fails. *)
Definition quoted (s : string) : string :=
  String Json.QUOTE s +:+ String Json.QUOTE "".

Definition wire (r : Server.Response) : DriveService.HttpResponse :=
  {| DriveService.ok :=
       (200 <=? Server.statusCode r)%nat && (Server.statusCode r <=? 299)%nat;
     DriveService.status := Server.statusCode r;
     DriveService.text :=
       "{" +:+ quoted (if (Server.statusCode r =? 200)%nat then "message" else "error")
       +:+ ":" +:+ quoted (Server.message r) +:+ "}" |}.

Definition server {S V : Type} `{!Drive.Api S} (RESULT_FOLDER_ID : string)
    (fuel : nat) (body : Server.SaveJsonBody) (st : Server.State S V)
    : option DriveService.HttpResponse * Server.State S V :=
  match Server.saveJson RESULT_FOLDER_ID fuel body st with
  | (Resolved r, st') => (Some (wire r), st')
  | (_, st') => (None, st')
  end.

End Client.

(* ================================================================= *)
(** * Vocabulary of the statements *)

(* ----------------------------------------------------------------- *)
(** ** Paged listing *)

(** The request [listAll] sends for a page token. *)
Definition pageRequest (query : Drive.Query) (fields : string)
    (pageToken : option string) : Drive.ListParams :=
  {| Drive.q := query;
     Drive.fields := "nextPageToken, files(" +:+ fields +:+ ")";
     Drive.pageSize := 1000;
     Drive.pageToken := pageToken |}.

(** The entries of a page; a response without [files] has none. *)
Definition pageFiles (page : Drive.ListData) : list Drive.Listing :=
  default [] (Drive.files page).

(** A page that announces a successor. *)
Definition hasNext (page : Drive.ListData) : Prop :=
  Js.truthyOpt (Drive.nextPageToken page) = true.

(** The last element of [x :: l]. *)
Definition lastOr {A} (x : A) (l : list A) : A := default x (last l).

(** A listing of three entries served in two pages. *)
Definition rootQuery : Drive.Query :=
  {| Drive.parent := "root"; Drive.nameIs := None; Drive.mimeTypeIs := None |}.

Definition entry (i : string) : Drive.Listing :=
  {| Drive.id := i; Drive.name := i; Drive.modifiedTime := None |}.

Definition firstPage : Drive.ListData :=
  {| Drive.files := Some [entry "a"; entry "b"];
     Drive.nextPageToken := Some "t1" |}.

Definition secondPage : Drive.ListData :=
  {| Drive.files := Some [entry "c"]; Drive.nextPageToken := None |}.

(* ----------------------------------------------------------------- *)
(** ** Promotion *)

(** The two answers of the route that the statements name. *)
Definition badRequest : Server.Response :=
  {| Server.statusCode := 400;
     Server.message :=
       "Invalid request: must include folderName, jsonFile.name, jsonFile.content" |}.

Definition saved : Server.Response :=
  {| Server.statusCode := 200; Server.message := "File saved successfully" |}.

(** A string property that is missing or empty. *)
Definition blank (o : option string) : Prop := o = None \/ o = Some "".


(** The query for the destination folder, and the one for the files of a
    given name in it. *)
Definition folderQuery (RESULT_FOLDER_ID folderName : string) : Drive.Query :=
  {| Drive.parent := RESULT_FOLDER_ID;
     Drive.nameIs := Some folderName;
     Drive.mimeTypeIs := Some Server.FOLDER_MIME |}.

Definition fileQuery (destFolderId fileName : string) : Drive.Query :=
  {| Drive.parent := destFolderId;
     Drive.nameIs := Some fileName;
     Drive.mimeTypeIs := Some Server.JSON_MIME |}.

(** What a query selects in the in-memory store. *)
Definition selected (q : Drive.Query) (d : MemDrive.t) : list MemDrive.Object :=
  List.filter (MemDrive.selects q) (MemDrive.objects d).

(** The text uploaded for a content: a string as it is, another value in
    its serialised form. *)
Definition mediaText (fileContent : Content) : string :=
  match fileContent with
  | ContentString s => s
  | ContentValue stringified => stringified
  end.

(** The object [drive.files.create] adds for a promoted item. *)
Definition promoted (newId destFolderId fileName : string) (fileContent : Content)
    : MemDrive.Object :=
  {| MemDrive.id := newId;
     MemDrive.name := fileName;
     MemDrive.parents := [destFolderId];
     MemDrive.mimeType := Server.JSON_MIME;
     MemDrive.trashed := false;
     MemDrive.body := Some (mediaText fileContent) |}.

(** A server that has been asked nothing. *)
Definition untouched : Server.State MemDrive.t string :=
  {| Server.drive := {| MemDrive.objects := []; MemDrive.calls := [] |};
     Server.cache := ∅ |}.

(** The request body of a well-formed promotion. *)
Definition promotion (folderName fileName : string) (fileContent : Content)
    : Server.SaveJsonBody :=
  Server.Body
    (Server.JsonFileObject
       {| Server.name := Some fileName; Server.content := Some fileContent |})
    (Some folderName).

(** A results area whose container [batch] holds two files named
    [a.json]. *)
Definition duplicated : MemDrive.t :=
  {| MemDrive.objects :=
       [ {| MemDrive.id := "F"; MemDrive.name := "batch";
            MemDrive.parents := ["results"];
            MemDrive.mimeType := Server.FOLDER_MIME;
            MemDrive.trashed := false; MemDrive.body := None |};
         {| MemDrive.id := "1"; MemDrive.name := "a.json";
            MemDrive.parents := ["F"]; MemDrive.mimeType := Server.JSON_MIME;
            MemDrive.trashed := false; MemDrive.body := Some "{}" |};
         {| MemDrive.id := "2"; MemDrive.name := "a.json";
            MemDrive.parents := ["F"]; MemDrive.mimeType := Server.JSON_MIME;
            MemDrive.trashed := false; MemDrive.body := Some "{}" |} ];
     MemDrive.calls := [] |}.

(** The same area with one such file. *)
Definition single : MemDrive.t :=
  {| MemDrive.objects := take 2 (MemDrive.objects duplicated);
     MemDrive.calls := [] |}.

(** The promotion of [a.json] into [batch] over a store, with the results
    index in the cache. *)
Definition promoteOver (d : MemDrive.t)
    : Async Server.Response * Server.State MemDrive.t string :=
  Server.saveJson "results" 1 (promotion "batch" "a.json" (ContentString "[]"))
    {| Server.drive := d; Server.cache := {[ "result-index" := "cached" ]} |}.

(* ----------------------------------------------------------------- *)
(** ** Progress *)

(** The number of approved items. *)
Definition approvedCount (files : list JsonFile.t) : nat :=
  length (List.filter JsonFile.approved files).

(** An item as the listing of a container delivers it: an id and a name,
    no [folderId], no content, no flag. *)
Definition listed (id name : string) : JsonFile.t :=
  JsonFile.mk id name None None false false.

(** The same item with the id of a container for [folderId], which nothing
    in the program supplies. *)
Definition inFolder (folderId : string) (file : JsonFile.t) : JsonFile.t :=
  JsonFile.mk (JsonFile.id file) (JsonFile.name file) (JsonFile.content file)
              (Some folderId) (JsonFile.edited file) (JsonFile.approved file).

(** The items [a] to [d], and a container that holds the four as listed,
    before any result exists. *)
Definition itemA : JsonFile.t := listed "a" "a.json".
Definition itemB : JsonFile.t := listed "b" "b.json".
Definition itemC : JsonFile.t := listed "c" "c.json".
Definition itemD : JsonFile.t := listed "d" "d.json".

Definition fourItems : JsonFolder.t :=
  JsonFolder.mk "f1" "rpt_2024_01_data" [itemA; itemB; itemC; itemD] None 0.

(** The client state that holds only that container. *)
Definition fourItemsState : FileState :=
  {| markdownFiles := []; jsonFolders := [fourItems];
     isLoading := false; error := None |}.

(** The state in which every item of a container carries the container's
    id for [folderId]. *)
Definition withFolderIds (state : FileState) : FileState :=
  {| markdownFiles := markdownFiles state;
     jsonFolders :=
       map (fun folder =>
              JsonFolder.setFiles
                (map (inFolder (JsonFolder.id folder)) (JsonFolder.files folder))
                folder)
           (jsonFolders state);
     isLoading := isLoading state;
     error := error state |}.

(* ----------------------------------------------------------------- *)
(** ** Matching and status *)

(** The container [find] selects for a document. *)
Definition foundFor (folders : list JsonFolder.t) (md : MarkdownFile.t)
    : option JsonFolder.t :=
  List.find (DriveService.folderMatches (DriveService.mdPrefixOf md)) folders.

(** The document as the pass leaves it: it carries the id of the first
    container of equal prefix, and is untouched when there is none. *)
Definition assign (folders : list JsonFolder.t) (md : MarkdownFile.t)
    : MarkdownFile.t :=
  match foundFor folders md with
  | Some found => MarkdownFile.setMatchingFolderId (JsonFolder.id found) md
  | None => md
  end.

(** The position of the container that is written to for a document:
    the first one that has the id of the container found. *)
Definition assignedIndex (folders : list JsonFolder.t) (md : MarkdownFile.t)
    : option nat :=
  match foundFor folders md with
  | Some found =>
      findIndex (fun f => String.eqb (JsonFolder.id f) (JsonFolder.id found)) folders
  | None => None
  end.

(** The last document, in listing order, written to position [k]. *)
Definition lastAssigned (mds : list MarkdownFile.t) (folders : list JsonFolder.t)
    (k : nat) : option MarkdownFile.t :=
  last (filter (fun md => assignedIndex folders md = Some k) mds).

(** The container at position [k] as the pass leaves it. *)
Definition record (mds : list MarkdownFile.t) (folders : list JsonFolder.t)
    (k : nat) (folder : JsonFolder.t) : JsonFolder.t :=
  match lastAssigned mds folders k with
  | Some md => JsonFolder.setMatchingMarkdownId (MarkdownFile.id md) folder
  | None => folder
  end.

(** The position a matched document points to: the first container, in
    listing order, that has the id the document carries. *)
Definition assignedTo (folders : list JsonFolder.t) (md : MarkdownFile.t)
    : option nat :=
  match MarkdownFile.matchingFolderId md with
  | Some folderId =>
      findIndex (fun f => String.eqb (JsonFolder.id f) folderId) folders
  | None => None
  end.

(** The last of the matched documents, in listing order, that points to
    position [k]. *)
Definition lastPointing (matched : list MarkdownFile.t)
    (folders : list JsonFolder.t) (k : nat) : option MarkdownFile.t :=
  last (filter (fun md => assignedTo folders md = Some k) matched).

(** Two container arrays that agree on ids and names, position by
    position. *)
Definition sameKeys (fs fs' : list JsonFolder.t) : Prop :=
  Forall2 (fun f f' => JsonFolder.id f = JsonFolder.id f'
                       /\ JsonFolder.name f = JsonFolder.name f') fs fs'.

(** A listed document and a listed container, as [JSON.parse] delivers
    them: no match recorded, nothing edited or approved. *)
Definition document (id name : string) : MarkdownFile.t :=
  MarkdownFile.mk id name None None Pending.

Definition container (id name : string) (items : list string) : JsonFolder.t :=
  JsonFolder.mk id name
    ((fun n => JsonFile.mk ("id-" +:+ n) n None None false false) <$> items)
    None 0.

Definition results (id name : string) (items : list string) : ResultFolder.t :=
  ResultFolder.mk id name ((fun n => ResultFile.mk ("res-" +:+ n) n) <$> items).

(** The first three ['_']-separated segments of a name, joined again. *)
Definition prefixOf (name : string) : string :=
  Js.join (take 3 (Js.split name "_")) "_".

(** The match key of a document in the words of the specification: the
    extension is stripped (here as [determineFileStatuses] strips it, at the
    end of the name), the rest is split at ['_'] and its first three
    segments are joined again. *)
Definition matchKeySpec (name : string) : string :=
  prefixOf (Js.replaceMdAtEnd name).

(** The item names of the examples. *)
Definition fourNames : list string := ["a.json"; "b.json"; "c.json"; "d.json"].

(* ----------------------------------------------------------------- *)
(** ** Listing fetches *)

(** A body that is one source-map comment and nothing else: the marker
    and the rest of its line, with white space around it at most. *)
Definition onlyComment (text : string) : Prop :=
  exists pre line post : string,
    text = pre +:+ "//# sourceMappingURL" +:+ line +:+ post
    /\ Js.allSpace pre = true
    /\ Js.includes line (String DriveService.LF "") = false
    /\ Js.allSpace post = true.

(** A text that does not start in the middle of a character: it is empty,
    or its first byte is no continuation byte. *)
Definition atBoundary (t : string) : Prop :=
  match t with
  | EmptyString => True
  | String c _ => nat_of_ascii c < 128 \/ 194 <= nat_of_ascii c
  end.

(** A body of one space, a body of one no-break space (U+00A0), and a body
    that is a source-map comment followed by a line of JSON text. *)
Definition oneSpace : string := " ".

Definition NBSP : string :=
  String (ascii_of_nat 194) (String (ascii_of_nat 160) "").

Definition commentThenJson : string :=
  "//# sourceMappingURL=app.js.map" +:+ String DriveService.LF "[1]".

(** A response with status 200 and the given body. *)
Definition okResponse (text : string) : DriveService.HttpResponse :=
  {| DriveService.ok := true; DriveService.status := 200;
     DriveService.text := text |}.

(* ----------------------------------------------------------------- *)
(** ** Edits, approvals and refreshes *)

(** An item that is approved once [jsonFile] has been approved: it was
    approved before, or it has the id of [jsonFile]. *)
Definition approvedAfter (jsonFile file : JsonFile.t) : bool :=
  JsonFile.approved file || String.eqb (JsonFile.id file) (JsonFile.id jsonFile).

(** How an item may differ after an edit or approval of [jsonFile]: an item
    with another id is the same object; the identity of an item stays, and
    its flags are not taken back. *)
Definition itemEvolves (jsonFile old new : JsonFile.t) : Prop :=
  (JsonFile.id old <> JsonFile.id jsonFile -> new = old)
  /\ JsonFile.id new = JsonFile.id old
  /\ JsonFile.name new = JsonFile.name old
  /\ JsonFile.folderId new = JsonFile.folderId old
  /\ (JsonFile.edited old = true -> JsonFile.edited new = true)
  /\ (JsonFile.approved old = true -> JsonFile.approved new = true).

(** How a container may differ: a container with another id than the
    item's folder is the same object; identity and match stay, and the items
    are the same in number and order, each evolved. *)
Definition containerEvolves (jsonFile : JsonFile.t) (old new : JsonFolder.t) : Prop :=
  (JsonFile.folderId jsonFile <> Some (JsonFolder.id old) -> new = old)
  /\ JsonFolder.id new = JsonFolder.id old
  /\ JsonFolder.name new = JsonFolder.name old
  /\ JsonFolder.matchingMarkdownId new = JsonFolder.matchingMarkdownId old
  /\ Forall2 (itemEvolves jsonFile) (JsonFolder.files old) (JsonFolder.files new).

(** Two container arrays with the same ids, names and items, position by
    position. *)
Definition sameItems (fs fs' : list JsonFolder.t) : Prop :=
  Forall2 (fun f f' => JsonFolder.id f = JsonFolder.id f'
                       /\ JsonFolder.name f = JsonFolder.name f'
                       /\ JsonFolder.files f = JsonFolder.files f') fs fs'.

(** Two container arrays that differ in progress at most. *)
Definition differInProgress (fs fs' : list JsonFolder.t) : Prop :=
  Forall2 (fun f f' => exists progress, f' = JsonFolder.setProgress progress f)
          fs fs'.

(** Two document arrays that differ in status at most. *)
Definition differInStatus (mds mds' : list MarkdownFile.t) : Prop :=
  Forall2 (fun md md' => exists status, md' = MarkdownFile.setStatus status md)
          mds mds'.

(** Two document arrays with the same ids, names and contents, position by
    position. *)
Definition sameDocuments (mds mds' : list MarkdownFile.t) : Prop :=
  Forall2 (fun md md' => MarkdownFile.id md = MarkdownFile.id md'
                         /\ MarkdownFile.name md = MarkdownFile.name md'
                         /\ MarkdownFile.content md = MarkdownFile.content md')
          mds mds'.

(** A document matched with the container [fourItems], and the client
    state that holds the two. *)
Definition matchedDocument : MarkdownFile.t :=
  MarkdownFile.mk "d1" "RPT_2024_01_summary.md" None (Some "f1") Pending.

Definition matchedState : FileState :=
  {| markdownFiles := [matchedDocument]; jsonFolders := [fourItems];
     isLoading := false; error := None |}.

(* ----------------------------------------------------------------- *)
(** ** Routes and stores *)

(** A store with two documents in the folder [docs], and a server that
    has been asked nothing yet. *)
Definition twoDocuments : MemDrive.t :=
  {| MemDrive.objects :=
       [ {| MemDrive.id := "1"; MemDrive.name := "a_b_c_d.md";
            MemDrive.parents := ["docs"]; MemDrive.mimeType := "text/markdown";
            MemDrive.trashed := false; MemDrive.body := Some "# a" |};
         {| MemDrive.id := "2"; MemDrive.name := "e_f_g_h.md";
            MemDrive.parents := ["docs"]; MemDrive.mimeType := "text/markdown";
            MemDrive.trashed := false; MemDrive.body := Some "# e" |} ];
     MemDrive.calls := [] |}.

Definition freshServer : Server.State MemDrive.t Routes.Cached :=
  {| Server.drive := twoDocuments; Server.cache := ∅ |}.

(** A store in which every parent of an object is an object of the
    store. *)
Definition closed (d : MemDrive.t) : Prop :=
  forall (o : MemDrive.Object) (p : string),
    In o (MemDrive.objects d) -> In p (MemDrive.parents o) ->
    In p (MemDrive.id <$> MemDrive.objects d).

(** The folder [drive.files.create] adds for a missing container. *)
Definition createdFolder (newId RESULT_FOLDER_ID folderName : string)
    : MemDrive.Object :=
  {| MemDrive.id := newId;
     MemDrive.name := folderName;
     MemDrive.parents := [RESULT_FOLDER_ID];
     MemDrive.mimeType := Server.FOLDER_MIME;
     MemDrive.trashed := false;
     MemDrive.body := None |}.

(** The answer of the route when a store call was rejected. *)
Definition failed : Server.Response :=
  {| Server.statusCode := 500; Server.message := "Failed to save JSON file" |}.

(** The ids the store was asked to delete. *)
Definition deletedIds (calls : list MemDrive.Call) : list string :=
  omap (fun c => match c with MemDrive.Deleted i => Some i | _ => None end) calls.

(** A results area that has no container yet. *)
Definition emptyResults : MemDrive.t :=
  {| MemDrive.objects :=
       [ {| MemDrive.id := "results"; MemDrive.name := "results";
            MemDrive.parents := []; MemDrive.mimeType := Server.FOLDER_MIME;
            MemDrive.trashed := false; MemDrive.body := None |} ];
     MemDrive.calls := [] |}.

(** The in-memory store behind a connection that answers [healthy] more
    calls. *)
Definition behind (healthy : nat) (d : MemDrive.t) : FlakyDrive.t :=
  {| FlakyDrive.store := d; FlakyDrive.healthy := healthy |}.

(** The store after the object with the id of [e] has been deleted. *)
Definition without (e : MemDrive.Object) (d : MemDrive.t) : list MemDrive.Object :=
  List.filter (fun o => negb (String.eqb (MemDrive.id o) (MemDrive.id e)))
              (MemDrive.objects d).

(** A server whose results area holds the container [batch] with one
    file. *)
Definition resultsServer : Server.State MemDrive.t string :=
  {| Server.drive := single; Server.cache := {[ "result-index" := "cached" ]} |}.

(* ----------------------------------------------------------------- *)
(** ** The save path and the listing bodies *)

(** The state of a client that holds the container [fourItems], and the
    item [c] with a content. *)
Definition itemCWith (content : string) : JsonFile.t :=
  JsonFile.mk "c" "c.json" (Some (ContentString content)) None false false.

(** A source-map comment line for a URL: a line feed, the marker, the
    URL. *)
Definition commentLine (url : string) : string :=
  String DriveService.LF ("//# sourceMappingURL=" +:+ url).

(** What the fetch delivers for a body that is JSON text. *)
Definition parsed (json : string) : DriveService.Promise Json.value :=
  if Js.allSpace json then DriveService.Fulfilled (Json.Array [])
  else match Json.parse (Js.trim json) with
       | Some v => DriveService.Fulfilled v
       | None => DriveService.Failed "Failed to parse response data"
       end.


(* ================================================================= *)
(** * Properties *)

(* ================================================================= *)
(** ** Strings *)

Section StringFacts.

Lemma startsWith_empty (s : string) : Js.startsWith s "" = true.
Proof. by destruct s. Qed.

Lemma startsWith_refl (s : string) : Js.startsWith s s = true.
Proof. induction s as [|c s IH]; simpl; [done|]. by rewrite Ascii.eqb_refl. Qed.

Lemma startsWith_app (p r : string) : Js.startsWith (p +:+ r) p = true.
Proof. induction p as [|c p IH]; simpl; [apply startsWith_empty|]. by rewrite Ascii.eqb_refl. Qed.

Lemma startsWith_split (p s : string) :
  Js.startsWith s p = true -> exists r, s = p +:+ r.
Proof.
  revert s. induction p as [|a p IH]; intros s H; [by exists s|].
  destruct s as [|b s]; [done|]. cbn [Js.startsWith] in H.
  apply andb_prop in H as [Hab Hp]. apply Ascii.eqb_eq in Hab as ->.
  destruct (IH s Hp) as [r ->]. by exists r.
Qed.

Lemma truthy_false (s : string) : Js.truthy s = false -> s = "".
Proof. by destruct s. Qed.

(** [replace('.md', '')] and [replace(/\.md$/, '')] on a name in which
    [.md] does not occur: both leave it as it is. *)
Lemma replace_absent (s : string) :
  Js.includes s ".md" = false -> Js.replace s ".md" "" = s.
Proof.
  induction s as [|c s IH]; [done|]. cbn [Js.includes Js.replace].
  intros [-> Hs]%orb_false_elim. by rewrite IH.
Qed.

Lemma replaceMdAtEnd_absent (s : string) :
  Js.includes s ".md" = false -> Js.replaceMdAtEnd s = s.
Proof.
  induction s as [|c s IH]; [done|]. cbn [Js.includes Js.replaceMdAtEnd].
  intros [Hhere Hs]%orb_false_elim.
  destruct (String.eqb_spec (String c s) ".md") as [Heq|_].
  - by rewrite Heq in Hhere.
  - by rewrite IH.
Qed.

(** A name that ends in [.md] and is longer is not [.md]. *)
Lemma longer_than_md (c : ascii) (base : string) :
  String.eqb (String c (base +:+ ".md")) ".md" = false.
Proof.
  apply String.eqb_neq. intros H. injection H as _ H.
  destruct base as [|c1 [|c2 base]]; [done| |].
  - by injection H.
  - injection H as _ _ H. by destruct base.
Qed.

(** [replace(/\.md$/, '')] removes the extension [.md]. *)
Lemma replaceMdAtEnd_extension (base : string) :
  Js.replaceMdAtEnd (base +:+ ".md") = base.
Proof.
  induction base as [|c base IH]; [done|].
  change (String c base +:+ ".md") with (String c (base +:+ ".md")).
  cbn [Js.replaceMdAtEnd]. by rewrite longer_than_md, IH.
Qed.

(** An occurrence of [.md] at the head of [s.md] lies in [s]. *)
Lemma md_not_astride (s : string) :
  Js.startsWith (s +:+ ".md") ".md" = true ->
  s = "" \/ Js.startsWith s ".md" = true.
Proof.
  destruct s as [|c1 [|c2 [|c3 s]]]; intros H.
  - by left.
  - cbv [String.append] in H. cbn in H. by rewrite andb_false_r in H.
  - cbv [String.append] in H. cbn in H. by rewrite !andb_false_r in H.
  - right. cbv [String.append] in H. cbn [Js.startsWith] in *.
    rewrite startsWith_empty in H. by rewrite startsWith_empty.
Qed.

(** [replace('.md', '')] removes the extension [.md] when [.md] does not
    occur before it. *)
Lemma replace_extension (base : string) :
  Js.includes base ".md" = false ->
  Js.replace (base +:+ ".md") ".md" "" = base.
Proof.
  induction base as [|c base IH]; [done|]. cbn [Js.includes].
  intros [Hhere Hbase]%orb_false_elim.
  change (String c base +:+ ".md") with (String c (base +:+ ".md")).
  cbn [Js.replace].
  destruct (Js.startsWith (String c (base +:+ ".md")) ".md") eqn:Hhead.
  - apply (md_not_astride (String c base)) in Hhead as [? | ?]; congruence.
  - by rewrite IH.
Qed.

End StringFacts.

(* ================================================================= *)
(** ** The cache: prefix invalidation *)

Section CacheFacts.
Context {V : Type}.
Implicit Types (cache : gmap string V) (k pref : string).

(** Walking over any list of keys deletes exactly those keys of the list
    that start with the prefix. *)
Lemma delete_walk_lookup pref (ks : list string) cache k :
  foldl (fun c k' => if Js.startsWith k' pref then delete k' c else c) cache ks !! k
  = if Js.startsWith k pref && bool_decide (k ∈ ks) then None else cache !! k.
Proof.
  revert cache. induction ks as [|k' ks IH]; intros cache; simpl.
  - by rewrite andb_false_r.
  - rewrite IH. destruct (decide (k = k')) as [->|Hne].
    + rewrite (bool_decide_eq_true_2 (k' ∈ k' :: ks)); [|by left].
      rewrite andb_true_r.
      destruct (Js.startsWith k' pref) eqn:Hp; simpl.
      * rewrite lookup_delete_eq. by destruct (bool_decide _).
      * done.
    + assert (bool_decide (k ∈ k' :: ks) = bool_decide (k ∈ ks)) as ->.
      { apply bool_decide_ext. rewrite elem_of_cons. tauto. }
      destruct (Js.startsWith k pref && bool_decide (k ∈ ks)); [done|].
      destruct (Js.startsWith k' pref); [|done].
      by rewrite lookup_delete_ne.
Qed.

Lemma keys_complete cache k : k ∉ Server.keys cache -> cache !! k = None.
Proof.
  intros Hk. destruct (cache !! k) as [v|] eqn:Hv; [|done].
  exfalso. apply Hk. unfold Server.keys.
  apply list_elem_of_fmap. exists (k, v). split; [done|].
  by apply elem_of_map_to_list.
Qed.

Lemma cacheDel_lookup (pref : option string) cache k :
  Server.cacheDel pref cache !! k
  = if Js.startsWith k (default "" pref) then None else cache !! k.
Proof.
  unfold Server.cacheDel. destruct (Js.truthy (default "" pref)) eqn:Ht.
  - rewrite delete_walk_lookup.
    destruct (Js.startsWith k (default "" pref)); [|done]. simpl.
    case_bool_decide as Hin; [done|]. by rewrite (keys_complete _ _ Hin).
  - apply truthy_false in Ht. rewrite Ht, startsWith_empty. apply lookup_empty.
Qed.

End CacheFacts.

(** C8. [cacheDel] with a prefix removes exactly the entries whose key
    starts with the prefix: such a key is absent afterwards, every other key
    keeps its value; with the empty prefix, or with no prefix at all, the
    cache is empty afterwards. *)
Theorem cacheDel_removes_exactly_prefixed :
  forall (V : Type) (cache : gmap string V),
    (forall (pref k : string),
        Server.cacheGet k (Server.cacheDel (Some pref) cache)
        = if Js.startsWith k pref then None else Server.cacheGet k cache)
    /\ Server.cacheDel (Some "") cache = ∅
    /\ Server.cacheDel None cache = ∅.
Proof.
  intros V cache. split; [|done].
  intros pref k. unfold Server.cacheGet. apply (cacheDel_lookup (Some pref)).
Qed.

(* ================================================================= *)
(** ** Paged listing *)

Section ListingFacts.
Variables (query : Drive.Query) (fields : string).

Lemma push_page (out : list Drive.Listing) (page : Drive.ListData) :
  match Drive.files page with
  | Some (file :: more) => out ++ file :: more
  | _ => out
  end = out ++ pageFiles page.
Proof.
  unfold pageFiles. destruct (Drive.files page) as [[|file more]|]; simpl;
    by rewrite ?app_nil_r.
Qed.

Lemma take_lastOr {A} (x : A) (l : list A) :
  take (length l) (x :: l) ++ [lastOr x l] = x :: l.
Proof.
  revert x. induction l as [|y l IH]; intros x; [done|].
  cbn [length take]. rewrite <- app_comm_cons. f_equal.
  assert (lastOr x (y :: l) = lastOr y l) as ->
    by (unfold lastOr; rewrite last_cons; by destruct (last l)).
  apply IH.
Qed.

(** The loop over a script that starts with pages which all announce a
    successor: it consumes them, having asked for each with the token of
    the page before, and goes on with what is left. *)
Lemma listAllFrom_pages (pages : list Drive.ListData) :
  forall fuel tok out rest log,
    Forall hasNext pages ->
    Server.listAllFrom (length pages + fuel) query fields tok out
      {| ScriptedDrive.script := (Some <$> pages) ++ rest;
         ScriptedDrive.requests := log |}
    = Server.listAllFrom fuel query fields
        (lastOr tok (Drive.nextPageToken <$> pages))
        (out ++ concat (pageFiles <$> pages))
        {| ScriptedDrive.script := rest;
           ScriptedDrive.requests :=
             log ++ (pageRequest query fields <$> take (length pages)
                                      (tok :: (Drive.nextPageToken <$> pages))) |}.
Proof.
  induction pages as [|page pages IH]; intros fuel tok out rest log Hall.
  - simpl. by rewrite !app_nil_r.
  - apply Forall_cons in Hall as [Hnext Hall]. unfold hasNext in Hnext.
    cbn [length Nat.add Server.listAllFrom].
    unfold bind at 1, await at 1. cbn.
    rewrite push_page, Hnext.
    fold (pageRequest query fields tok).
    rewrite IH by done. f_equal.
    + unfold lastOr. cbn [fmap list_fmap]. rewrite last_cons.
      by destruct (last _).
    + by rewrite <- app_assoc.
    + f_equal. by rewrite <- app_assoc.
Qed.

(** The requests sent for [pages] and one more page. *)
Lemma requests_sent (pages : list Drive.ListData) (log : list Drive.ListParams) :
  (log ++ (pageRequest query fields <$> take (length pages)
                              (None :: (Drive.nextPageToken <$> pages))))
    ++ [pageRequest query fields (lastOr None (Drive.nextPageToken <$> pages))]
  = log ++ (pageRequest query fields <$> None :: (Drive.nextPageToken <$> pages)).
Proof.
  rewrite <- app_assoc. f_equal.
  rewrite <- (length_fmap Drive.nextPageToken pages).
  set (toks := Drive.nextPageToken <$> pages).
  rewrite <- (take_lastOr None toks) at 2.
  by rewrite fmap_app.
Qed.

End ListingFacts.

(** C3. Let the store answer with [pages], each announcing a successor, and
    then with [final], which announces none.  Given room for that many
    requests, [listAll] resolves with the concatenation of all pages in page
    order; it has sent one request per page, the first without a token and
    each later one with the token of the page before, and has sent none
    after [final].  If the store rejects a request after [pages] instead,
    [listAll] rejects: no list is returned. *)
Theorem listAll_concatenates_pages_or_fails :
  forall (query : Drive.Query) (fields : string)
         (pages : list Drive.ListData) (final : Drive.ListData)
         (rest : list (option Drive.ListData)) (log : list Drive.ListParams)
         (fuel : nat),
    Forall hasNext pages ->
    Js.truthyOpt (Drive.nextPageToken final) = false ->
    length pages < fuel ->
    Server.listAll fuel query fields
      {| ScriptedDrive.script := (Some <$> pages ++ [final]) ++ rest;
         ScriptedDrive.requests := log |}
    = (Resolved (concat (pageFiles <$> pages ++ [final])),
       {| ScriptedDrive.script := rest;
          ScriptedDrive.requests :=
            log ++ (pageRequest query fields
                      <$> None :: (Drive.nextPageToken <$> pages)) |})
    /\
    Server.listAll fuel query fields
      {| ScriptedDrive.script := (Some <$> pages) ++ None :: rest;
         ScriptedDrive.requests := log |}
    = (Rejected,
       {| ScriptedDrive.script := rest;
          ScriptedDrive.requests :=
            log ++ (pageRequest query fields
                      <$> None :: (Drive.nextPageToken <$> pages)) |}).
Proof.
  intros query fields pages final rest log fuel Hall Hlast Hfuel.
  assert (exists extra, fuel = length pages + S extra) as [extra ->].
  { exists (fuel - length pages - 1). lia. }
  unfold Server.listAll. split.
  - rewrite fmap_app, <- app_assoc.
    rewrite (listAllFrom_pages query fields pages) by done.
    cbn [Server.listAllFrom fmap list_fmap app].
    unfold bind, await. cbn.
    rewrite push_page, Hlast. unfold ret.
    fold (pageRequest query fields (lastOr None (Drive.nextPageToken <$> pages))).
    rewrite requests_sent.
    by rewrite fmap_app, concat_app; simpl; rewrite app_nil_r.
  - rewrite (listAllFrom_pages query fields pages) by done.
    cbn [Server.listAllFrom]. unfold bind, await. cbn.
    fold (pageRequest query fields (lastOr None (Drive.nextPageToken <$> pages))).
    by rewrite requests_sent.
Qed.

Lemma listAll_concatenates_pages_or_fails_witness :
  Server.listAll 2 rootQuery "id"
    {| ScriptedDrive.script := [Some firstPage; Some secondPage];
       ScriptedDrive.requests := [] |}
  = (Resolved [entry "a"; entry "b"; entry "c"],
     {| ScriptedDrive.script := [];
        ScriptedDrive.requests :=
          [pageRequest rootQuery "id" None;
           pageRequest rootQuery "id" (Some "t1")] |})
  /\
  Server.listAll 2 rootQuery "id"
    {| ScriptedDrive.script := [Some firstPage; None];
       ScriptedDrive.requests := [] |}
  = (Rejected,
     {| ScriptedDrive.script := [];
        ScriptedDrive.requests :=
          [pageRequest rootQuery "id" None;
           pageRequest rootQuery "id" (Some "t1")] |}).
Proof.
  apply (listAll_concatenates_pages_or_fails
           rootQuery "id" [firstPage] secondPage [] [] 2).
  - repeat constructor.
  - reflexivity.
  - simpl. lia.
Defined.

(* ================================================================= *)
(** ** Promotion: [POST /api/save-json] *)

Section SaveJsonFacts.

Lemma blank_falsy (o : option string) : blank o -> Js.truthyOpt o = false.
Proof. by intros [-> | ->]. Qed.

(** On the in-memory store one request completes a listing. *)
Lemma listAll_mem (fuel : nat) (q : Drive.Query) (fields : string) (d : MemDrive.t) :
  Server.listAll (S fuel) q fields d
  = (Resolved (MemDrive.toListing <$> selected q d),
     {| MemDrive.objects := MemDrive.objects d;
        MemDrive.calls := MemDrive.calls d ++ [MemDrive.Listed (pageRequest q fields None)] |}).
Proof.
  unfold Server.listAll. cbn [Server.listAllFrom]. unfold bind, await. cbn.
  unfold selected. by destruct (List.filter _ _).
Qed.

(** Deleting the first selected object of a store without duplicate ids
    leaves the other selected objects, in order. *)
Lemma selected_after_delete (sel : MemDrive.Object -> bool)
    (objs : list MemDrive.Object) (e : MemDrive.Object) (es : list MemDrive.Object) :
  NoDup (MemDrive.id <$> objs) ->
  List.filter sel objs = e :: es ->
  List.filter sel
    (List.filter (fun o => negb (String.eqb (MemDrive.id o) (MemDrive.id e))) objs)
  = es.
Proof.
  induction objs as [|o objs IH]; intros Hnd Hsel; [done|].
  cbn [fmap list_fmap] in Hnd. apply NoDup_cons in Hnd as [Hnotin Hnd].
  cbn [List.filter] in *. destruct (sel o) eqn:Ho.
  - injection Hsel as -> Hes. rewrite String.eqb_refl. cbn [negb].
    rewrite <- Hes. f_equal.
    apply forallb_filter_id, forallb_forall. intros o' Hin.
    destruct (String.eqb_spec (MemDrive.id o') (MemDrive.id e)) as [Heq|]; [|done].
    exfalso. apply Hnotin. rewrite <- Heq.
    apply list_elem_of_fmap. exists o'. split; [done|].
    by apply list_elem_of_In.
  - destruct (negb _); cbn [List.filter]; rewrite ?Ho; by apply IH.
Qed.

End SaveJsonFacts.

(** The validation of the route, for a [jsonFile] that is an object or is
    missing: a container name that is missing or empty, an item name that is
    missing or empty, or a content that is undefined is answered 400, and
    the server state comes back as it was. *)
Lemma saveItem_invalid {S V : Type} `{!Drive.Api S} (RESULT_FOLDER_ID : string)
    (fuel : nat) (folderName : option string) (jsonFile : Server.JsonFileBody)
    (st : Server.State S V) :
  blank folderName \/ blank (Server.name jsonFile)
  \/ Server.content jsonFile = None ->
  Server.saveItem RESULT_FOLDER_ID fuel folderName jsonFile st
  = (Resolved badRequest, st).
Proof.
  intros Hbad. unfold Server.saveItem. fold badRequest.
  assert (Server.invalid folderName jsonFile = true) as ->; [|done].
  unfold Server.invalid. destruct Hbad as [Hf | [Hn | Hc]].
  - by rewrite (blank_falsy _ Hf).
  - rewrite (blank_falsy _ Hn). by rewrite orb_true_r.
  - rewrite Hc. by rewrite orb_true_r.
Qed.

(** C6 at a request whose [jsonFile] is [null] and whose container name is
    in order.  The item has neither a name nor a content, and the answer due
    is 400.  The route answers 500 with the text of a failed save: the
    default [{}] stands in for a [jsonFile] that is missing, not for one
    that is [null], and the validation throws on [jsonFile.name].  The store
    is asked nothing and the server state is as it was, for every store; the
    same request without the property [jsonFile] is answered 400. *)
Theorem saveJson_null_item_is_500 :
  forall (S V : Type) (api : Drive.Api S) (RESULT_FOLDER_ID : string)
         (fuel : nat) (folderName : string) (st : Server.State S V),
    Js.truthy folderName = true ->
    Server.saveJson RESULT_FOLDER_ID fuel
      (Server.Body Server.JsonFileNull (Some folderName)) st
    = (Resolved failed, st)
    /\ Server.saveJson RESULT_FOLDER_ID fuel
         (Server.Body Server.JsonFileMissing (Some folderName)) st
       = (Resolved badRequest, st).
Proof.
  intros S V api root fuel folderName st Hfolder. split.
  - unfold Server.saveJson. cbn [Js.truthyOpt]. by rewrite Hfolder.
  - unfold Server.saveJson. apply saveItem_invalid. right. left. by left.
Qed.

Lemma saveJson_null_item_is_500_witness :
  Server.saveJson "results" 1 (Server.Body Server.JsonFileNull (Some "batch")) untouched
  = (Resolved failed, untouched)
  /\ Server.saveJson "results" 1
       (Server.Body Server.JsonFileMissing (Some "batch")) untouched
     = (Resolved badRequest, untouched).
Proof.
  apply (saveJson_null_item_is_500 MemDrive.t string MemDrive.api "results" 1
           "batch" untouched).
  reflexivity.
Defined.

(** C5, as the code has it.  Take a store without duplicate ids in which the
    destination container exists and already holds non-trashed JSON files of
    the item's name, [e] being the first of them.  The promotion answers
    200; the store has been asked, in this order, for the container, for the
    files of that name, to delete [e], and to create the replacement;
    afterwards the files of that name in the container are the other ones
    that were there, followed by the new file, so there are as many as
    before and exactly one when [e] was the only one; and the cache has no
    entry [result-index]. *)
Theorem saveJson_replaces_first_existing :
  forall (V : Type) (RESULT_FOLDER_ID folderName fileName : string)
         (fileContent : Content) (fuel : nat)
         (d : MemDrive.t) (cache : gmap string V)
         (dest : MemDrive.Object) (others : list MemDrive.Object)
         (e : MemDrive.Object) (es : list MemDrive.Object),
    Js.truthy folderName = true ->
    Js.truthy fileName = true ->
    NoDup (MemDrive.id <$> MemDrive.objects d) ->
    selected (folderQuery RESULT_FOLDER_ID folderName) d = dest :: others ->
    selected (fileQuery (MemDrive.id dest) fileName) d = e :: es ->
    exists (d' : MemDrive.t) (newId : string),
      Server.saveJson RESULT_FOLDER_ID (S fuel)
        (promotion folderName fileName fileContent)
        {| Server.drive := d; Server.cache := cache |}
      = (Resolved saved,
         {| Server.drive := d';
            Server.cache := Server.cacheDel (Some "result-index") cache |})
      /\ MemDrive.calls d'
         = MemDrive.calls d ++
           [MemDrive.Listed
              (pageRequest (folderQuery RESULT_FOLDER_ID folderName) "id" None);
            MemDrive.Listed
              (pageRequest (fileQuery (MemDrive.id dest) fileName) "id,name" None);
            MemDrive.Deleted (MemDrive.id e);
            MemDrive.Created
              {| Drive.resourceName := fileName;
                 Drive.resourceParents := [MemDrive.id dest];
                 Drive.resourceMimeType := Server.JSON_MIME;
                 Drive.mediaBody := Some (mediaText fileContent) |}]
      /\ selected (fileQuery (MemDrive.id dest) fileName) d'
         = es ++ [promoted newId (MemDrive.id dest) fileName fileContent]
      /\ length (selected (fileQuery (MemDrive.id dest) fileName) d')
         = length (selected (fileQuery (MemDrive.id dest) fileName) d)
      /\ (es = [] ->
          length (selected (fileQuery (MemDrive.id dest) fileName) d') = 1)
      /\ Server.cacheGet "result-index"
           (Server.cacheDel (Some "result-index") cache) = None.
Proof.
  intros V root folderName fileName fileContent fuel d cache dest others e es
         Hfolder Hfile Hnd Hdest Hexisting.
  set (objs' := List.filter
                  (fun o => negb (String.eqb (MemDrive.id o) (MemDrive.id e)))
                  (MemDrive.objects d)).
  set (newId := MemDrive.freshId objs').
  set (new := promoted newId (MemDrive.id dest) fileName fileContent).
  assert (existsb (fun o => String.eqb (MemDrive.id o) (MemDrive.id e))
                  (MemDrive.objects d) = true) as Hheld.
  { apply existsb_exists. exists e. split; [|apply String.eqb_refl].
    assert (In e (selected (fileQuery (MemDrive.id dest) fileName) d)) as Hin
      by (rewrite Hexisting; by left).
    unfold selected in Hin. by apply filter_In in Hin as [Hin _]. }
  assert (selected (fileQuery (MemDrive.id dest) fileName)
            {| MemDrive.objects := objs' ++ [new]; MemDrive.calls := [] |}
          = es ++ [new]) as Hafter.
  { unfold selected. cbn [MemDrive.objects]. rewrite List.filter_app.
    unfold objs'. rewrite (selected_after_delete _ _ e es Hnd Hexisting).
    f_equal. cbn [List.filter]. unfold MemDrive.selects. simpl.
    by rewrite !String.eqb_refl. }
  eexists {| MemDrive.objects := objs' ++ [new]; MemDrive.calls := _ |}, newId.
  split; [|split; [|split; [|split; [|split]]]].
  - unfold Server.saveJson, promotion, Server.saveItem, Server.invalid.
    cbn [Server.name Server.content
         from_option Js.truthyOpt Server.drive Server.cache id].
    rewrite Hfolder, Hfile. cbn [negb orb].
    unfold Server.promote. fold (folderQuery root folderName).
    unfold bind at 1. rewrite listAll_mem.
    rewrite Hdest. cbn [fmap list_fmap MemDrive.toListing Drive.id].
    unfold bind at 1, ret at 1.
    fold (fileQuery (MemDrive.id dest) fileName).
    unfold bind at 1. rewrite listAll_mem.
    unfold selected at 1. cbn [MemDrive.objects].
    fold (selected (fileQuery (MemDrive.id dest) fileName) d).
    rewrite Hexisting. cbn [fmap list_fmap MemDrive.toListing Drive.id].
    unfold bind, await, ret.
    cbn [Drive.files_delete Drive.files_create MemDrive.api].
    unfold MemDrive.deleteObject. cbn [MemDrive.objects MemDrive.calls].
    rewrite Hheld. fold objs'. unfold MemDrive.createObject.
    cbn [MemDrive.objects MemDrive.calls Drive.resourceName
         Drive.resourceParents Drive.resourceMimeType Drive.mediaBody].
    fold newId. reflexivity.
  - cbn [MemDrive.calls]. rewrite <- !app_assoc. reflexivity.
  - apply Hafter.
  - unfold selected in *. cbn [MemDrive.objects] in *.
    rewrite Hafter, Hexisting, length_app. simpl. lia.
  - intros ->. unfold selected in *. cbn [MemDrive.objects] in *.
    by rewrite Hafter.
  - unfold Server.cacheGet. rewrite (cacheDel_lookup (Some "result-index")).
    by rewrite startsWith_refl.
Qed.

(** C5 fails as stated: the container holds a file of the item's name, the
    promotion succeeds, and two objects of that name are in the container
    afterwards. *)
Lemma saveJson_leaves_second_duplicate :
  selected (fileQuery "F" "a.json") duplicated <> []
  /\ (promoteOver duplicated).1 = Resolved saved
  /\ length (selected (fileQuery "F" "a.json")
               (Server.drive (promoteOver duplicated).2)) = 2.
Proof. by vm_compute. Qed.

Lemma saveJson_replaces_first_existing_witness :
  exists (d' : MemDrive.t) (newId : string),
    promoteOver single
    = (Resolved saved,
       {| Server.drive := d';
          Server.cache :=
            Server.cacheDel (Some "result-index") {[ "result-index" := "cached" ]} |})
    /\ MemDrive.calls d'
       = MemDrive.calls single ++
         [MemDrive.Listed (pageRequest (folderQuery "results" "batch") "id" None);
          MemDrive.Listed (pageRequest (fileQuery "F" "a.json") "id,name" None);
          MemDrive.Deleted "1";
          MemDrive.Created
            {| Drive.resourceName := "a.json";
               Drive.resourceParents := ["F"];
               Drive.resourceMimeType := Server.JSON_MIME;
               Drive.mediaBody := Some "[]" |}]
    /\ selected (fileQuery "F" "a.json") d'
       = [] ++ [promoted newId "F" "a.json" (ContentString "[]")]
    /\ length (selected (fileQuery "F" "a.json") d')
       = length (selected (fileQuery "F" "a.json") single)
    /\ (@nil MemDrive.Object = [] ->
        length (selected (fileQuery "F" "a.json") d') = 1)
    /\ Server.cacheGet "result-index"
         (Server.cacheDel (Some "result-index")
            ({[ "result-index" := "cached" ]} : gmap string string)) = None.
Proof.
  apply (saveJson_replaces_first_existing string "results" "batch" "a.json"
           (ContentString "[]") 0 single {[ "result-index" := "cached" ]}
           (MemDrive.Build_Object "F" "batch" ["results"] Server.FOLDER_MIME false None)
           []
           (MemDrive.Build_Object "1" "a.json" ["F"] Server.JSON_MIME false (Some "{}"))
           []).
  - reflexivity.
  - reflexivity.
  - compute_done.
  - reflexivity.
  - reflexivity.
Defined.

(* ================================================================= *)
(** ** Downloads: no request is shared *)

Section DownloadFacts.
Implicit Types (st : Server.Downloads) (fileId : string).

Lemma removeFirst_last (x : string) (l : list string) :
  is_Some (Server.removeFirst x (l ++ [x])).
Proof.
  induction l as [|y l [r Hr]]; simpl.
  - rewrite String.eqb_refl. by eexists.
  - destruct (String.eqb x y); [by eexists|]. rewrite Hr. by eexists.
Qed.

(** A fetch that finds the key in the cache returns the cached buffer and
    sends nothing to the store. *)
Lemma fetch_hit fileId st (buf : Server.Buffer) :
  Server.cacheGet ("file-" +:+ fileId) (Server.dlCache st) = Some buf ->
  Server.fetchFileBytes_start fileId st = (Server.Hit buf, st).
Proof. intros H. unfold Server.fetchFileBytes_start. by rewrite H. Qed.

(** A fetch that does not find it sends a request, in flight or not. *)
Lemma fetch_miss fileId st :
  Server.cacheGet ("file-" +:+ fileId) (Server.dlCache st) = None ->
  Server.fetchFileBytes_start fileId st
  = (Server.AwaitingDrive,
     {| Server.dlCache := Server.dlCache st;
        Server.getRequests := Server.getRequests st ++ [fileId] |}).
Proof. intros H. unfold Server.fetchFileBytes_start. by rewrite H. Qed.

End DownloadFacts.

(** C4, as the code has it.  [fetchFileBytes] keeps no record of the
    requests in flight.  A caller that enters while the cache has no entry
    for the id sends a request; two callers that enter for the same id
    before the store has answered each send their own: two round trips.  A
    caller that finds the entry sends nothing. *)
Theorem fetchFileBytes_round_trips :
  forall (fileId : string) (st : Server.Downloads) (inFlight : list string),
    (Server.cacheGet ("file-" +:+ fileId) (Server.dlCache st) = None ->
       Server.run [Server.Enter fileId] (st, inFlight)
       = ({| Server.dlCache := Server.dlCache st;
             Server.getRequests := Server.getRequests st ++ [fileId] |},
          inFlight ++ [fileId])
       /\
       Server.run [Server.Enter fileId; Server.Enter fileId] (st, inFlight)
       = ({| Server.dlCache := Server.dlCache st;
             Server.getRequests := Server.getRequests st ++ [fileId; fileId] |},
          inFlight ++ [fileId; fileId]))
    /\
    (forall (buf : Server.Buffer),
       Server.cacheGet ("file-" +:+ fileId) (Server.dlCache st) = Some buf ->
       Server.run [Server.Enter fileId] (st, inFlight) = (st, inFlight)).
Proof.
  intros fileId st inFlight. split.
  - intros Hmiss. split.
    + unfold Server.run. cbn [foldl]. unfold Server.step.
      by rewrite (fetch_miss _ _ Hmiss).
    + unfold Server.run. cbn [foldl]. unfold Server.step at 2.
      rewrite (fetch_miss _ _ Hmiss). unfold Server.step.
      rewrite fetch_miss by done.
      cbn [Server.dlCache Server.getRequests].
      by rewrite <- !app_assoc.
  - intros buf Hhit. unfold Server.run. cbn [foldl]. unfold Server.step.
    by rewrite (fetch_hit _ _ _ Hhit).
Qed.

(** C4 fails as stated: with an empty cache, two callers entering for the
    same id before any answer make two store round trips, not one. *)
Lemma fetchFileBytes_two_round_trips :
  Server.getRequests
    (Server.run [Server.Enter "doc1"; Server.Enter "doc1"]
       ({| Server.dlCache := ∅; Server.getRequests := [] |}, [])).1
  = ["doc1"; "doc1"].
Proof. reflexivity. Qed.

Lemma fetchFileBytes_round_trips_witness :
  Server.run [Server.Enter "doc1"; Server.Enter "doc1"]
    ({| Server.dlCache := ∅; Server.getRequests := [] |}, [])
  = ({| Server.dlCache := ∅; Server.getRequests := [] ++ ["doc1"; "doc1"] |},
     [] ++ ["doc1"; "doc1"])
  /\ Server.run [Server.Enter "doc1"]
       ({| Server.dlCache := {[ "file-doc1" := "old" ]};
           Server.getRequests := [] |}, [])
     = ({| Server.dlCache := {[ "file-doc1" := "old" ]};
           Server.getRequests := [] |}, []).
Proof.
  split.
  - apply (fetchFileBytes_round_trips "doc1"
             {| Server.dlCache := ∅; Server.getRequests := [] |} []).
    reflexivity.
  - apply (proj2 (fetchFileBytes_round_trips "doc1"
                    {| Server.dlCache := {[ "file-doc1" := "old" ]};
                       Server.getRequests := [] |} []) "old").
    reflexivity.
Defined.

(* ================================================================= *)
(** ** Progress from the [approved] flags *)

Section ProgressFacts.
Import FileContext.

(** [calcProgress] is the percentage of approved files. *)
Lemma calcProgress_percentage (files : list JsonFile.t) :
  (calcProgress files == 100 * num (approvedCount files) / num (length files))%Q.
Proof.
  unfold calcProgress, approvedCount.
  destruct files as [|file files]; [reflexivity|].
  cbn [length]. unfold Qdiv. ring.
Qed.

(** [holdsItem] is the comparison of the item's [folderId] with the id of
    the container. *)
Lemma holdsItem_spec (jsonFile : JsonFile.t) (folder : JsonFolder.t) :
  holdsItem jsonFile folder = true
  <-> JsonFile.folderId jsonFile = Some (JsonFolder.id folder).
Proof.
  unfold holdsItem. destruct (JsonFile.folderId jsonFile) as [fid|]; [|done].
  rewrite String.eqb_eq. split; [by intros -> | by intros [= ->]].
Qed.

Lemma holdsItem_false (jsonFile : JsonFile.t) (folder : JsonFolder.t) :
  JsonFile.folderId jsonFile <> Some (JsonFolder.id folder) ->
  holdsItem jsonFile folder = false.
Proof.
  intros Hne. destruct (holdsItem jsonFile folder) eqn:H; [|done].
  by apply holdsItem_spec in H.
Qed.

(** An item whose [folderId] is the id of no container selects none: the
    containers come back as they were. *)
Lemma updateFolders_without_folder (change : JsonFile.t -> JsonFile.t)
    (jsonFile : JsonFile.t) (folders : list JsonFolder.t) :
  Forall (fun folder => JsonFile.folderId jsonFile <> Some (JsonFolder.id folder))
         folders ->
  updateFolders change jsonFile folders = folders.
Proof.
  unfold updateFolders. induction 1 as [|folder folders Hne _ IH]; [done|].
  cbn [map]. by rewrite (holdsItem_false _ _ Hne), IH.
Qed.

Lemma updateFolders_listed (change : JsonFile.t -> JsonFile.t)
    (jsonFile : JsonFile.t) (folders : list JsonFolder.t) :
  JsonFile.folderId jsonFile = None ->
  updateFolders change jsonFile folders = folders.
Proof.
  intros Hnone. apply updateFolders_without_folder, Forall_forall.
  intros folder _. by rewrite Hnone.
Qed.

End ProgressFacts.

(** C9 at the example of the specification.  The container holds four
    items as the listing delivers them, without [folderId].  After
    [approveJsonFile] for two of them the container is as it was: no item is
    approved and the progress is 0, where 50 is due; [updateJsonFile] leaves
    it alone as well.  The comparison [folder.id === jsonFile.folderId]
    selects no container.  Were the items to carry the id of their
    container, the same two calls would approve the two items and set the
    progress to 50. *)
Lemma approveJsonFile_recomputes_nothing :
  jsonFolders
    (FileContext.approveJsonFile itemB
       (FileContext.approveJsonFile itemA fourItemsState))
  = [fourItems]
  /\ approvedCount (JsonFolder.files fourItems) = 0
  /\ (JsonFolder.progress fourItems == 0)%Q
  /\ jsonFolders
       (FileContext.updateJsonFile itemC (Some (ContentString "{}")) fourItemsState)
     = [fourItems]
  /\ Forall (fun folder =>
               approvedCount (JsonFolder.files folder) = 2
               /\ (JsonFolder.progress folder == 50)%Q)
            (jsonFolders
               (FileContext.approveJsonFile (inFolder "f1" itemB)
                  (FileContext.approveJsonFile (inFolder "f1" itemA)
                     (withFolderIds fourItemsState)))).
Proof. vm_compute. repeat split; repeat constructor. Qed.

(* ================================================================= *)
(** ** Matching documents with containers *)

Section MatchingFacts.
Import DriveService.

Lemma sameKeys_refl (fs : list JsonFolder.t) : sameKeys fs fs.
Proof. by apply Forall_Forall2_diag, Forall_forall. Qed.

Lemma sameKeys_alter (v : string) (k : nat) (fs : list JsonFolder.t) :
  sameKeys (alter (JsonFolder.setMatchingMarkdownId v) k fs) fs.
Proof.
  revert k. induction fs as [|f fs IH]; intros k; [constructor|].
  destruct k as [|k]; cbn.
  - constructor; [done|apply sameKeys_refl].
  - constructor; [done|apply IH].
Qed.

Lemma find_sameKeys (p : string) (fs fs' : list JsonFolder.t) :
  sameKeys fs fs' ->
  JsonFolder.id <$> List.find (folderMatches p) fs
  = JsonFolder.id <$> List.find (folderMatches p) fs'.
Proof.
  induction 1 as [|f f' fs fs' [Hid Hname] _ IH]; [done|].
  cbn [List.find]. unfold folderMatches at 1 3. rewrite Hname.
  destruct (String.eqb _ _); [|done]. cbn. by rewrite Hid.
Qed.

Lemma findIndex_sameKeys (i : string) (fs fs' : list JsonFolder.t) :
  sameKeys fs fs' ->
  findIndex (fun f => String.eqb (JsonFolder.id f) i) fs
  = findIndex (fun f => String.eqb (JsonFolder.id f) i) fs'.
Proof.
  induction 1 as [|f f' fs fs' [Hid _] _ IH]; [done|].
  cbn [findIndex]. rewrite Hid, IH. done.
Qed.

Lemma assign_sameKeys (fs fs' : list JsonFolder.t) (md : MarkdownFile.t) :
  sameKeys fs fs' -> assign fs md = assign fs' md.
Proof.
  intros H. unfold assign, foundFor.
  pose proof (find_sameKeys (mdPrefixOf md) _ _ H) as Hf.
  destruct (List.find _ fs), (List.find _ fs'); try done.
  cbn in Hf. by injection Hf as ->.
Qed.

Lemma assignedIndex_sameKeys (fs fs' : list JsonFolder.t) (md : MarkdownFile.t) :
  sameKeys fs fs' -> assignedIndex fs md = assignedIndex fs' md.
Proof.
  intros H. unfold assignedIndex, foundFor.
  pose proof (find_sameKeys (mdPrefixOf md) _ _ H) as Hf.
  destruct (List.find _ fs), (List.find _ fs'); try done.
  cbn in Hf. injection Hf as ->. by apply findIndex_sameKeys.
Qed.

Lemma lastAssigned_sameKeys (mds : list MarkdownFile.t)
    (fs fs' : list JsonFolder.t) (k : nat) :
  sameKeys fs fs' -> lastAssigned mds fs k = lastAssigned mds fs' k.
Proof.
  intros H. unfold lastAssigned. f_equal.
  apply list_filter_iff. intros md. by rewrite (assignedIndex_sameKeys _ _ _ H).
Qed.

(** One turn of the loop, in terms of [assign] and [assignedIndex]. *)
Lemma visit_assign (folders : list JsonFolder.t) (md : MarkdownFile.t) :
  visit folders md
  = (assign folders md,
     match assignedIndex folders md with
     | Some k =>
         alter (JsonFolder.setMatchingMarkdownId (MarkdownFile.id md)) k folders
     | None => folders
     end).
Proof.
  unfold visit, assign, assignedIndex, foundFor.
  destruct (List.find _ folders) as [found|]; [|done].
  by destruct (findIndex _ folders).
Qed.

Lemma forEachMarkdown_assign (mds : list MarkdownFile.t) :
  forall folders,
    forEachMarkdown mds folders
    = (assign folders <$> mds, imap (record mds folders) folders).
Proof.
  induction mds as [|md mds IH]; intros folders.
  - cbn. f_equal. apply list_eq. intros k. rewrite list_lookup_imap.
    by destruct (folders !! k).
  - cbn [forEachMarkdown]. rewrite visit_assign.
    set (folders' := match assignedIndex folders md with
                     | Some k => alter _ k folders
                     | None => folders
                     end).
    assert (sameKeys folders' folders) as Hkeys.
    { unfold folders'. destruct (assignedIndex folders md);
        [apply sameKeys_alter | apply sameKeys_refl]. }
    rewrite IH. cbn [fmap list_fmap]. f_equal.
    + f_equal. apply list_fmap_ext. intros _ d _. by apply assign_sameKeys.
    + apply list_eq. intros k. rewrite !list_lookup_imap.
      unfold record.
      rewrite (lastAssigned_sameKeys mds folders' folders k Hkeys).
      unfold lastAssigned at 2. rewrite filter_cons.
      fold (lastAssigned mds folders k).
      unfold folders'.
      destruct (assignedIndex folders md) as [k0|] eqn:Hk0.
      * destruct (decide (k0 = k)) as [->|Hne].
        -- rewrite decide_True by done. rewrite last_cons.
           fold (lastAssigned mds folders k).
           rewrite list_lookup_alter_eq.
           destruct (folders !! k) as [f|]; [|done]. cbn.
           by destruct (lastAssigned mds folders k).
        -- rewrite decide_False by congruence.
           by rewrite list_lookup_alter_ne.
      * by rewrite decide_False.
Qed.

End MatchingFacts.

(** Where the code and the specification agree on the match key of a
    document: on a name without [.md], and on a name that ends in [.md] and
    has no [.md] before. *)
Lemma mdPrefixOf_matchKeySpec (md : MarkdownFile.t) :
  Js.includes (MarkdownFile.name md) ".md" = false
  \/ (exists base, MarkdownFile.name md = base +:+ ".md"
                   /\ Js.includes base ".md" = false) ->
  DriveService.mdPrefixOf md = matchKeySpec (MarkdownFile.name md).
Proof.
  unfold DriveService.mdPrefixOf, matchKeySpec, prefixOf.
  intros [Habsent | (base & -> & Hbase)].
  - by rewrite replace_absent, replaceMdAtEnd_absent.
  - by rewrite replace_extension, replaceMdAtEnd_extension.
Qed.

Section AssignmentFacts.
Import DriveService.

Lemma assign_id (folders : list JsonFolder.t) (md : MarkdownFile.t) :
  MarkdownFile.id (assign folders md) = MarkdownFile.id md.
Proof. unfold assign. by destruct (foundFor folders md). Qed.

(** A document that carried no container id points, after the pass, to the
    position the pass wrote to for it. *)
Lemma assignedTo_assign (folders : list JsonFolder.t) (md : MarkdownFile.t) :
  MarkdownFile.matchingFolderId md = None ->
  assignedTo folders (assign folders md) = assignedIndex folders md.
Proof.
  intros Hnone. unfold assignedTo, assign, assignedIndex.
  destruct (foundFor folders md) as [found|]; [done|]. by rewrite Hnone.
Qed.

Lemma assign_choice (folders : list JsonFolder.t) (md : MarkdownFile.t) :
  assign folders md = md
  \/ exists folder : JsonFolder.t,
      In folder folders
      /\ assign folders md
         = MarkdownFile.setMatchingFolderId (JsonFolder.id folder) md.
Proof.
  unfold assign, foundFor.
  destruct (List.find _ folders) as [found|] eqn:Hfind; [|by left].
  right. exists found. split; [|done]. by apply find_some in Hfind as [? _].
Qed.

Lemma lastPointing_assign (mds : list MarkdownFile.t)
    (folders : list JsonFolder.t) (k : nat) :
  Forall (fun md => MarkdownFile.matchingFolderId md = None) mds ->
  lastPointing (assign folders <$> mds) folders k
  = assign folders <$> lastAssigned mds folders k.
Proof.
  unfold lastPointing, lastAssigned.
  induction 1 as [|md mds Hnone _ IH]; [done|].
  cbn [fmap list_fmap]. rewrite !filter_cons.
  rewrite (assignedTo_assign _ _ Hnone).
  destruct (decide (assignedIndex folders md = Some k)); [|exact IH].
  rewrite !last_cons.
  change (list_fmap _ _ (assign folders) mds) with (assign folders <$> mds).
  rewrite IH. by destruct (last (filter _ mds)).
Qed.

End AssignmentFacts.

(** C7, as the code has it, for documents as they are listed (none carries
    a container id yet).  Each document ends up as it was or with the id of
    one of the listed containers: at most one container per document.  A
    container is not kept for one document: each container ends up
    recording the last document, in listing order, among the matched
    documents that point to its position (the first position that has the
    id the document carries), and is as it was when no document points
    there.  Several documents may point to the same container. *)
Theorem matchFilesWithFolders_assignment :
  forall (markdownFiles : list MarkdownFile.t) (jsonFolders : list JsonFolder.t),
    Forall (fun md => MarkdownFile.matchingFolderId md = None) markdownFiles ->
    let matched := DriveService.matchFilesWithFolders markdownFiles jsonFolders in
    Forall2 (fun md md' =>
               md' = md
               \/ exists folder : JsonFolder.t,
                   In folder jsonFolders
                   /\ md' = MarkdownFile.setMatchingFolderId
                              (JsonFolder.id folder) md)
            markdownFiles matched.1
    /\ matched.2
       = imap (fun k folder =>
                 match lastPointing matched.1 jsonFolders k with
                 | Some md' =>
                     JsonFolder.setMatchingMarkdownId (MarkdownFile.id md') folder
                 | None => folder
                 end) jsonFolders.
Proof.
  intros mds folders Hlisted matched. unfold matched.
  unfold DriveService.matchFilesWithFolders.
  rewrite forEachMarkdown_assign. cbn [fst snd]. split.
  - apply Forall2_fmap_r, Forall_Forall2_diag, Forall_forall.
    intros md _. apply assign_choice.
  - apply imap_ext. intros k folder _.
    rewrite (lastPointing_assign _ _ _ Hlisted). unfold record.
    destruct (lastAssigned mds folders k) as [md|]; [|done].
    cbn. by rewrite assign_id.
Qed.

Lemma matchFilesWithFolders_assignment_witness :
  (DriveService.matchFilesWithFolders
     [document "d1" "RPT_2024_01_summary.md"; document "d2" "RPT_2024_01_notes.md"]
     [container "f1" "rpt_2024_01_data" []]).2
  = imap (fun k folder =>
            match lastPointing
                    (DriveService.matchFilesWithFolders
                       [document "d1" "RPT_2024_01_summary.md";
                        document "d2" "RPT_2024_01_notes.md"]
                       [container "f1" "rpt_2024_01_data" []]).1
                    [container "f1" "rpt_2024_01_data" []] k with
            | Some md' =>
                JsonFolder.setMatchingMarkdownId (MarkdownFile.id md') folder
            | None => folder
            end) [container "f1" "rpt_2024_01_data" []].
Proof.
  apply (proj2 (matchFilesWithFolders_assignment
                  [document "d1" "RPT_2024_01_summary.md";
                   document "d2" "RPT_2024_01_notes.md"]
                  [container "f1" "rpt_2024_01_data" []]
                  ltac:(repeat constructor))).
Defined.

(** The example of the specification: the document
    [RPT_2024_01_summary.md] is matched with the container
    [rpt_2024_01_data]. *)
Lemma matchFilesWithFolders_RPT_example :
  DriveService.matchFilesWithFolders
    [document "d1" "RPT_2024_01_summary.md"]
    [container "f1" "rpt_2024_01_data" []]
  = ([MarkdownFile.mk "d1" "RPT_2024_01_summary.md" None (Some "f1") Pending],
     [JsonFolder.mk "f1" "rpt_2024_01_data" [] (Some "d1") 0]).
Proof. reflexivity. Qed.

(** C7 fails as stated: two documents of the same prefix are both assigned
    the one container, which records the second of them. *)
Lemma matchFilesWithFolders_not_one_to_one :
  DriveService.matchFilesWithFolders
    [document "d1" "RPT_2024_01_summary.md"; document "d2" "RPT_2024_01_notes.md"]
    [container "f1" "rpt_2024_01_data" []]
  = ([MarkdownFile.mk "d1" "RPT_2024_01_summary.md" None (Some "f1") Pending;
      MarkdownFile.mk "d2" "RPT_2024_01_notes.md" None (Some "f1") Pending],
     [JsonFolder.mk "f1" "rpt_2024_01_data" [] (Some "d2") 0]).
Proof. reflexivity. Qed.

(** C2 at a name that contains [.md] before its extension:
    [replace('.md', '')] removes that first occurrence and leaves the
    extension in place.  The prefix computed for
    [draft.md_2024_01_notes.md] is [draft_2024_01], not the match key
    [draft.md_2024_01], and the document is assigned the container
    [draft_2024_01_data], whose key differs from the document's. *)
Lemma matchFilesWithFolders_strips_first_md :
  Js.replace "draft.md_2024_01_notes.md" ".md" "" = "draft_2024_01_notes.md"
  /\ DriveService.mdPrefixOf (document "d1" "draft.md_2024_01_notes.md")
     = "draft_2024_01"
  /\ matchKeySpec "draft.md_2024_01_notes.md" = "draft.md_2024_01"
  /\ Js.toLowerCase (matchKeySpec "draft.md_2024_01_notes.md")
     <> Js.toLowerCase (prefixOf "draft_2024_01_data")
  /\ MarkdownFile.matchingFolderId
       <$> (DriveService.matchFilesWithFolders
              [document "d1" "draft.md_2024_01_notes.md"]
              [container "f1" "draft_2024_01_data" []]).1
     = [Some "f1"].
Proof. by vm_compute. Qed.

(* ================================================================= *)
(** ** Status derivation *)

(** C1 at the example of the specification.  The document
    [RPT_2024_01_summary.md] is matched with the container
    [rpt_2024_01_data] of four items, and the results area has a container
    of that very name with all four items (or with three of them).
    [determineFileStatuses] looks for a results container whose name occurs
    in the document's name, finds none, and since no item is edited leaves
    the status at [Pending], where [Completed] (or [InProgress]) is due.  A
    results container named after the document is taken instead. *)
Lemma determineFileStatuses_misses_results_of_container :
  MarkdownFile.status
    <$> (FileContext.reconcile
           [document "d1" "RPT_2024_01_summary.md"]
           [container "f1" "rpt_2024_01_data" fourNames]
           [results "r1" "rpt_2024_01_data" fourNames]).1
  = [Pending]
  /\ MarkdownFile.status
       <$> (FileContext.reconcile
              [document "d1" "RPT_2024_01_summary.md"]
              [container "f1" "rpt_2024_01_data" fourNames]
              [results "r1" "rpt_2024_01_data" (take 3 fourNames)]).1
     = [Pending]
  /\ MarkdownFile.status
       <$> (FileContext.reconcile
              [document "d1" "RPT_2024_01_summary.md"]
              [container "f1" "rpt_2024_01_data" fourNames]
              [results "r1" "RPT_2024_01_summary" fourNames]).1
     = [Completed].
Proof. by vm_compute. Qed.

(** What [deriveStatus] does in each of its three cases. *)
Section StatusFacts.
Import FileContext.
Variables (jsonFolders : list JsonFolder.t) (resultFolders : list ResultFolder.t)
          (md : MarkdownFile.t).

Lemma deriveStatus_unmatched :
  List.find (isFolderOf md) jsonFolders = None ->
  deriveStatus jsonFolders resultFolders md
  = (MarkdownFile.setStatus Pending md, jsonFolders).
Proof. intros H. unfold deriveStatus. by rewrite H. Qed.

Lemma deriveStatus_without_results (folder : JsonFolder.t) :
  List.find (isFolderOf md) jsonFolders = Some folder ->
  List.find (fun r => Js.includes (Js.replaceMdAtEnd (MarkdownFile.name md))
                                  (ResultFolder.folderName r))
            resultFolders = None ->
  deriveStatus jsonFolders resultFolders md
  = (MarkdownFile.setStatus
       (if existsb JsonFile.edited (JsonFolder.files folder)
        then InProgress else Pending) md,
     jsonFolders).
Proof. intros H1 H2. unfold deriveStatus. by rewrite H1, H2. Qed.

Lemma deriveStatus_with_results (folder : JsonFolder.t)
    (resultFolder : ResultFolder.t) :
  List.find (isFolderOf md) jsonFolders = Some folder ->
  List.find (fun r => Js.includes (Js.replaceMdAtEnd (MarkdownFile.name md))
                                  (ResultFolder.folderName r))
            resultFolders = Some resultFolder ->
  let total := length (JsonFolder.files folder) in
  let done_ := completedCount (map JsonFile.name (JsonFolder.files folder))
                              (map ResultFile.name (ResultFolder.files resultFolder)) in
  MarkdownFile.status (deriveStatus jsonFolders resultFolders md).1
  = (if (done_ =? 0)%nat then Pending
     else if (done_ <? total)%nat then InProgress else Completed)
  /\ exists progress,
       (deriveStatus jsonFolders resultFolders md).2
       = mutateFound (isFolderOf md) (JsonFolder.setProgress progress) jsonFolders
       /\ (progress == 100 * num done_ / num total)%Q.
Proof.
  intros H1 H2 total done_. unfold deriveStatus. rewrite H1, H2.
  cbn [fst snd MarkdownFile.status MarkdownFile.setStatus].
  rewrite length_map. fold total. fold done_. split; [done|].
  eexists. split; [done|].
  destruct total; unfold Qdiv; [change (/ num 0)%Q with 0%Q|]; ring.
Qed.

End StatusFacts.

(* ================================================================= *)
(** ** Listing fetches on the client *)

Section SpaceFacts.

Lemma append_cons (c : ascii) (s t : string) :
  String c s +:+ t = String c (s +:+ t).
Proof. reflexivity. Qed.

Lemma append_assoc (s t u : string) : (s +:+ t) +:+ u = s +:+ (t +:+ u).
Proof. induction s as [|c s IH]; [done|]. by rewrite !append_cons, IH. Qed.

(** The bytes of white space: a first byte is below 128 or is one of five
    lead bytes, every further byte is a continuation byte. *)
Lemma isSpace_low (c : ascii) : Js.isSpace c = true -> nat_of_ascii c < 128.
Proof.
  unfold Js.isSpace. intros [H|H]%orb_prop.
  - apply andb_prop in H as [_ H%Nat.leb_le]. lia.
  - apply Nat.eqb_eq in H. lia.
Qed.

Lemma isSpace2_bytes (c1 c2 : ascii) :
  Js.isSpace2 c1 c2 = true -> 194 <= nat_of_ascii c1 /\ 128 <= nat_of_ascii c2 < 192.
Proof.
  unfold Js.isSpace2, Js.isByte. intros [H1%Nat.eqb_eq H2%Nat.eqb_eq]%andb_prop. lia.
Qed.

Lemma isSpace3_bytes (c1 c2 c3 : ascii) :
  Js.isSpace3 c1 c2 c3 = true ->
  194 <= nat_of_ascii c1
  /\ 128 <= nat_of_ascii c2 < 192 /\ 128 <= nat_of_ascii c3 < 192.
Proof.
  unfold Js.isSpace3, Js.isByte. intros H.
  repeat match type of H with
         | (_ || _) = true => apply orb_prop in H as [H|H]
         end;
  repeat match goal with
         | H : (_ && _) = true |- _ => apply andb_prop in H as [? ?]
         | H : (_ || _) = true |- _ => apply orb_prop in H as [?|?]
         | H : (_ =? _)%nat = true |- _ => apply Nat.eqb_eq in H
         | H : (_ <=? _)%nat = true |- _ => apply Nat.leb_le in H
         end; lia.
Qed.

(** The shapes of a text that starts with white space. *)
Lemma afterSpace_shape (s r : string) :
  Js.afterSpace s = Some r ->
  (exists c1, s = String c1 r /\ Js.isSpace c1 = true)
  \/ (exists c1 c2, s = String c1 (String c2 r) /\ Js.isSpace c1 = false
                    /\ Js.isSpace2 c1 c2 = true)
  \/ (exists c1 c2 c3, s = String c1 (String c2 (String c3 r))
                       /\ Js.isSpace c1 = false /\ Js.isSpace2 c1 c2 = false
                       /\ Js.isSpace3 c1 c2 c3 = true).
Proof.
  destruct s as [|c1 [|c2 [|c3 r3]]]; cbn [Js.afterSpace]; try done.
  - destruct (Js.isSpace c1) eqn:H1; [|done]. intros [= <-]. left. by exists c1.
  - destruct (Js.isSpace c1) eqn:H1.
    + intros [= <-]. left. by exists c1.
    + destruct (Js.isSpace2 c1 c2) eqn:H2; [|done]. intros [= <-].
      right. left. by exists c1, c2.
  - destruct (Js.isSpace c1) eqn:H1.
    + intros [= <-]. left. by exists c1.
    + destruct (Js.isSpace2 c1 c2) eqn:H2.
      * intros [= <-]. right. left. by exists c1, c2.
      * destruct (Js.isSpace3 c1 c2 c3) eqn:H3; [|done]. intros [= <-].
        right. right. by exists c1, c2, c3.
Qed.

Lemma afterSpace_length (s r : string) :
  Js.afterSpace s = Some r -> String.length r < String.length s.
Proof.
  intros [(c1 & -> & _) | [(c1 & c2 & -> & _) | (c1 & c2 & c3 & -> & _)]]%afterSpace_shape;
    cbn; lia.
Qed.

(** Induction along the white space at the head of a text. *)
Lemma space_ind (P : string -> Prop) :
  (forall s, Js.afterSpace s = None -> P s) ->
  (forall s r, Js.afterSpace s = Some r -> P r -> P s) ->
  forall s, P s.
Proof.
  intros Hnone Hsome s.
  remember (String.length s) as n eqn:Hn. revert s Hn.
  induction n as [n IH] using lt_wf_ind. intros s ->.
  destruct (Js.afterSpace s) as [r|] eqn:Hs; [|by apply Hnone].
  apply (Hsome s r Hs). apply (IH (String.length r)); [|done].
  by apply afterSpace_length.
Qed.

Lemma trimStart_step (s : string) :
  Js.trimStart s
  = match Js.afterSpace s with Some r => Js.trimStart r | None => s end.
Proof.
  destruct s as [|c1 [|c2 [|c3 r3]]]; cbn [Js.trimStart Js.afterSpace]; try done.
  - by destruct (Js.isSpace c1).
  - destruct (Js.isSpace c1); [done|]. by destruct (Js.isSpace2 c1 c2).
  - destruct (Js.isSpace c1); [done|]. destruct (Js.isSpace2 c1 c2); [done|].
    by destruct (Js.isSpace3 c1 c2 c3).
Qed.

Lemma allSpace_step (s : string) :
  Js.allSpace s
  = match s with
    | EmptyString => true
    | String _ _ =>
        match Js.afterSpace s with Some r => Js.allSpace r | None => false end
    end.
Proof.
  destruct s as [|c1 [|c2 [|c3 r3]]]; cbn [Js.allSpace Js.afterSpace]; try done.
  - by destruct (Js.isSpace c1).
  - destruct (Js.isSpace c1); [done|]. by destruct (Js.isSpace2 c1 c2).
  - destruct (Js.isSpace c1); [done|]. destruct (Js.isSpace2 c1 c2); [done|].
    by destruct (Js.isSpace3 c1 c2 c3).
Qed.

Lemma afterSpace_nonempty (s r : string) : Js.afterSpace s = Some r -> s <> "".
Proof. by destruct s. Qed.

Lemma allSpace_after (s r : string) :
  Js.afterSpace s = Some r -> Js.allSpace s = Js.allSpace r.
Proof. intros H. rewrite allSpace_step, H. by destruct s. Qed.

Lemma trimStart_after (s r : string) :
  Js.afterSpace s = Some r -> Js.trimStart s = Js.trimStart r.
Proof. intros H. by rewrite trimStart_step, H. Qed.

Lemma allSpace_none (s : string) :
  Js.afterSpace s = None -> Js.allSpace s = true -> s = "".
Proof. intros H. rewrite allSpace_step, H. by destruct s. Qed.

Lemma afterSpace_app (s r t : string) :
  Js.afterSpace s = Some r -> Js.afterSpace (s +:+ t) = Some (r +:+ t).
Proof.
  intros [(c1 & -> & H1) | [(c1 & c2 & -> & H1 & H2)
                           | (c1 & c2 & c3 & -> & H1 & H2 & H3)]]%afterSpace_shape;
    rewrite ?append_cons; cbn [Js.afterSpace]; by rewrite ?H1, ?H2, ?H3.
Qed.


Lemma afterSpace_first (c : ascii) (r x : string) :
  Js.afterSpace (String c r) = Some x ->
  nat_of_ascii c < 128 \/ 194 <= nat_of_ascii c.
Proof.
  intros [(c1 & [= <- _] & H1)
         | [(c1 & c2 & [= <- _] & _ & H2)
           | (c1 & c2 & c3 & [= <- _] & _ & _ & H3)]]%afterSpace_shape.
  - left. by apply isSpace_low.
  - right. by apply isSpace2_bytes in H2 as [? _].
  - right. by apply isSpace3_bytes in H3 as [? _].
Qed.

Lemma allSpace_first (c : ascii) (r : string) :
  Js.allSpace (String c r) = true ->
  nat_of_ascii c < 128 \/ 194 <= nat_of_ascii c.
Proof.
  rewrite allSpace_step. destruct (Js.afterSpace (String c r)) as [x|] eqn:H; [|done].
  intros _. by apply afterSpace_first in H.
Qed.

Lemma allSpace_atBoundary (t : string) : Js.allSpace t = true -> atBoundary t.
Proof. destruct t as [|c r]; [done|]. apply allSpace_first. Qed.

(** What is put after a text that does not start with white space does
    not make it start with white space, unless it completes a
    character. *)
Lemma afterSpace_app_none (s t : string) :
  Js.afterSpace s = None -> s <> "" -> atBoundary t ->
  Js.afterSpace (s +:+ t) = None.
Proof.
  intros Hs Hne Ht.
  assert (forall c1 t1 t', t = String t1 t' -> Js.isSpace2 c1 t1 = false) as H2.
  { intros c1 t1 t' ->. destruct (Js.isSpace2 c1 t1) eqn:H; [|done].
    apply isSpace2_bytes in H. cbn in Ht. lia. }
  assert (forall c1 t1 t2 t', t = String t1 t' -> Js.isSpace3 c1 t1 t2 = false) as H3.
  { intros c1 t1 t2 t' ->. destruct (Js.isSpace3 c1 t1 t2) eqn:H; [|done].
    apply isSpace3_bytes in H. cbn in Ht. lia. }
  assert (forall c1 c2 t1 t', t = String t1 t' -> Js.isSpace3 c1 c2 t1 = false) as H3'.
  { intros c1 c2 t1 t' ->. destruct (Js.isSpace3 c1 c2 t1) eqn:H; [|done].
    apply isSpace3_bytes in H. cbn in Ht. lia. }
  destruct s as [|c1 [|c2 [|c3 r3]]]; [done| | |].
  - cbn [Js.afterSpace] in Hs. destruct (Js.isSpace c1) eqn:H1; [done|].
    rewrite append_cons. change ("" +:+ t) with t.
    destruct t as [|t1 [|t2 t']]; cbn [Js.afterSpace]; rewrite H1; [done| |].
    + by rewrite (H2 c1 t1 "").
    + by rewrite (H2 c1 t1 (String t2 t')), (H3 c1 t1 t2 (String t2 t')).
  - cbn [Js.afterSpace] in Hs. destruct (Js.isSpace c1) eqn:H1; [done|].
    destruct (Js.isSpace2 c1 c2) eqn:H12; [done|].
    rewrite !append_cons. change ("" +:+ t) with t.
    destruct t as [|t1 t']; cbn [Js.afterSpace]; rewrite H1, H12; [done|].
    by rewrite (H3' c1 c2 t1 t').
  - rewrite !append_cons. cbn [Js.afterSpace] in *.
    destruct (Js.isSpace c1); [done|]. destruct (Js.isSpace2 c1 c2); [done|].
    by destruct (Js.isSpace3 c1 c2 c3).
Qed.

Lemma trimStart_app_space (pre s : string) :
  Js.allSpace pre = true -> Js.trimStart (pre +:+ s) = Js.trimStart s.
Proof.
  revert pre. apply (space_ind (fun pre => Js.allSpace pre = true -> _)).
  - intros pre Hnone Hall. by rewrite (allSpace_none _ Hnone Hall).
  - intros pre r Hsome IH Hall.
    rewrite (trimStart_after _ _ (afterSpace_app _ _ s Hsome)).
    apply IH. by rewrite <- (allSpace_after _ _ Hsome).
Qed.

Lemma trimStart_app_nonspace (s t : string) :
  Js.allSpace s = false -> atBoundary t ->
  Js.trimStart (s +:+ t) = Js.trimStart s +:+ t.
Proof.
  intros Hs Ht. revert s Hs.
  apply (space_ind (fun s => Js.allSpace s = false -> _)).
  - intros s Hnone Hall.
    assert (s <> "") as Hne by (by intros ->).
    by rewrite !trimStart_step, Hnone, (afterSpace_app_none _ _ Hnone Hne Ht).
  - intros s r Hsome IH Hall.
    rewrite (trimStart_after _ _ (afterSpace_app _ _ t Hsome)).
    rewrite (trimStart_after _ _ Hsome). apply IH.
    by rewrite <- (allSpace_after _ _ Hsome).
Qed.

Lemma allSpace_app (s t : string) :
  Js.allSpace t = true -> Js.allSpace (s +:+ t) = Js.allSpace s.
Proof.
  intros Ht. revert s. apply space_ind.
  - intros s Hnone. destruct s as [|c s]; [done|].
    rewrite (allSpace_step (String c s)), Hnone.
    rewrite allSpace_step, append_cons. rewrite <- append_cons.
    by rewrite (afterSpace_app_none _ _ Hnone) by (done || by apply allSpace_atBoundary).
  - intros s r Hsome IH.
    by rewrite (allSpace_after _ _ (afterSpace_app _ _ t Hsome)),
               (allSpace_after _ _ Hsome).
Qed.

Lemma allSpace_app_space (pre s : string) :
  Js.allSpace pre = true -> Js.allSpace (pre +:+ s) = Js.allSpace s.
Proof.
  revert pre. apply (space_ind (fun pre => Js.allSpace pre = true -> _)).
  - intros pre Hnone Hall. by rewrite (allSpace_none _ Hnone Hall).
  - intros pre r Hsome IH Hall.
    rewrite (allSpace_after _ _ (afterSpace_app _ _ s Hsome)).
    apply IH. by rewrite <- (allSpace_after _ _ Hsome).
Qed.

Lemma afterSpace_trimStart (s : string) : Js.afterSpace (Js.trimStart s) = None.
Proof.
  revert s. apply space_ind.
  - intros s Hnone. by rewrite trimStart_step, Hnone.
  - intros s r Hsome IH. by rewrite (trimStart_after _ _ Hsome).
Qed.

Lemma allSpace_trimStart (s : string) :
  Js.allSpace (Js.trimStart s) = Js.allSpace s.
Proof.
  revert s. apply space_ind.
  - intros s Hnone. by rewrite trimStart_step, Hnone.
  - intros s r Hsome IH.
    by rewrite (trimStart_after _ _ Hsome), (allSpace_after _ _ Hsome).
Qed.

Lemma trimEnd_empty (s : string) : Js.trimEnd s = "" -> Js.allSpace s = true.
Proof. destruct s as [|c r]; [done|]. cbn [Js.trimEnd]. by destruct (Js.allSpace _). Qed.

Lemma trimEnd_allSpace (s : string) : Js.allSpace s = true -> Js.trimEnd s = "".
Proof. destruct s as [|c r]; [done|]. cbn [Js.trimEnd]. by intros ->. Qed.

Lemma trimEnd_cons (c : ascii) (r : string) :
  Js.allSpace (String c r) = false ->
  Js.trimEnd (String c r) = String c (Js.trimEnd r).
Proof. cbn [Js.trimEnd]. by intros ->. Qed.

Lemma trim_empty_allSpace (s : string) : Js.trim s = "" -> Js.allSpace s = true.
Proof.
  unfold Js.trim. intros H%trimEnd_empty. by rewrite allSpace_trimStart in H.
Qed.

Lemma allSpace_trim (s : string) : Js.allSpace s = true -> Js.trim s = "".
Proof.
  unfold Js.trim. intros H. apply trimEnd_allSpace. by rewrite allSpace_trimStart.
Qed.

(** A byte of ASCII that is not white space starts no white space. *)
Lemma afterSpace_low (c : ascii) (r : string) :
  nat_of_ascii c < 128 -> Js.isSpace c = false ->
  Js.afterSpace (String c r) = None.
Proof.
  intros Hlow Hc.
  assert (forall k, 128 <= k -> Js.isByte c k = false) as Hbyte.
  { intros k Hk. unfold Js.isByte. apply Nat.eqb_neq. lia. }
  cbn [Js.afterSpace]. rewrite Hc.
  destruct r as [|c2 [|c3 r3]]; [done| |];
    unfold Js.isSpace2, Js.isSpace3; by rewrite !Hbyte by lia.
Qed.

Lemma allSpace_low (c : ascii) (r : string) :
  nat_of_ascii c < 128 -> Js.isSpace c = false ->
  Js.allSpace (String c r) = false.
Proof. intros Hlow Hc. by rewrite allSpace_step, afterSpace_low. Qed.

End SpaceFacts.

Section FetchFacts.
Import DriveService.

Lemma removeSourceMap_cons (c : ascii) (r : string) :
  c <> "/"%char -> removeSourceMap (String c r) = String c (removeSourceMap r).
Proof.
  intros Hc. cbn [removeSourceMap Js.startsWith].
  by destruct (Ascii.eqb_spec "/" c) as [<-|_].
Qed.

Lemma space_not_slash (c : ascii) : Js.isSpace c = true -> c <> "/"%char.
Proof. by intros H ->. Qed.

Lemma high_not_slash (c : ascii) : 128 <= nat_of_ascii c -> c <> "/"%char.
Proof. intros H ->. vm_compute in H. lia. Qed.

Lemma high_not_LF (c : ascii) : 128 <= nat_of_ascii c -> c <> LF.
Proof. intros H ->. vm_compute in H. lia. Qed.

(** The source-map comment is looked for behind white space as it is in
    front of it: white space at the head of a text stays. *)
Lemma removeSourceMap_after (s r : string) :
  Js.afterSpace s = Some r ->
  exists w, s = w +:+ r
            /\ removeSourceMap s = w +:+ removeSourceMap r
            /\ forall x, Js.afterSpace (w +:+ x) = Some x.
Proof.
  intros [(c1 & -> & H1) | [(c1 & c2 & -> & H1 & H2)
                           | (c1 & c2 & c3 & -> & H1 & H2 & H3)]]%afterSpace_shape.
  - exists (String c1 ""). split; [reflexivity|]. split.
    + by rewrite removeSourceMap_cons by (by apply space_not_slash).
    + intros x. cbv [String.append]. cbn [Js.afterSpace]. by rewrite H1.
  - pose proof (isSpace2_bytes _ _ H2) as [Hb1 Hb2].
    exists (String c1 (String c2 "")). split; [reflexivity|]. split.
    + by rewrite !removeSourceMap_cons by (apply high_not_slash; lia).
    + intros x. cbv [String.append]. cbn [Js.afterSpace]. by rewrite H1, H2.
  - pose proof (isSpace3_bytes _ _ _ H3) as (Hb1 & Hb2 & Hb3).
    exists (String c1 (String c2 (String c3 ""))). split; [reflexivity|]. split.
    + by rewrite !removeSourceMap_cons by (apply high_not_slash; lia).
    + intros x. cbv [String.append]. cbn [Js.afterSpace]. by rewrite H1, H2, H3.
Qed.

(** A text of white space has no source-map comment to remove. *)
Lemma removeSourceMap_allSpace (s : string) :
  Js.allSpace s = true -> removeSourceMap s = s.
Proof.
  revert s. apply (space_ind (fun s => Js.allSpace s = true -> _)).
  - intros s Hnone Hall. by rewrite (allSpace_none _ Hnone Hall).
  - intros s r Hsome IH Hall.
    destruct (removeSourceMap_after _ _ Hsome) as (w & -> & -> & _).
    rewrite IH; [done|]. by rewrite <- (allSpace_after _ _ Hsome).
Qed.

Lemma dropLine_head (x y : string) (b : ascii) :
  dropLine x = String b y -> b = LF.
Proof.
  induction x as [|c x IH]; [done|]. cbn [dropLine].
  destruct (Ascii.eqb_spec c LF) as [->|_]; [by intros [= <- _] | exact IH].
Qed.

Lemma removeSourceMap_head (r y : string) (b : ascii) :
  removeSourceMap r = String b y -> b <> LF ->
  exists r', r = String b r' /\ y = removeSourceMap r'.
Proof.
  destruct r as [|c r]; [done|]. cbn [removeSourceMap].
  destruct (Js.startsWith (String c r) "//# sourceMappingURL=").
  - intros Hdrop%dropLine_head. done.
  - intros [= -> <-] _. by exists r.
Qed.

(** Cutting the comment out of what follows a byte does not turn the byte
    into the start of white space. *)
Lemma afterSpace_removed (c : ascii) (r : string) :
  Js.afterSpace (String c r) = None ->
  Js.afterSpace (String c (removeSourceMap r)) = None.
Proof.
  intros Hnone.
  destruct (Js.afterSpace (String c (removeSourceMap r))) as [x|] eqn:Hsome; [|done].
  exfalso.
  apply afterSpace_shape in Hsome
    as [(c1 & [= <- _] & H1)
       | [(c1 & c2 & [= <- Hr] & H1 & H2)
         | (c1 & c2 & c3 & [= <- Hr] & H1 & H2 & H3)]].
  - cbn [Js.afterSpace] in Hnone. by rewrite H1 in Hnone.
  - pose proof (isSpace2_bytes _ _ H2) as [_ Hb2].
    apply removeSourceMap_head in Hr as (r' & -> & _);
      [|apply high_not_LF; lia].
    cbn [Js.afterSpace] in Hnone. by rewrite H1, H2 in Hnone.
  - pose proof (isSpace3_bytes _ _ _ H3) as (_ & Hb2 & Hb3).
    apply removeSourceMap_head in Hr as (r' & -> & Hr');
      [|apply high_not_LF; lia].
    symmetry in Hr'.
    apply removeSourceMap_head in Hr' as (r'' & -> & _);
      [|apply high_not_LF; lia].
    cbn [Js.afterSpace] in Hnone. by rewrite H1, H2, H3 in Hnone.
Qed.

(** [trimEnd] keeps a text that starts with the marker. *)
Lemma trimEnd_marker (rest : string) :
  exists r', Js.trimEnd ("//# sourceMappingURL" +:+ rest)
             = "//# sourceMappingURL" +:+ r'.
Proof.
  exists (Js.trimEnd rest). cbv [String.append].
  by rewrite !trimEnd_cons
    by (first [ apply allSpace_low; [by apply Nat.ltb_lt | done] | reflexivity ]).
Qed.

(** A text that, after leading white space, begins with the comment
    marker is recognised as such by the first test of
    [extractValidJson]. *)
Lemma comment_recognised (pre rest : string) :
  Js.allSpace pre = true ->
  Js.startsWith (Js.trim (pre +:+ "//# sourceMappingURL" +:+ rest))
                "//# sourceMappingURL" = true.
Proof.
  intros Hpre. unfold Js.trim. rewrite trimStart_app_space by done.
  assert (Js.trimStart ("//# sourceMappingURL" +:+ rest)
          = "//# sourceMappingURL" +:+ rest) as -> by done.
  destruct (trimEnd_marker rest) as [r' ->].
  apply startsWith_app.
Qed.

(** When nothing but white space is left once the comment is cut out, the
    text was white space, or it began with the comment. *)
Lemma blank_after_removal (s : string) :
  Js.allSpace (removeSourceMap s) = true ->
  Js.allSpace s = true
  \/ Js.startsWith (Js.trim s) "//# sourceMappingURL" = true.
Proof.
  revert s. apply (space_ind (fun s => Js.allSpace (removeSourceMap s) = true -> _)).
  - intros s Hnone Hall. destruct s as [|c r]; [by left|].
    destruct (Js.startsWith (String c r) "//# sourceMappingURL=") eqn:Hhere.
    + right. apply startsWith_split in Hhere as [rest Hs]. rewrite Hs.
      apply (comment_recognised "" ("=" +:+ rest)). done.
    + exfalso. cbn [removeSourceMap] in Hall. rewrite Hhere in Hall.
      rewrite allSpace_step, (afterSpace_removed _ _ Hnone) in Hall. done.
  - intros s r Hsome IH Hall.
    destruct (removeSourceMap_after _ _ Hsome) as (w & Hs & Hrm & Hw).
    rewrite Hrm, (allSpace_after _ _ (Hw _)) in Hall.
    rewrite (allSpace_after _ _ Hsome). unfold Js.trim.
    rewrite (trimStart_after _ _ Hsome). by apply IH.
Qed.

End FetchFacts.

(** C10, as the code has it by design.  A response that is not [ok] makes
    the fetch fail.  For an [ok] response: when the body is white space
    only (the empty body included), or is one source-map comment and
    nothing else, the fetch resolves to the empty array.  When the body is
    not white space and does not begin, after leading white space, with a
    source-map comment, the first source-map comment is cut out and the rest
    trimmed, and the fetch resolves to what [JSON.parse] makes of that text,
    or fails with ["Failed to parse response data"] when [JSON.parse]
    rejects it.  Nothing is said of a body that begins with a source-map
    comment and goes on after it. *)
Theorem fetchListing_outcome :
  forall (what : string) (response : DriveService.HttpResponse),
    let text := DriveService.text response in
    (DriveService.ok response = false ->
       DriveService.fetchListing what response
       = DriveService.Failed
           ("Failed to fetch " +:+ what +:+ ": "
            +:+ DriveService.showNat (DriveService.status response)))
    /\
    (DriveService.ok response = true ->
       (Js.allSpace text = true \/ onlyComment text ->
        DriveService.fetchListing what response
        = DriveService.Fulfilled (Json.Array []))
       /\
       (Js.allSpace text = false ->
        Js.startsWith (Js.trim text) "//# sourceMappingURL" = false ->
        DriveService.fetchListing what response
        = match Json.parse (Js.trim (DriveService.removeSourceMap text)) with
          | Some v => DriveService.Fulfilled v
          | None => DriveService.Failed "Failed to parse response data"
          end)).
Proof.
  intros what response text. unfold DriveService.fetchListing.
  split; [by intros ->|]. intros ->. cbn [negb]. fold text.
  unfold DriveService.extractValidJson. split.
  - intros [Hblank | (pre & line & post & Htext & Hpre & _ & _)].
    + destruct (negb (Js.truthy text) || _); [done|].
      rewrite (removeSourceMap_allSpace _ Hblank).
      by rewrite (allSpace_trim _ Hblank).
    + rewrite Htext, comment_recognised by done. by rewrite orb_true_r.
  - intros Hblank Hmarker. rewrite Hmarker.
    destruct text as [|c r] eqn:Htext; [done|]. cbn [Js.truthy negb orb].
    destruct (Js.trim (DriveService.removeSourceMap (String c r))) eqn:Hrest;
      [|done].
    exfalso. apply trim_empty_allSpace, blank_after_removal in Hrest.
    destruct Hrest as [Hb | Hm]; congruence.
Qed.

(** C10 fails as stated in its second half: a body of one space, or of one
    no-break space, is not empty and does not parse as JSON, with or without
    trimming, yet the fetch resolves to the empty array. *)
Lemma fetchListing_resolves_on_unparsable_body :
  (oneSpace <> ""
   /\ Json.parse (DriveService.removeSourceMap oneSpace) = None
   /\ Json.parse (Js.trim (DriveService.removeSourceMap oneSpace)) = None
   /\ DriveService.fetchMarkdownFiles (okResponse oneSpace)
      = DriveService.Fulfilled (Json.Array []))
  /\
  (NBSP <> ""
   /\ Json.parse (DriveService.removeSourceMap NBSP) = None
   /\ Json.parse (Js.trim (DriveService.removeSourceMap NBSP)) = None
   /\ DriveService.fetchMarkdownFiles (okResponse NBSP)
      = DriveService.Fulfilled (Json.Array [])).
Proof. by vm_compute. Qed.

Lemma fetchListing_outcome_witness :
  DriveService.fetchListing "JSON folders" (okResponse ("[1, 2" +:+ NBSP))
  = match Json.parse
            (Js.trim (DriveService.removeSourceMap ("[1, 2" +:+ NBSP))) with
    | Some v => DriveService.Fulfilled v
    | None => DriveService.Failed "Failed to parse response data"
    end.
Proof.
  apply (fetchListing_outcome "JSON folders" (okResponse ("[1, 2" +:+ NBSP))).
  - reflexivity.
  - reflexivity.
  - reflexivity.
Defined.

(** The bodies left out above.  A body that begins with a source-map
    comment and goes on with JSON text on the next line resolves to the
    empty array: the first test of [extractValidJson] takes it for a
    body of a comment only, and the JSON text is dropped, where the second
    step of the function would cut the comment out and parse the rest. *)
Lemma extractValidJson_drops_json_after_comment :
  DriveService.fetchMarkdownFiles (okResponse commentThenJson)
  = DriveService.Fulfilled (Json.Array [])
  /\ Json.parse (Js.trim (DriveService.removeSourceMap commentThenJson))
     = Some (Json.Array [Json.Number "1"]).
Proof. by vm_compute. Qed.

(* ================================================================= *)
(** ** Progress and status: bounds, invariants, independence *)

Section ProgressBounds.
Import FileContext.

Lemma num_nonneg (n : nat) : (0 <= num n)%Q.
Proof. unfold num, Qle. simpl. lia. Qed.

Lemma num_le (a b : nat) : a <= b -> (num a <= num b)%Q.
Proof. intros H. unfold num, Qle. simpl. lia. Qed.

Lemma num_pos (n : nat) : (0 < num (S n))%Q.
Proof. unfold num, Qlt. simpl. lia. Qed.

(** A share of a whole, as a percentage, lies between 0 and 100. *)
Lemma percentage_bounds (a t : nat) :
  a <= S t -> (0 <= num a / num (S t) * 100 /\ num a / num (S t) * 100 <= 100)%Q.
Proof.
  intros H. pose proof (num_pos t) as Hpos. split.
  - apply Qmult_le_0_compat; [|done].
    apply Qle_shift_div_l; [done|]. rewrite Qmult_0_l. apply num_nonneg.
  - apply Qle_trans with (1 * 100)%Q; [|by unfold Qle; simpl; lia].
    apply Qmult_le_compat_r; [|done].
    apply Qle_shift_div_r; [done|]. rewrite Qmult_1_l. by apply num_le.
Qed.

Lemma approvedCount_le (files : list JsonFile.t) :
  approvedCount files <= length files.
Proof. unfold approvedCount. apply filter_length_le. Qed.

End ProgressBounds.

(** [calcProgress] is a percentage: whatever the items, the progress it
    computes lies between 0 and 100. *)
Theorem calcProgress_between_0_and_100 :
  forall files : list JsonFile.t,
    (0 <= FileContext.calcProgress files /\ FileContext.calcProgress files <= 100)%Q.
Proof.
  intros files. unfold FileContext.calcProgress.
  destruct files as [|file rest]; [done|].
  cbn [length]. apply percentage_bounds.
  change (approvedCount (file :: rest) <= length (file :: rest)).
  apply approvedCount_le.
Qed.


Section StatusOfProgress.
Import FileContext.

Lemma percentage_full (a t : nat) :
  (num a / num (S t) * 100 == 100)%Q <-> a = S t.
Proof.
  unfold Qeq, num.
  change (Z.of_nat (S t)) with (Z.pos (Pos.of_succ_nat t)). cbn. lia.
Qed.

Lemma percentage_none (a t : nat) :
  (num a / num (S t) * 100 <= 0)%Q <-> a = 0.
Proof.
  unfold Qle, num.
  change (Z.of_nat (S t)) with (Z.pos (Pos.of_succ_nat t)). cbn. lia.
Qed.

(** The status [approveJsonFile] derives from a percentage. *)
Lemma statusOfProgress_percentage (a t : nat) :
  statusOfProgress (num a / num (S t) * 100)
  = if (a =? S t)%nat then Completed
    else if (a =? 0)%nat then Pending else InProgress.
Proof.
  unfold statusOfProgress.
  destruct (Qeq_bool _ 100) eqn:Hfull.
  - apply Qeq_bool_iff, percentage_full in Hfull. by rewrite Hfull, Nat.eqb_refl.
  - assert (a <> S t) as Hne.
    { intros Heq. apply percentage_full in Heq.
      apply Qeq_bool_iff in Heq. congruence. }
    apply Nat.eqb_neq in Hne. rewrite Hne.
    destruct (Qle_bool _ 0) eqn:Hnone; cbn [negb].
    + apply Qle_bool_iff, percentage_none in Hnone. by rewrite Hnone.
    + destruct (Nat.eqb_spec a 0) as [Ha|]; [|done].
      pose proof (proj2 (percentage_none a t) Ha) as Hq.
      apply Qle_bool_iff in Hq. congruence.
Qed.

End StatusOfProgress.

Section CountFacts.
Context {A : Type} (p : A -> bool).

Lemma filter_all (l : list A) :
  length (List.filter p l) = length l <-> Forall (fun x => p x = true) l.
Proof.
  induction l as [|x l IH]; cbn [List.filter length]; [by split|].
  pose proof (filter_length_le p l) as Hle.
  destruct (p x) eqn:Hx; cbn [length]; rewrite Forall_cons.
  - split; [intros [=H]; split; [done|by apply IH] | intros [_ H]; f_equal; by apply IH].
  - split; [lia | intros [? _]; congruence].
Qed.

Lemma filter_none (l : list A) :
  length (List.filter p l) = 0 <-> Forall (fun x => p x = false) l.
Proof.
  induction l as [|x l IH]; cbn [List.filter length]; [by split|].
  destruct (p x) eqn:Hx; cbn [length]; rewrite Forall_cons.
  - split; [lia | intros [? _]; congruence].
  - split; [intros H; split; [done|by apply IH] | intros [_ H]; by apply IH].
Qed.

End CountFacts.

Section ApprovalFacts.
Import FileContext.

Lemma find_map_stable {A} (p : A -> bool) (f : A -> A) (l : list A) :
  (forall x, p (f x) = p x) ->
  List.find p (map f l) = option_map f (List.find p l).
Proof.
  intros Hp. induction l as [|x l IH]; [done|]. cbn [map List.find].
  rewrite Hp. by destruct (p x).
Qed.

(** The status of a list of items by their [approved] flags. *)
Lemma statusOfProgress_calcProgress (files : list JsonFile.t) :
  (statusOfProgress (calcProgress files) = Completed
   <-> files <> [] /\ Forall (fun f => JsonFile.approved f = true) files)
  /\ (statusOfProgress (calcProgress files) = Pending
      <-> Forall (fun f => JsonFile.approved f = false) files).
Proof.
  destruct files as [|file rest]; [by split; split; try done; intros [? _]|].
  unfold calcProgress. cbn [length]. rewrite statusOfProgress_percentage.
  pose proof (filter_all JsonFile.approved (file :: rest)) as Hall.
  pose proof (filter_none JsonFile.approved (file :: rest)) as Hnone.
  cbn [length] in Hall, Hnone.
  destruct (Nat.eqb_spec (length (List.filter JsonFile.approved (file :: rest)))
                         (S (length rest))) as [Hfull | Hnot].
  - split; [split; [intros _; split; [done|by apply Hall] | done]|].
    split; [done|]. intros H%Hnone. lia.
  - split; [split; [by destruct (_ =? 0)%nat | intros [_ H%Hall]; done]|].
    destruct (Nat.eqb_spec (length (List.filter JsonFile.approved (file :: rest))) 0)
      as [Hzero | Hsome].
    + split; [intros _; by apply Hnone | done].
    + split; [done | intros H%Hnone; done].
Qed.

Lemma approved_after (jsonFile file : JsonFile.t) :
  JsonFile.approved
    (if String.eqb (JsonFile.id file) (JsonFile.id jsonFile)
     then markApproved file else file)
  = approvedAfter jsonFile file.
Proof.
  unfold approvedAfter. destruct (String.eqb _ _); cbn; by rewrite ?orb_true_r, ?orb_false_r.
Qed.

End ApprovalFacts.

(** What [approveJsonFile] makes of a document that has a container.  The
    status is derived from the progress of that container after the update.
    When the item carries the id of the container for [folderId], the
    progress is recomputed from the flags: the document is [Completed]
    exactly when the container has items and each of them was approved
    before or has the item's id, [Pending] exactly when none was approved
    before and none has the item's id, else [InProgress].  When it does
    not, which is so for every item the listing delivers, the container is
    left as it is, no item is approved, and the status is derived from the
    progress the container had. *)
Theorem approveJsonFile_status_of_document :
  forall (jsonFile : JsonFile.t) (prev : FileState) (i : nat)
         (md : MarkdownFile.t) (folder : JsonFolder.t),
    markdownFiles prev !! i = Some md ->
    List.find (FileContext.isFolderOf md) (jsonFolders prev) = Some folder ->
    exists md' : MarkdownFile.t,
      markdownFiles (FileContext.approveJsonFile jsonFile prev) !! i = Some md'
      /\ (JsonFile.folderId jsonFile = Some (JsonFolder.id folder) ->
          (MarkdownFile.status md' = Completed
           <-> JsonFolder.files folder <> []
               /\ Forall (fun f => approvedAfter jsonFile f = true)
                         (JsonFolder.files folder))
          /\ (MarkdownFile.status md' = Pending
              <-> Forall (fun f => approvedAfter jsonFile f = false)
                         (JsonFolder.files folder)))
      /\ (JsonFile.folderId jsonFile <> Some (JsonFolder.id folder) ->
          md' = MarkdownFile.setStatus
                  (FileContext.statusOfProgress (JsonFolder.progress folder)) md
          /\ List.find (FileContext.isFolderOf md)
                       (jsonFolders (FileContext.approveJsonFile jsonFile prev))
             = Some folder).
Proof.
  intros jsonFile prev i md folder Hmd Hfind.
  unfold FileContext.approveJsonFile. cbn [markdownFiles jsonFolders].
  change (map ?g (markdownFiles prev)) with (g <$> markdownFiles prev).
  rewrite list_lookup_fmap, Hmd. cbn [fmap option_fmap option_map].
  eexists. split; [reflexivity|].
  unfold FileContext.updateFolders. rewrite find_map_stable.
  2:{ intros x. unfold FileContext.isFolderOf.
      by destruct (FileContext.holdsItem jsonFile x). }
  rewrite Hfind. cbn [option_map]. split.
  - intros Hid. rewrite (proj2 (holdsItem_spec jsonFile folder) Hid).
    cbn [JsonFolder.progress JsonFolder.setProgress MarkdownFile.status
         MarkdownFile.setStatus].
    set (files' := map _ (JsonFolder.files folder)).
    destruct (statusOfProgress_calcProgress files') as [Hc Hp].
    assert (forall b, Forall (fun f => JsonFile.approved f = b) files'
                      <-> Forall (fun f => approvedAfter jsonFile f = b)
                                 (JsonFolder.files folder)) as Hflags.
    { intros b. unfold files'.
      change (map ?g (JsonFolder.files folder)) with (g <$> JsonFolder.files folder).
      rewrite Forall_fmap. apply Forall_iff. intros f. cbn.
      by rewrite approved_after. }
    rewrite Hc, Hp, !Hflags. split; [|done].
    assert (files' = [] <-> JsonFolder.files folder = []) as Hnil.
    { unfold files'. by destruct (JsonFolder.files folder). }
    rewrite Hnil. done.
  - intros Hne. by rewrite (holdsItem_false _ _ Hne).
Qed.

Lemma approveJsonFile_status_of_document_witness :
  exists md' : MarkdownFile.t,
    markdownFiles (FileContext.approveJsonFile itemC matchedState) !! 0 = Some md'
    /\ (JsonFile.folderId itemC = Some (JsonFolder.id fourItems) ->
        (MarkdownFile.status md' = Completed
         <-> JsonFolder.files fourItems <> []
             /\ Forall (fun f => approvedAfter itemC f = true)
                       (JsonFolder.files fourItems))
        /\ (MarkdownFile.status md' = Pending
            <-> Forall (fun f => approvedAfter itemC f = false)
                       (JsonFolder.files fourItems)))
    /\ (JsonFile.folderId itemC <> Some (JsonFolder.id fourItems) ->
        md' = MarkdownFile.setStatus
                (FileContext.statusOfProgress (JsonFolder.progress fourItems))
                matchedDocument
        /\ List.find (FileContext.isFolderOf matchedDocument)
                     (jsonFolders (FileContext.approveJsonFile itemC matchedState))
           = Some fourItems).
Proof.
  apply (approveJsonFile_status_of_document itemC matchedState 0 matchedDocument
           fourItems).
  - reflexivity.
  - reflexivity.
Defined.

Section ResultFacts.
Import FileContext.

Lemma existsb_eqb_In (n : string) (names : list string) :
  existsb (String.eqb n) names = true <-> In n names.
Proof.
  rewrite existsb_exists. split.
  - intros (x & Hin & Heq). apply String.eqb_eq in Heq. by subst.
  - intros Hin. exists n. split; [done|apply String.eqb_refl].
Qed.

Lemma completedCount_le (jsonNames resultNames : list string) :
  completedCount jsonNames resultNames <= length jsonNames.
Proof. unfold completedCount. apply filter_length_le. Qed.

End ResultFacts.

(** When [determineFileStatuses] has found a container and a results
    container for a document, the document is [Completed] exactly when the
    container has items and the name of each occurs among the result names,
    [Pending] exactly when no item name occurs among them, and
    [InProgress] otherwise.  The progress written to the container lies
    between 0 and 100, and the status is the one [approveJsonFile] derives
    from that progress. *)
Theorem deriveStatus_by_names :
  forall (jsonFolders : list JsonFolder.t) (resultFolders : list ResultFolder.t)
         (md : MarkdownFile.t) (folder : JsonFolder.t)
         (resultFolder : ResultFolder.t),
    List.find (FileContext.isFolderOf md) jsonFolders = Some folder ->
    List.find (fun r => Js.includes (Js.replaceMdAtEnd (MarkdownFile.name md))
                                    (ResultFolder.folderName r))
              resultFolders = Some resultFolder ->
    let names := map JsonFile.name (JsonFolder.files folder) in
    let resultNames := map ResultFile.name (ResultFolder.files resultFolder) in
    let status :=
      MarkdownFile.status (FileContext.deriveStatus jsonFolders resultFolders md).1 in
    (status = Completed
     <-> names <> [] /\ Forall (fun n => In n resultNames) names)
    /\ (status = Pending <-> Forall (fun n => ~ In n resultNames) names)
    /\ exists progress : Q,
         (FileContext.deriveStatus jsonFolders resultFolders md).2
         = FileContext.mutateFound (FileContext.isFolderOf md)
             (JsonFolder.setProgress progress) jsonFolders
         /\ (0 <= progress /\ progress <= 100)%Q
         /\ status = FileContext.statusOfProgress progress.
Proof.
  intros jsonFolders resultFolders md folder resultFolder Hfolder Hresult
         names resultNames status.
  unfold status, FileContext.deriveStatus. rewrite Hfolder, Hresult.
  cbn [fst snd MarkdownFile.status MarkdownFile.setStatus].
  fold names. fold resultNames.
  set (done_ := FileContext.completedCount names resultNames).
  pose proof (completedCount_le names resultNames) as Hle. fold done_ in Hle.
  pose proof (filter_all (fun n => existsb (String.eqb n) resultNames) names) as Hall.
  pose proof (filter_none (fun n => existsb (String.eqb n) resultNames) names) as Hnone.
  fold (FileContext.completedCount names resultNames) in Hall, Hnone.
  fold done_ in Hall, Hnone.
  assert (Forall (fun n => existsb (String.eqb n) resultNames = true) names
          <-> Forall (fun n => In n resultNames) names) as Hin.
  { apply Forall_iff. intros n. apply existsb_eqb_In. }
  assert (Forall (fun n => existsb (String.eqb n) resultNames = false) names
          <-> Forall (fun n => ~ In n resultNames) names) as Hout.
  { apply Forall_iff. intros n. rewrite <- existsb_eqb_In.
    by destruct (existsb _ _). }
  rewrite <- Hin, <- Hout, <- Hall, <- Hnone.
  assert (names = [] <-> length names = 0) as Hnil
    by (rewrite length_zero_iff_nil; done).
  split; [|split].
  - rewrite Hnil. destruct (Nat.eqb_spec done_ 0) as [Hz|Hnz].
    + split; [done|]. lia.
    + destruct (Nat.ltb_spec done_ (length names)) as [Hlt|Hge].
      * split; [done|]. lia.
      * split; [|done]. lia.
  - destruct (Nat.eqb_spec done_ 0) as [Hz|Hnz]; [done|].
    by destruct (done_ <? length names)%nat.
  - eexists. split; [reflexivity|].
    destruct (length names) as [|t] eqn:Hlen.
    + assert (done_ = 0) as -> by lia. by vm_compute.
    + split; [by apply percentage_bounds|].
      rewrite statusOfProgress_percentage.
      destruct (Nat.eqb_spec done_ 0) as [->|Hnz]; [done|].
      destruct (Nat.eqb_spec done_ (S t)) as [->|Hne].
      * by rewrite Nat.ltb_irrefl.
      * destruct (Nat.ltb_spec done_ (S t)); [done|lia].
Qed.

Lemma deriveStatus_by_names_witness :
  MarkdownFile.status
    (FileContext.deriveStatus [fourItems]
       [results "r1" "RPT_2024_01_summary" fourNames] matchedDocument).1
  = Completed
  <-> map JsonFile.name (JsonFolder.files fourItems) <> []
      /\ Forall (fun n =>
                   In n (map ResultFile.name
                           (ResultFolder.files
                              (results "r1" "RPT_2024_01_summary" fourNames))))
                (map JsonFile.name (JsonFolder.files fourItems)).
Proof.
  exact (proj1 (deriveStatus_by_names [fourItems]
                  [results "r1" "RPT_2024_01_summary" fourNames] matchedDocument
                  fourItems (results "r1" "RPT_2024_01_summary" fourNames)
                  eq_refl eq_refl)).
Defined.

Section EvolveFacts.
Import FileContext.

Lemma Forall2_map_r {A B} (R : A -> B -> Prop) (f : A -> B) (l : list A) :
  (forall x, R x (f x)) -> Forall2 R l (map f l).
Proof. intros H. induction l; constructor; auto. Qed.

Lemma updateFolders_evolves (change : JsonFile.t -> JsonFile.t)
    (jsonFile : JsonFile.t) (folders : list JsonFolder.t) :
  (forall file, JsonFile.id file = JsonFile.id jsonFile ->
                itemEvolves jsonFile file (change file)) ->
  Forall2 (containerEvolves jsonFile) folders (updateFolders change jsonFile folders).
Proof.
  intros Hchange. unfold updateFolders. apply Forall2_map_r. intros folder.
  destruct (holdsItem jsonFile folder) eqn:Hholds.
  - apply holdsItem_spec in Hholds.
    repeat split; try done. apply Forall2_map_r. intros file.
    destruct (String.eqb_spec (JsonFile.id file) (JsonFile.id jsonFile)) as [Hid|Hid].
    + by apply Hchange.
    + by repeat split.
  - repeat split; try done.
    apply Forall_Forall2_diag, Forall_forall. intros file _. by repeat split.
Qed.

End EvolveFacts.

(** [updateJsonFile] and [approveJsonFile] touch one container and, in it,
    the items that have the id of the given item.  Every other container
    and every other item is the object it was; containers and items keep
    their number, order, ids and names; no [edited] or [approved] flag that
    was set is cleared.  [updateJsonFile] leaves the documents as they
    are. *)
Theorem edits_keep_items_and_flags :
  forall (jsonFile : JsonFile.t) (content : option Content) (prev : FileState),
    Forall2 (containerEvolves jsonFile) (jsonFolders prev)
            (jsonFolders (FileContext.updateJsonFile jsonFile content prev))
    /\ markdownFiles (FileContext.updateJsonFile jsonFile content prev)
       = markdownFiles prev
    /\ Forall2 (containerEvolves jsonFile) (jsonFolders prev)
               (jsonFolders (FileContext.approveJsonFile jsonFile prev)).
Proof.
  intros jsonFile content prev. split; [|split; [done|]].
  - apply updateFolders_evolves. intros file Hid. by repeat split.
  - apply updateFolders_evolves. intros file Hid. by repeat split.
Qed.

Section ReconcileFacts.
Import FileContext.

Lemma setProgress_self (f : JsonFolder.t) :
  JsonFolder.setProgress (JsonFolder.progress f) f = f.
Proof. by destruct f. Qed.

Lemma setStatus_self (md : MarkdownFile.t) :
  MarkdownFile.setStatus (MarkdownFile.status md) md = md.
Proof. by destruct md. Qed.

Lemma differInProgress_refl (fs : list JsonFolder.t) : differInProgress fs fs.
Proof.
  apply Forall_Forall2_diag, Forall_forall. intros f _.
  exists (JsonFolder.progress f). by rewrite setProgress_self.
Qed.

Lemma differInProgress_trans (fs1 fs2 fs3 : list JsonFolder.t) :
  differInProgress fs1 fs2 -> differInProgress fs2 fs3 -> differInProgress fs1 fs3.
Proof.
  unfold differInProgress. intros H12. revert fs3.
  induction H12 as [|f1 f2 fs1 fs2 [p ->] _ IH]; intros fs3 H23;
    inversion H23 as [|? f3 ? fs3' [q ->] Hrest]; subst; constructor.
  - by exists q.
  - by apply IH.
Qed.

Lemma differInProgress_sameItems (fs fs' : list JsonFolder.t) :
  differInProgress fs fs' -> sameItems fs fs'.
Proof.
  induction 1 as [|f f' fs fs' [p ->] _ IH]; constructor; [done|apply IH].
Qed.

Lemma mutateFound_progress (p : JsonFolder.t -> bool) (q : Q)
    (fs : list JsonFolder.t) :
  differInProgress fs (mutateFound p (JsonFolder.setProgress q) fs).
Proof.
  induction fs as [|f fs IH]; [constructor|]. cbn [mutateFound].
  destruct (p f).
  - constructor; [by exists q | apply differInProgress_refl].
  - constructor; [|apply IH]. exists (JsonFolder.progress f).
    by rewrite setProgress_self.
Qed.

(** One turn of the status loop changes the status of the document and the
    progress of containers, nothing else. *)
Lemma deriveStatus_changes (fs : list JsonFolder.t) (rs : list ResultFolder.t)
    (md : MarkdownFile.t) :
  (exists status, (deriveStatus fs rs md).1 = MarkdownFile.setStatus status md)
  /\ differInProgress fs (deriveStatus fs rs md).2.
Proof.
  unfold deriveStatus.
  destruct (List.find (isFolderOf md) fs) as [folder|];
    [|split; [by eexists | apply differInProgress_refl]].
  destruct (List.find _ rs) as [resultFolder|];
    [|split; [by eexists | apply differInProgress_refl]].
  split; [by eexists | apply mutateFound_progress].
Qed.

(** The container found for a document in two arrays with the same items
    has the same items. *)
Lemma find_sameItems (md : MarkdownFile.t) (fs fs' : list JsonFolder.t) :
  sameItems fs fs' ->
  JsonFolder.files <$> List.find (isFolderOf md) fs
  = JsonFolder.files <$> List.find (isFolderOf md) fs'.
Proof.
  induction 1 as [|f f' fs fs' (Hid & _ & Hfiles) _ IH]; [done|].
  cbn [List.find]. unfold isFolderOf at 1 3. rewrite Hid.
  destruct (MarkdownFile.matchingFolderId md) as [fid|]; [|apply IH].
  destruct (String.eqb _ fid); [|apply IH]. cbn. by rewrite Hfiles.
Qed.

(** The new document depends on the containers through their ids and items
    only. *)
Lemma deriveStatus_sameItems (fs fs' : list JsonFolder.t)
    (rs : list ResultFolder.t) (md : MarkdownFile.t) :
  sameItems fs fs' -> (deriveStatus fs rs md).1 = (deriveStatus fs' rs md).1.
Proof.
  intros H. pose proof (find_sameItems md _ _ H) as Hfind.
  unfold deriveStatus.
  destruct (List.find (isFolderOf md) fs) as [f|],
           (List.find (isFolderOf md) fs') as [f'|]; try done.
  cbn in Hfind. injection Hfind as Hfiles. rewrite Hfiles.
  by destruct (List.find _ rs).
Qed.

Lemma determineFileStatuses_alone (mds : list MarkdownFile.t)
    (rs : list ResultFolder.t) :
  forall fs : list JsonFolder.t,
    (determineFileStatuses mds fs rs).1
    = map (fun md => (deriveStatus fs rs md).1) mds
    /\ differInProgress fs (determineFileStatuses mds fs rs).2.
Proof.
  induction mds as [|md mds IH]; intros fs.
  - split; [done|apply differInProgress_refl].
  - cbn [determineFileStatuses map].
    destruct (deriveStatus_changes fs rs md) as [_ Hfs].
    destruct (deriveStatus fs rs md) as [md' fs'] eqn:Hstep.
    cbn [fst snd] in *.
    destruct (IH fs') as [Hmds Hfs'].
    destruct (determineFileStatuses mds fs' rs) as [rest fs''].
    cbn [fst snd] in *. split.
    + f_equal. rewrite Hmds. apply map_ext. intros d.
      symmetry. by apply deriveStatus_sameItems, differInProgress_sameItems.
    + by apply differInProgress_trans with fs'.
Qed.

Lemma record_sameItems (mds : list MarkdownFile.t) (fs : list JsonFolder.t) :
  sameItems fs (imap (record mds fs) fs).
Proof.
  unfold sameItems. apply Forall2_same_length_lookup. split.
  - by rewrite length_imap.
  - intros k f f' Hf. rewrite list_lookup_imap, Hf. cbn. intros [= <-].
    unfold record. by destruct (lastAssigned mds fs k).
Qed.

Lemma assign_same (fs : list JsonFolder.t) (md : MarkdownFile.t) :
  MarkdownFile.id md = MarkdownFile.id (assign fs md)
  /\ MarkdownFile.name md = MarkdownFile.name (assign fs md)
  /\ MarkdownFile.content md = MarkdownFile.content (assign fs md).
Proof. unfold assign. by destruct (foundFor fs md). Qed.

Lemma assign_sameDocuments (fs : list JsonFolder.t) (mds : list MarkdownFile.t) :
  sameDocuments mds (assign fs <$> mds).
Proof.
  unfold sameDocuments. apply Forall2_fmap_r, Forall_Forall2_diag, Forall_forall.
  intros md _. apply assign_same.
Qed.

End ReconcileFacts.


(** [determineFileStatuses] changes the status of documents and the
    progress of containers, nothing else: documents and containers keep
    their number and order, and every other property, the match and the
    items included, is as it was. *)
Theorem determineFileStatuses_changes_status_and_progress_only :
  forall (markdownFiles : list MarkdownFile.t) (jsonFolders : list JsonFolder.t)
         (resultFolders : list ResultFolder.t),
    differInStatus markdownFiles
      (FileContext.determineFileStatuses markdownFiles jsonFolders resultFolders).1
    /\ differInProgress jsonFolders
         (FileContext.determineFileStatuses markdownFiles jsonFolders resultFolders).2.
Proof.
  intros mds fs rs.
  destruct (determineFileStatuses_alone mds rs fs) as [-> Hfs]. split; [|done].
  unfold differInStatus. apply Forall2_map_r. intros md.
  apply deriveStatus_changes.
Qed.

(** The status a document gets in a refresh depends on that document, on
    the containers and on the results containers, and on nothing else: it is
    the status the document would get if it were the only one listed. *)
Theorem reconcile_documents_independent :
  forall (markdownFiles : list MarkdownFile.t) (jsonFolders : list JsonFolder.t)
         (resultFolders : list ResultFolder.t),
    (FileContext.reconcile markdownFiles jsonFolders resultFolders).1
    = flat_map (fun md => (FileContext.reconcile [md] jsonFolders resultFolders).1)
               markdownFiles.
Proof.
  intros mds fs rs.
  assert (forall l, (FileContext.reconcile l fs rs).1
                    = map (fun md => (FileContext.deriveStatus fs rs (assign fs md)).1) l)
    as Hone.
  { intros l. unfold FileContext.reconcile, DriveService.matchFilesWithFolders.
    rewrite forEachMarkdown_assign.
    destruct (determineFileStatuses_alone (assign fs <$> l) rs
                (imap (record l fs) fs)) as [-> _].
    change (assign fs <$> l) with (map (assign fs) l). rewrite map_map.
    apply map_ext. intros md. symmetry.
    apply deriveStatus_sameItems, record_sameItems. }
  rewrite Hone. induction mds as [|md mds IH]; [done|].
  cbn [map flat_map]. rewrite (Hone [md]). cbn [map app]. by rewrite IH.
Qed.

(* ================================================================= *)
(** ** The cache under promotions and downloads *)

Section AnswerFacts.

(** The answers of the promotion route, and what each leaves of the
    cache. *)
Lemma saveJson_cases {S V : Type} `{!Drive.Api S} (RESULT_FOLDER_ID : string)
    (fuel : nat) (body : Server.SaveJsonBody) (st : Server.State S V) :
  ((Server.saveJson RESULT_FOLDER_ID fuel body st).1 = Resolved saved
   /\ Server.cache (Server.saveJson RESULT_FOLDER_ID fuel body st).2
      = Server.cacheDel (Some "result-index") (Server.cache st))
  \/ (((Server.saveJson RESULT_FOLDER_ID fuel body st).1 = Resolved badRequest
       \/ (Server.saveJson RESULT_FOLDER_ID fuel body st).1 = Resolved failed
       \/ (Server.saveJson RESULT_FOLDER_ID fuel body st).1 = Unsettled)
      /\ Server.cache (Server.saveJson RESULT_FOLDER_ID fuel body st).2
         = Server.cache st).
Proof.
  assert (forall folderName jsonFile,
            (Server.saveItem RESULT_FOLDER_ID fuel folderName jsonFile st).1
            = Resolved saved
            /\ Server.cache
                 (Server.saveItem RESULT_FOLDER_ID fuel folderName jsonFile st).2
               = Server.cacheDel (Some "result-index") (Server.cache st)
            \/ ((Server.saveItem RESULT_FOLDER_ID fuel folderName jsonFile st).1
                = Resolved badRequest
                \/ (Server.saveItem RESULT_FOLDER_ID fuel folderName jsonFile st).1
                   = Resolved failed
                \/ (Server.saveItem RESULT_FOLDER_ID fuel folderName jsonFile st).1
                   = Unsettled)
               /\ Server.cache
                    (Server.saveItem RESULT_FOLDER_ID fuel folderName jsonFile st).2
                  = Server.cache st) as Hitem.
  { intros folderName jsonFile. unfold Server.saveItem.
    destruct (Server.invalid _ _); [right; split; [by left|done]|].
    destruct (Server.content _); [|right; split; [by left|done]].
    destruct (Server.promote _ _ _ _ _ _) as [[[]| |] d]; cbn;
      [by left | right; split; [right; by left | done]
       | right; split; [right; by right | done]]. }
  destruct body as [|[| |item] folderName]; unfold Server.saveJson.
  - right. split; [right; by left | done].
  - apply Hitem.
  - destruct (Js.truthyOpt folderName); cbn [negb fst snd]; right;
      (split; [|done]); [right; by left | by left].
  - apply Hitem.
Qed.

End AnswerFacts.

(** What a promotion does to the cache, whatever the store and whatever
    the request: an entry whose key does not start with [result-index], the
    listing of the documents, the listing of the containers and every
    downloaded file among them, is as it was; and when the answer is not the
    200 one, the whole cache is as it was, [result-index] included. *)
Theorem saveJson_spares_other_cache_entries :
  forall (S V : Type) (api : Drive.Api S) (RESULT_FOLDER_ID : string)
         (fuel : nat) (body : Server.SaveJsonBody) (st : Server.State S V),
    let after := (Server.saveJson RESULT_FOLDER_ID fuel body st).2 in
    (forall k : string,
        Js.startsWith k "result-index" = false ->
        Server.cacheGet k (Server.cache after) = Server.cacheGet k (Server.cache st))
    /\ (forall fileId : string,
          Server.cacheGet ("file-" +:+ fileId) (Server.cache after)
          = Server.cacheGet ("file-" +:+ fileId) (Server.cache st))
    /\ ((Server.saveJson RESULT_FOLDER_ID fuel body st).1 <> Resolved saved ->
        Server.cache after = Server.cache st).
Proof.
  intros S V api root fuel body st after.
  assert (Server.cache after = Server.cache st
          \/ (Server.saveJson root fuel body st).1 = Resolved saved
             /\ Server.cache after
                = Server.cacheDel (Some "result-index") (Server.cache st)) as Hcases.
  { destruct (saveJson_cases root fuel body st) as [[? ?] | [_ ?]];
      [by right | by left]. }
  assert (forall k : string,
             Js.startsWith k "result-index" = false ->
             Server.cacheGet k (Server.cache after)
             = Server.cacheGet k (Server.cache st)) as Hkeys.
  { intros k Hk. destruct Hcases as [-> | [_ ->]]; [done|].
    unfold Server.cacheGet. rewrite (cacheDel_lookup (Some "result-index")).
    cbn [default from_option id]. by rewrite Hk. }
  split; [exact Hkeys|]. split.
  - intros fileId. apply Hkeys. done.
  - intros Hnot. by destruct Hcases as [-> | [? _]].
Qed.

Lemma saveJson_spares_other_cache_entries_witness :
  Server.cacheGet "markdown-index"
    (Server.cache
       (Server.saveJson "results" 1 (promotion "batch" "a.json" (ContentString "[]"))
          {| Server.drive := single;
             Server.cache := {[ "markdown-index" := "docs" ]} |}).2)
  = Server.cacheGet "markdown-index"
      ({[ "markdown-index" := "docs" ]} : gmap string string).
Proof.
  exact (proj1 (saveJson_spares_other_cache_entries MemDrive.t string MemDrive.api
                  "results" 1 (promotion "batch" "a.json" (ContentString "[]"))
                  {| Server.drive := single;
                     Server.cache := {[ "markdown-index" := "docs" ]} |})
               "markdown-index" eq_refl).
Defined.

Section DownloadCacheFacts.

Lemma file_key_inj (a b : string) : "file-" +:+ a = "file-" +:+ b -> a = b.
Proof. intros H. by injection H. Qed.

End DownloadCacheFacts.

(** Downloaded bytes are kept while their entry lasts.  When
    [fetchFileBytes] has resolved for an id, the cache holds the bytes under
    the key of the id.  In every state whose cache holds that entry, a call
    for the id resolves with the same bytes, sends nothing to the store and
    leaves the state as it is, whatever the store would answer.  In a state
    whose cache holds no entry for the id, because it has run out or the
    cache was cleared, a call asks the store again and resolves with what
    the store answers then. *)
Theorem fetchFileBytes_answers_from_first_download :
  forall (fileId : string) (first : option Server.TransportData)
         (st st1 : Server.Downloads) (bytes : Server.Buffer),
    Server.fetchFileBytes fileId first st = (Resolved bytes, st1) ->
    Server.cacheGet ("file-" +:+ fileId) (Server.dlCache st1) = Some bytes
    /\ (forall (later : option Server.TransportData) (st2 : Server.Downloads),
          Server.cacheGet ("file-" +:+ fileId) (Server.dlCache st2) = Some bytes ->
          Server.fetchFileBytes fileId later st2 = (Resolved bytes, st2))
    /\ (forall (data : Server.TransportData) (st2 : Server.Downloads),
          Server.cacheGet ("file-" +:+ fileId) (Server.dlCache st2) = None ->
          Server.fetchFileBytes fileId (Some data) st2
          = (Resolved (Server.toBuffer data),
             {| Server.dlCache :=
                  Server.cacheSet ("file-" +:+ fileId) (Server.toBuffer data)
                    (Server.dlCache st2);
                Server.getRequests := Server.getRequests st2 ++ [fileId] |})).
Proof.
  intros fileId first st st1 bytes Hfirst. split; [|split].
  - unfold Server.fetchFileBytes, Server.fetchFileBytes_start in Hfirst.
    destruct (Server.cacheGet ("file-" +:+ fileId) (Server.dlCache st))
      as [hit|] eqn:Hhit.
    + by injection Hfirst as <- <-.
    + destruct first as [data|]; [|done].
      cbn in Hfirst. injection Hfirst as <- <-.
      cbn [Server.dlCache]. unfold Server.cacheGet, Server.cacheSet.
      by rewrite lookup_insert_eq.
  - intros later st2 Hheld.
    unfold Server.fetchFileBytes, Server.fetchFileBytes_start. by rewrite Hheld.
  - intros data st2 Hgone.
    unfold Server.fetchFileBytes, Server.fetchFileBytes_start. by rewrite Hgone.
Qed.

Lemma fetchFileBytes_answers_from_first_download_witness :
  Server.cacheGet ("file-" +:+ "doc1")
    (Server.dlCache
       {| Server.dlCache := {[ "file-doc1" := "old" ]};
          Server.getRequests := ["doc1"] |})
  = Some "old"
  /\ Server.fetchFileBytes "doc1" (Some (Server.DataOther "new"))
       {| Server.dlCache := {[ "file-doc1" := "old"; "file-doc2" := "other" ]};
          Server.getRequests := ["doc1"; "doc2"] |}
     = (Resolved "old",
        {| Server.dlCache := {[ "file-doc1" := "old"; "file-doc2" := "other" ]};
           Server.getRequests := ["doc1"; "doc2"] |}).
Proof.
  assert (Server.fetchFileBytes "doc1" (Some (Server.DataOther "old"))
            {| Server.dlCache := ∅; Server.getRequests := [] |}
          = (Resolved "old",
             {| Server.dlCache := {[ "file-doc1" := "old" ]};
                Server.getRequests := ["doc1"] |})) as Hfirst
    by reflexivity.
  split.
  - apply (proj1 (fetchFileBytes_answers_from_first_download _ _ _ _ _ Hfirst)).
  - apply (proj1 (proj2 (fetchFileBytes_answers_from_first_download
                           _ _ _ _ _ Hfirst))).
    reflexivity.
Defined.

(** A download touches the cache entry of its own id only: every other key,
    the entry of every other id among them, is as it was; and a download
    that is rejected leaves the whole cache as it was, so that nothing keeps
    the next call from asking the store again. *)
Theorem fetchFileBytes_touches_own_entry_only :
  forall (fileId : string) (response : option Server.TransportData)
         (st : Server.Downloads),
    let after := (Server.fetchFileBytes fileId response st).2 in
    (forall k : string,
        k <> "file-" +:+ fileId ->
        Server.cacheGet k (Server.dlCache after) = Server.cacheGet k (Server.dlCache st))
    /\ (forall other : string,
          other <> fileId ->
          Server.cacheGet ("file-" +:+ other) (Server.dlCache after)
          = Server.cacheGet ("file-" +:+ other) (Server.dlCache st))
    /\ ((Server.fetchFileBytes fileId response st).1 = Rejected ->
        Server.dlCache after = Server.dlCache st
        /\ Server.getRequests after = Server.getRequests st ++ [fileId]).
Proof.
  intros fileId response st after.
  assert (forall k : string,
             k <> "file-" +:+ fileId ->
             Server.cacheGet k (Server.dlCache after)
             = Server.cacheGet k (Server.dlCache st)) as Hkeys.
  { intros k Hk. unfold after, Server.fetchFileBytes, Server.fetchFileBytes_start.
    destruct (Server.cacheGet ("file-" +:+ fileId) (Server.dlCache st)); [done|].
    destruct response as [data|]; [|done]. cbn.
    unfold Server.cacheGet, Server.cacheSet. by rewrite lookup_insert_ne. }
  split; [exact Hkeys|]. split.
  - intros other Hother. apply Hkeys. intros H. by apply file_key_inj in H.
  - unfold after, Server.fetchFileBytes, Server.fetchFileBytes_start.
    destruct (Server.cacheGet ("file-" +:+ fileId) (Server.dlCache st)); [done|].
    by destruct response.
Qed.

Lemma fetchFileBytes_touches_own_entry_only_witness :
  Server.cacheGet "file-doc2"
    (Server.dlCache
       (Server.fetchFileBytes "doc1" (Some (Server.DataOther "new"))
          {| Server.dlCache := {[ "file-doc2" := "kept" ]};
             Server.getRequests := [] |}).2)
  = Server.cacheGet "file-doc2"
      (Server.dlCache
         {| Server.dlCache := {[ "file-doc2" := "kept" ]};
            Server.getRequests := [] |}).
Proof.
  apply (proj1 (fetchFileBytes_touches_own_entry_only "doc1"
                  (Some (Server.DataOther "new"))
                  {| Server.dlCache := {[ "file-doc2" := "kept" ]};
                     Server.getRequests := [] |})).
  discriminate.
Defined.

(* ================================================================= *)
(** ** The listing, cache and download routes *)

Section RouteFacts.

Lemma cacheDel_all {V} (cache : gmap string V) :
  Server.cacheDel (Some "") cache = ∅.
Proof. reflexivity. Qed.

Lemma health_empty {V} : Routes.health (∅ : gmap string V) = 0.
Proof. unfold Routes.health, Server.keys. by rewrite map_to_list_empty. Qed.

End RouteFacts.

(** [GET /api/markdown-files]: an answer with a listing is kept while its
    entry lasts.  When the route has answered with a value, the cache holds
    the value under [markdown-index]; in every state whose cache holds that
    entry, a request gets the same value, whatever the store holds by then,
    and the store is not asked.  In a state whose cache has no such entry,
    because it has run out or the cache was cleared, the route lists the
    store again, answers with that listing and caches it.  An answer 500 is
    not kept: the cache is as it was before. *)
Theorem markdownFiles_answer_stays :
  forall (S : Type) (api : Drive.Api S) (MARKDOWN_FOLDER_ID : string)
         (fuel : nat) (st st1 : Server.State S Routes.Cached)
         (reply : Routes.Reply),
    Routes.markdownFiles MARKDOWN_FOLDER_ID fuel st = (Resolved reply, st1) ->
    match reply with
    | Routes.Json value =>
        Server.cacheGet "markdown-index" (Server.cache st1) = Some value
        /\ (forall (fuel' : nat) (st2 : Server.State S Routes.Cached),
              Server.cacheGet "markdown-index" (Server.cache st2) = Some value ->
              Routes.markdownFiles MARKDOWN_FOLDER_ID fuel' st2
              = (Resolved (Routes.Json value), st2))
        /\ (forall (fuel' : nat) (st2 : Server.State S Routes.Cached)
                   (files : list Drive.Listing) (d : S),
              Server.cacheGet "markdown-index" (Server.cache st2) = None ->
              Server.listAll fuel'
                {| Drive.parent := MARKDOWN_FOLDER_ID;
                   Drive.nameIs := None;
                   Drive.mimeTypeIs := None |}
                "id,name,modifiedTime" (Server.drive st2)
              = (Resolved files, d) ->
              Routes.markdownFiles MARKDOWN_FOLDER_ID fuel' st2
              = (Resolved (Routes.Json (Routes.Files files)),
                 {| Server.drive := d;
                    Server.cache :=
                      Server.cacheSet "markdown-index" (Routes.Files files)
                        (Server.cache st2) |}))
    | Routes.Error500 _ =>
        Server.cache st1 = Server.cache st
        /\ Server.cacheGet "markdown-index" (Server.cache st1) = None
    end.
Proof.
  intros S api root fuel st st1 reply Hrun.
  assert (forall value : Routes.Cached,
             reply = Routes.Json value ->
             Server.cacheGet "markdown-index" (Server.cache st1) = Some value)
    as Hheld.
  { intros value ->. unfold Routes.markdownFiles in Hrun.
    destruct (Server.cacheGet "markdown-index" (Server.cache st))
      as [hit|] eqn:Hhit.
    - by injection Hrun as <- <-.
    - destruct (Server.listAll _ _ _ _) as [[files| |] d]; [| |done].
      + injection Hrun as <- <-. cbn [Server.cache].
        unfold Server.cacheGet, Server.cacheSet. by rewrite lookup_insert_eq.
      + by injection Hrun. }
  destruct reply as [value|error].
  - split; [by apply Hheld|]. split.
    + intros fuel' st2 Hhit. unfold Routes.markdownFiles. by rewrite Hhit.
    + intros fuel' st2 files d Hgone Hlist.
      unfold Routes.markdownFiles. by rewrite Hgone, Hlist.
  - unfold Routes.markdownFiles in Hrun.
    destruct (Server.cacheGet "markdown-index" (Server.cache st))
      as [hit|] eqn:Hhit; [done|].
    destruct (Server.listAll _ _ _ _) as [[files| |] d]; [done| |done].
    injection Hrun as _ <-. by cbn [Server.cache].
Qed.

Lemma markdownFiles_answer_stays_witness :
  Routes.markdownFiles "docs" 0
    {| Server.drive := emptyResults;
       Server.cache := Server.cache (Routes.markdownFiles "docs" 1 freshServer).2 |}
  = (Resolved (Routes.Json
                 (Routes.Files [ {| Drive.id := "1"; Drive.name := "a_b_c_d.md";
                                    Drive.modifiedTime := None |};
                                 {| Drive.id := "2"; Drive.name := "e_f_g_h.md";
                                    Drive.modifiedTime := None |} ])),
     {| Server.drive := emptyResults;
        Server.cache := Server.cache (Routes.markdownFiles "docs" 1 freshServer).2 |}).
Proof.
  assert (Routes.markdownFiles "docs" 1 freshServer
          = (Resolved (Routes.Json
                         (Routes.Files
                            [ {| Drive.id := "1"; Drive.name := "a_b_c_d.md";
                                 Drive.modifiedTime := None |};
                              {| Drive.id := "2"; Drive.name := "e_f_g_h.md";
                                 Drive.modifiedTime := None |} ])),
             (Routes.markdownFiles "docs" 1 freshServer).2)) as Hrun
    by reflexivity.
  apply (proj1 (proj2
           (markdownFiles_answer_stays MemDrive.t MemDrive.api "docs" 1 freshServer
              _ _ Hrun))).
  reflexivity.
Defined.

(** [POST /api/cache/clear]: a request without [keyPrefix], or with an empty
    one, empties the cache and reports the prefix ["all"]; [GET /api/health]
    then counts no key.  A request with a non-empty prefix reports that prefix, and
    leaves exactly the entries whose key does not start with it. *)
Theorem cacheClear_outcome :
  forall (V : Type) (keyPrefix : option string) (cache : gmap string V),
    (blank keyPrefix ->
     Routes.cacheClear keyPrefix cache
     = ({| Routes.message := "Cache cleared"; Routes.clearedPrefix := "all" |}, ∅)
     /\ Routes.health (Routes.cacheClear keyPrefix cache).2 = 0)
    /\ (forall pref : string,
          keyPrefix = Some pref -> pref <> "" ->
          Routes.clearedPrefix (Routes.cacheClear keyPrefix cache).1 = pref
          /\ forall k : string,
               Server.cacheGet k (Routes.cacheClear keyPrefix cache).2
               = if Js.startsWith k pref then None else Server.cacheGet k cache).
Proof.
  intros V keyPrefix cache. split.
  - intros [-> | ->]; (split; [reflexivity|]); cbn; apply health_empty.
  - intros pref -> Hpref. unfold Routes.cacheClear. cbn [from_option fst snd id].
    assert (Js.truthy pref = true) as Htruthy by (by destruct pref).
    rewrite Htruthy. split; [done|]. intros k. unfold Server.cacheGet.
    rewrite (cacheDel_lookup (Some pref)). cbn [from_option id].
    by destruct (Js.startsWith k pref).
Qed.

Lemma cacheClear_outcome_witness :
  Routes.cacheClear None ({[ "markdown-index" := 1; "file-a" := 2 ]} : gmap string nat)
  = ({| Routes.message := "Cache cleared"; Routes.clearedPrefix := "all" |}, ∅)
  /\ Routes.health
       (Routes.cacheClear None
          ({[ "markdown-index" := 1; "file-a" := 2 ]} : gmap string nat)).2 = 0.
Proof.
  apply (proj1 (cacheClear_outcome nat None {[ "markdown-index" := 1; "file-a" := 2 ]})).
  left. reflexivity.
Defined.

(** [GET /api/files/:fileId/download]: the route asks the store for the
    name before it looks into the cache.  A download of a file that is not
    cached, under a name that the header takes, costs two round trips and
    leaves the concatenated chunks in the cache.  In every state in which
    the cache holds the bytes of the file, a download costs one round trip,
    for the name, and sends the cached bytes whatever a stream would
    deliver; it fails when the name request is rejected, although the bytes
    are cached; and [fetchFileBytes] answers with the cached bytes without
    a round trip.  Under a name that the header does not take (a control
    character, a character above U+00FF) the route answers 500 after the
    name request, cached or not, and caches nothing. *)
Theorem download_feeds_cache :
  forall (fileId : string) (chunks : list Server.Buffer) (st : Server.Downloads),
    (forall name : string,
       Server.cacheGet ("file-" +:+ fileId) (Server.dlCache st) = None ->
       Routes.validHeaderValue (Routes.disposition name) = true ->
       exists st1 : Server.Downloads,
         Routes.download fileId (Some name) (Some chunks) st
         = (Routes.Attachment (Routes.disposition name) (String.concat "" chunks),
            st1)
         /\ Server.getRequests st1 = Server.getRequests st ++ [fileId; fileId]
         /\ Server.cacheGet ("file-" +:+ fileId) (Server.dlCache st1)
            = Some (String.concat "" chunks))
    /\ (forall bytes : Server.Buffer,
          Server.cacheGet ("file-" +:+ fileId) (Server.dlCache st) = Some bytes ->
          (forall (name : string) (stream : option (list Server.Buffer)),
             Routes.validHeaderValue (Routes.disposition name) = true ->
             Routes.download fileId (Some name) stream st
             = (Routes.Attachment (Routes.disposition name) bytes,
                Routes.asked fileId st))
          /\ (forall stream : option (list Server.Buffer),
                Routes.download fileId None stream st
                = (Routes.DownloadFailed, Routes.asked fileId st))
          /\ (forall response : option Server.TransportData,
                Server.fetchFileBytes fileId response st = (Resolved bytes, st)))
    /\ (forall (name : string) (stream : option (list Server.Buffer)),
          Routes.validHeaderValue (Routes.disposition name) = false ->
          Routes.download fileId (Some name) stream st
          = (Routes.DownloadFailed, Routes.asked fileId st)).
Proof.
  intros fileId chunks st. split; [|split].
  - intros name Hmiss Hname. eexists. split; [|split].
    + unfold Routes.download, Routes.asked. cbn [Server.dlCache].
      rewrite Hname, Hmiss. reflexivity.
    + cbn [Server.getRequests]. by rewrite <- app_assoc.
    + cbn [Server.dlCache]. unfold Server.cacheGet, Server.cacheSet.
      by rewrite lookup_insert_eq.
  - intros bytes Hhit. split; [|split].
    + intros name stream Hname. unfold Routes.download. cbn zeta.
      rewrite Hname. cbn [negb].
      change (Server.dlCache (Routes.asked fileId st)) with (Server.dlCache st).
      by rewrite Hhit.
    + reflexivity.
    + intros response. unfold Server.fetchFileBytes, Server.fetchFileBytes_start.
      by rewrite Hhit.
  - intros name stream Hname. unfold Routes.download. by rewrite Hname.
Qed.

Lemma download_feeds_cache_witness :
  exists st1 : Server.Downloads,
    Routes.download "doc1" (Some "a.json") (Some ["{"; "}"])
      {| Server.dlCache := ∅; Server.getRequests := [] |}
    = (Routes.Attachment (Routes.disposition "a.json") (String.concat "" ["{"; "}"]),
       st1)
    /\ Server.getRequests st1 = [] ++ ["doc1"; "doc1"]
    /\ Server.cacheGet ("file-" +:+ "doc1") (Server.dlCache st1)
       = Some (String.concat "" ["{"; "}"]).
Proof.
  apply (proj1 (download_feeds_cache "doc1" ["{"; "}"]
                  {| Server.dlCache := ∅; Server.getRequests := [] |})).
  - reflexivity.
  - reflexivity.
Defined.

(** The same at work: a name with a line feed is refused by the header,
    and the download fails after the request for the name, with nothing
    cached. *)
Lemma download_refuses_line_feed :
  Routes.validHeaderValue
    (Routes.disposition ("a" +:+ String DriveService.LF ".json")) = false
  /\ Routes.download "doc1" (Some ("a" +:+ String DriveService.LF ".json"))
       (Some ["{"; "}"]) {| Server.dlCache := ∅; Server.getRequests := [] |}
     = (Routes.DownloadFailed,
        {| Server.dlCache := ∅; Server.getRequests := ["doc1"] |}).
Proof. split; reflexivity. Qed.

(* ================================================================= *)
(** ** Promotion: a missing container, deletions, failures *)

Section StoreFacts.

Lemma length_pad (n : nat) : String.length (MemDrive.pad n) = n.
Proof. induction n; cbn; congruence. Qed.

(** The id of a new object is not in use. *)
Lemma freshId_fresh (objs : list MemDrive.Object) :
  ~ In (MemDrive.freshId objs) (MemDrive.id <$> objs).
Proof.
  intros Hin. apply list_elem_of_In, list_elem_of_fmap in Hin as (o & Heq & Ho).
  apply list_elem_of_In in Ho.
  assert (String.length (MemDrive.id o)
          <= list_max (map (fun o => String.length (MemDrive.id o)) objs)) as Hle.
  { pose proof (proj1 (list_max_le (map (fun o => String.length (MemDrive.id o)) objs) _)
                  (Nat.le_refl _)) as Hall.
    rewrite List.Forall_forall in Hall. apply Hall.
    apply in_map_iff. by exists o. }
  rewrite <- Heq in Hle. unfold MemDrive.freshId in Hle.
  rewrite length_pad in Hle. lia.
Qed.

Lemma filter_nil {A} (p : A -> bool) (l : list A) :
  (forall x, In x l -> p x = false) -> List.filter p l = [].
Proof.
  induction l as [|x l IH]; intros H; [done|]. cbn [List.filter].
  rewrite (H x) by (by left). apply IH. intros y Hy. apply H. by right.
Qed.

(** In a closed store nothing lies in a folder that does not exist yet. *)
Lemma nothing_under_fresh (d : MemDrive.t) (fileName : string) :
  closed d ->
  selected (fileQuery (MemDrive.freshId (MemDrive.objects d)) fileName) d = [].
Proof.
  intros Hclosed. unfold selected.
  apply filter_nil. intros o Ho.
  unfold MemDrive.selects. cbn [Drive.parent fileQuery].
  destruct (existsb _ (MemDrive.parents o)) eqn:Hex; [|done].
  apply existsb_exists in Hex as (p & Hp & Heq%String.eqb_eq). subst p.
  exfalso. apply (freshId_fresh (MemDrive.objects d)). by apply (Hclosed o).
Qed.

End StoreFacts.

Section PromoteFacts.

(** A folder is not selected by a query for JSON files, nor a JSON file by
    a query for folders. *)
Lemma folder_not_a_file (dest fileName newId root folderName : string) :
  MemDrive.selects (fileQuery dest fileName) (createdFolder newId root folderName)
  = false.
Proof. unfold MemDrive.selects. cbn. by rewrite !andb_false_r. Qed.

Lemma file_not_a_folder (root folderName newId dest fileName : string)
    (fileContent : Content) :
  MemDrive.selects (folderQuery root folderName)
                   (promoted newId dest fileName fileContent)
  = false.
Proof. unfold MemDrive.selects. cbn. by rewrite !andb_false_r. Qed.

Lemma folder_selected (newId root folderName : string) :
  MemDrive.selects (folderQuery root folderName) (createdFolder newId root folderName)
  = true.
Proof. unfold MemDrive.selects. cbn. by rewrite !String.eqb_refl. Qed.

Lemma file_selected (newId dest fileName : string) (fileContent : Content) :
  MemDrive.selects (fileQuery dest fileName) (promoted newId dest fileName fileContent)
  = true.
Proof. unfold MemDrive.selects. cbn. by rewrite !String.eqb_refl. Qed.

Lemma selected_held (q : Drive.Query) (d : MemDrive.t) (e : MemDrive.Object)
    (es : list MemDrive.Object) :
  selected q d = e :: es ->
  In e (MemDrive.objects d) /\ MemDrive.selects q e = true.
Proof.
  intros Hsel.
  assert (In e (selected q d)) as Hin by (rewrite Hsel; by left).
  unfold selected in Hin. by apply filter_In in Hin.
Qed.

Lemma held_exists (objs : list MemDrive.Object) (e : MemDrive.Object) :
  In e objs ->
  existsb (fun o => String.eqb (MemDrive.id o) (MemDrive.id e)) objs = true.
Proof. intros Hin. apply existsb_exists. exists e. by rewrite String.eqb_refl. Qed.

End PromoteFacts.

(** When the destination container does not exist in a closed store, the
    promotion creates it and then the file in it, and deletes nothing: the
    store has been asked for the container, to create it, for the files of
    the item's name in the new container, and to create the file.
    Afterwards the store holds the objects it held, followed by the new
    container and the new file; the container is the only one of its name
    in the results area, and the file the only one of its name in the
    container. *)
Theorem saveJson_creates_missing_container :
  forall (V : Type) (RESULT_FOLDER_ID folderName fileName : string)
         (fileContent : Content) (fuel : nat)
         (d : MemDrive.t) (cache : gmap string V),
    Js.truthy folderName = true ->
    Js.truthy fileName = true ->
    closed d ->
    selected (folderQuery RESULT_FOLDER_ID folderName) d = [] ->
    exists (d' : MemDrive.t) (folderId fileId : string),
      Server.saveJson RESULT_FOLDER_ID (S fuel)
        (promotion folderName fileName fileContent)
        {| Server.drive := d; Server.cache := cache |}
      = (Resolved saved,
         {| Server.drive := d';
            Server.cache := Server.cacheDel (Some "result-index") cache |})
      /\ MemDrive.objects d'
         = MemDrive.objects d ++
           [createdFolder folderId RESULT_FOLDER_ID folderName;
            promoted fileId folderId fileName fileContent]
      /\ ~ In folderId (MemDrive.id <$> MemDrive.objects d)
      /\ MemDrive.calls d'
         = MemDrive.calls d ++
           [MemDrive.Listed
              (pageRequest (folderQuery RESULT_FOLDER_ID folderName) "id" None);
            MemDrive.Created
              {| Drive.resourceName := folderName;
                 Drive.resourceParents := [RESULT_FOLDER_ID];
                 Drive.resourceMimeType := Server.FOLDER_MIME;
                 Drive.mediaBody := None |};
            MemDrive.Listed
              (pageRequest (fileQuery folderId fileName) "id,name" None);
            MemDrive.Created
              {| Drive.resourceName := fileName;
                 Drive.resourceParents := [folderId];
                 Drive.resourceMimeType := Server.JSON_MIME;
                 Drive.mediaBody := Some (mediaText fileContent) |}]
      /\ selected (folderQuery RESULT_FOLDER_ID folderName) d'
         = [createdFolder folderId RESULT_FOLDER_ID folderName]
      /\ selected (fileQuery folderId fileName) d'
         = [promoted fileId folderId fileName fileContent].
Proof.
  intros V root folderName fileName fileContent fuel d cache
         Hfolder Hfile Hclosed Hnone.
  set (folderId := MemDrive.freshId (MemDrive.objects d)).
  set (folder := createdFolder folderId root folderName).
  set (fileId := MemDrive.freshId (MemDrive.objects d ++ [folder])).
  set (new := promoted fileId folderId fileName fileContent).
  pose proof (nothing_under_fresh d fileName Hclosed) as Hunder.
  fold folderId in Hunder.
  eexists {| MemDrive.objects := MemDrive.objects d ++ [folder; new];
             MemDrive.calls := _ |}, folderId, fileId.
  split; [|split; [|split; [|split; [|split]]]].
  - unfold Server.saveJson, promotion, Server.saveItem, Server.invalid.
    cbn [Server.name Server.content
         from_option Js.truthyOpt Server.drive Server.cache id].
    rewrite Hfolder, Hfile. cbn [negb orb].
    unfold Server.promote. fold (folderQuery root folderName).
    unfold bind at 1. rewrite listAll_mem.
    rewrite Hnone. cbn [fmap list_fmap].
    unfold bind at 1, await at 1.
    cbn [Drive.files_create MemDrive.api].
    unfold MemDrive.createObject at 1.
    cbn [MemDrive.objects MemDrive.calls Drive.resourceName
         Drive.resourceParents Drive.resourceMimeType Drive.mediaBody].
    fold folderId. fold (createdFolder folderId root folderName). fold folder.
    fold (fileQuery folderId fileName).
    unfold bind at 1. rewrite listAll_mem.
    unfold selected at 1. cbn [MemDrive.objects MemDrive.calls].
    rewrite List.filter_app. fold (selected (fileQuery folderId fileName) d).
    rewrite Hunder. cbn [app List.filter]. unfold folder at 1.
    rewrite folder_not_a_file. cbn [fmap list_fmap].
    unfold bind, await, ret.
    cbn [Drive.files_create MemDrive.api].
    unfold MemDrive.createObject.
    cbn [MemDrive.objects MemDrive.calls Drive.resourceName
         Drive.resourceParents Drive.resourceMimeType Drive.mediaBody].
    fold fileId. rewrite <- app_assoc. reflexivity.
  - reflexivity.
  - apply freshId_fresh.
  - cbn [MemDrive.calls]. rewrite <- !app_assoc. reflexivity.
  - unfold selected in *. cbn [MemDrive.objects]. rewrite List.filter_app, Hnone.
    cbn [app List.filter]. unfold folder, new.
    by rewrite folder_selected, file_not_a_folder.
  - unfold selected in *. cbn [MemDrive.objects]. rewrite List.filter_app, Hunder.
    cbn [app List.filter]. unfold folder, new.
    by rewrite folder_not_a_file, file_selected.
Qed.

Lemma saveJson_creates_missing_container_witness :
  exists (d' : MemDrive.t) (folderId fileId : string),
    Server.saveJson "results" 1 (promotion "batch" "a.json" (ContentString "[]"))
      {| Server.drive := emptyResults;
         Server.cache := ({[ "result-index" := "cached" ]} : gmap string string) |}
    = (Resolved saved,
       {| Server.drive := d';
          Server.cache :=
            Server.cacheDel (Some "result-index") {[ "result-index" := "cached" ]} |})
    /\ MemDrive.objects d'
       = MemDrive.objects emptyResults ++
         [createdFolder folderId "results" "batch";
          promoted fileId folderId "a.json" (ContentString "[]")]
    /\ ~ In folderId (MemDrive.id <$> MemDrive.objects emptyResults)
    /\ MemDrive.calls d'
       = MemDrive.calls emptyResults ++
         [MemDrive.Listed (pageRequest (folderQuery "results" "batch") "id" None);
          MemDrive.Created
            {| Drive.resourceName := "batch";
               Drive.resourceParents := ["results"];
               Drive.resourceMimeType := Server.FOLDER_MIME;
               Drive.mediaBody := None |};
          MemDrive.Listed (pageRequest (fileQuery folderId "a.json") "id,name" None);
          MemDrive.Created
            {| Drive.resourceName := "a.json";
               Drive.resourceParents := [folderId];
               Drive.resourceMimeType := Server.JSON_MIME;
               Drive.mediaBody := Some (mediaText (ContentString "[]")) |}]
    /\ selected (folderQuery "results" "batch") d'
       = [createdFolder folderId "results" "batch"]
    /\ selected (fileQuery folderId "a.json") d'
       = [promoted fileId folderId "a.json" (ContentString "[]")].
Proof.
  apply (saveJson_creates_missing_container string "results" "batch" "a.json"
           (ContentString "[]") 0 emptyResults {[ "result-index" := "cached" ]}).
  - reflexivity.
  - reflexivity.
  - intros o p [<- | []] [].
  - reflexivity.
Defined.

Section SafetyFacts.

Lemma deletedIds_app (l k : list MemDrive.Call) :
  deletedIds (l ++ k) = deletedIds l ++ deletedIds k.
Proof. unfold deletedIds. apply omap_app. Qed.





End SafetyFacts.



Section FailureFacts.

(** A listing over a connection that still answers, and over one that
    does not. *)
Lemma listAll_flaky (fuel healthy : nat) (q : Drive.Query) (fields : string)
    (d : MemDrive.t) :
  Server.listAll (S fuel) q fields (behind (S healthy) d)
  = (Resolved (MemDrive.toListing <$> selected q d),
     behind healthy
       {| MemDrive.objects := MemDrive.objects d;
          MemDrive.calls :=
            MemDrive.calls d ++ [MemDrive.Listed (pageRequest q fields None)] |}).
Proof.
  unfold Server.listAll. cbn [Server.listAllFrom]. unfold bind, await. cbn.
  unfold selected. by destruct (List.filter _ _).
Qed.

Lemma listAll_down (fuel : nat) (q : Drive.Query) (fields : string)
    (d : MemDrive.t) :
  Server.listAll (S fuel) q fields (behind 0 d) = (Rejected, behind 0 d).
Proof. reflexivity. Qed.

Lemma listAllFrom_endless (fuel : nat) (q : Drive.Query) (fields : string)
    (pageToken : option string) (out : list Drive.Listing) (served : EndlessDrive.t) :
  Server.listAllFrom fuel q fields pageToken out served = (Unsettled, fuel + served).
Proof.
  revert pageToken out served.
  induction fuel as [|fuel IH]; intros pageToken out served; [done|].
  cbn [Server.listAllFrom]. unfold bind, await.
  cbn [Drive.files_list EndlessDrive.api EndlessDrive.page Drive.files
       Drive.nextPageToken Js.truthyOpt].
  change (Js.truthy "more") with true. cbn iota. rewrite IH. f_equal. lia.
Qed.

End FailureFacts.

(** The replacement of a file is not undone when it fails half-way.  Take
    the in-memory store, with the destination container and a file of the
    item's name in it, behind a connection that answers fewer than the four
    calls of the promotion.  The route answers 500 and leaves the cache as
    it is.  When the connection fails before the delete call is answered,
    the store holds what it held; when it fails after it (three calls
    answered), the old file is gone and no file has been created: a query
    for the item's name finds only the other files of that name, so none if
    the old file was the only one. *)
Theorem saveJson_failure_after_delete :
  forall (V : Type) (RESULT_FOLDER_ID folderName fileName : string)
         (fileContent : Content) (fuel healthy : nat)
         (d : MemDrive.t) (cache : gmap string V)
         (dest : MemDrive.Object) (others : list MemDrive.Object)
         (e : MemDrive.Object) (es : list MemDrive.Object),
    Js.truthy folderName = true ->
    Js.truthy fileName = true ->
    NoDup (MemDrive.id <$> MemDrive.objects d) ->
    selected (folderQuery RESULT_FOLDER_ID folderName) d = dest :: others ->
    selected (fileQuery (MemDrive.id dest) fileName) d = e :: es ->
    healthy < 4 ->
    exists d' : MemDrive.t,
      Server.saveJson RESULT_FOLDER_ID (S fuel)
        (promotion folderName fileName fileContent)
        {| Server.drive := behind healthy d; Server.cache := cache |}
      = (Resolved failed,
         {| Server.drive := behind 0 d'; Server.cache := cache |})
      /\ MemDrive.objects d'
         = (if (healthy =? 3)%nat then without e d else MemDrive.objects d)
      /\ (healthy = 3 ->
          selected (fileQuery (MemDrive.id dest) fileName) d' = es
          /\ deletedIds (MemDrive.calls d')
             = deletedIds (MemDrive.calls d) ++ [MemDrive.id e]).
Proof.
  intros V root folderName fileName fileContent fuel healthy d cache dest others e es
         Hfolder Hfile Hnd Hdest Hexisting Hhealthy.
  pose proof (selected_held _ _ _ _ Hexisting) as [Hin _].
  unfold Server.saveJson, promotion, Server.saveItem, Server.invalid.
  cbn [Server.name Server.content
       from_option Js.truthyOpt Server.drive Server.cache id].
  rewrite Hfolder, Hfile. cbn [negb orb].
  unfold Server.promote. fold (folderQuery root folderName).
  destruct healthy as [|[|[|[|healthy]]]]; [| | | |lia].
  - eexists. unfold bind at 1. rewrite listAll_down.
    split; [reflexivity|]. split; [reflexivity|]. done.
  - eexists. unfold bind at 1. rewrite listAll_flaky, Hdest.
    cbn [fmap list_fmap MemDrive.toListing Drive.id].
    unfold bind at 1, ret at 1. unfold bind at 1. rewrite listAll_down.
    split; [reflexivity|]. split; [reflexivity|]. done.
  - eexists. unfold bind at 1. rewrite listAll_flaky, Hdest.
    cbn [fmap list_fmap MemDrive.toListing Drive.id].
    unfold bind at 1, ret at 1.
    fold (fileQuery (MemDrive.id dest) fileName).
    unfold bind at 1. rewrite listAll_flaky.
    unfold selected at 1. cbn [MemDrive.objects].
    fold (selected (fileQuery (MemDrive.id dest) fileName) d).
    rewrite Hexisting. cbn [fmap list_fmap MemDrive.toListing Drive.id].
    unfold bind, await, ret. cbn.
    split; [reflexivity|]. split; [reflexivity|]. done.
  - eexists. unfold bind at 1. rewrite listAll_flaky, Hdest.
    cbn [fmap list_fmap MemDrive.toListing Drive.id].
    unfold bind at 1, ret at 1.
    fold (fileQuery (MemDrive.id dest) fileName).
    unfold bind at 1. rewrite listAll_flaky.
    unfold selected at 1. cbn [MemDrive.objects].
    fold (selected (fileQuery (MemDrive.id dest) fileName) d).
    rewrite Hexisting. cbn [fmap list_fmap MemDrive.toListing Drive.id].
    unfold bind, await, ret.
    cbn [Drive.files_delete Drive.files_create FlakyDrive.api FlakyDrive.call
         FlakyDrive.healthy FlakyDrive.store behind].
    unfold MemDrive.deleteObject. cbn [MemDrive.objects MemDrive.calls].
    rewrite (held_exists _ _ Hin).
    cbn [FlakyDrive.healthy FlakyDrive.store].
    split; [reflexivity|]. split; [reflexivity|]. intros _. split.
    + unfold selected. cbn [MemDrive.objects].
      by apply selected_after_delete.
    + cbn [MemDrive.calls]. rewrite !deletedIds_app. cbn.
      by rewrite !app_nil_r.
Qed.

Lemma saveJson_failure_after_delete_witness :
  exists d' : MemDrive.t,
    Server.saveJson "results" 1 (promotion "batch" "a.json" (ContentString "[]"))
      {| Server.drive := behind 3 single;
         Server.cache := ({[ "result-index" := "cached" ]} : gmap string string) |}
    = (Resolved failed,
       {| Server.drive := behind 0 d';
          Server.cache := {[ "result-index" := "cached" ]} |})
    /\ MemDrive.objects d'
       = (if (3 =? 3)%nat
          then without
                 (MemDrive.Build_Object "1" "a.json" ["F"] Server.JSON_MIME false
                    (Some "{}"))
                 single
          else MemDrive.objects single)
    /\ (3 = 3 ->
        selected (fileQuery "F" "a.json") d' = []
        /\ deletedIds (MemDrive.calls d')
           = deletedIds (MemDrive.calls single) ++ ["1"]).
Proof.
  apply (saveJson_failure_after_delete string "results" "batch" "a.json"
           (ContentString "[]") 0 3 single {[ "result-index" := "cached" ]}
           (MemDrive.Build_Object "F" "batch" ["results"] Server.FOLDER_MIME false None)
           []
           (MemDrive.Build_Object "1" "a.json" ["F"] Server.JSON_MIME false (Some "{}"))
           []).
  - reflexivity.
  - reflexivity.
  - compute_done.
  - reflexivity.
  - reflexivity.
  - lia.
Defined.

(** [listAll] has no bound on the number of pages.  Against a store whose
    every page announces a successor it goes on to ask: whatever the number
    of requests it is given room for, it has sent that many and has not
    settled. *)
Theorem listAll_never_settles_on_endless_listing :
  forall (fuel : nat) (query : Drive.Query) (fields : string)
         (served : EndlessDrive.t),
    Server.listAll fuel query fields served = (Unsettled, fuel + served).
Proof. intros. apply listAllFrom_endless. Qed.

(* ================================================================= *)
(** ** The save path of the client *)

Section ClientFacts.

(** The answers of the promotion route. *)
Lemma saveJson_answers {S V : Type} `{!Drive.Api S} (RESULT_FOLDER_ID : string)
    (fuel : nat) (body : Server.SaveJsonBody) (st : Server.State S V) :
  let answer := (Server.saveJson RESULT_FOLDER_ID fuel body st).1 in
  answer = Resolved badRequest \/ answer = Resolved saved
  \/ answer = Resolved failed \/ answer = Unsettled.
Proof.
  cbn zeta.
  destruct (saveJson_cases RESULT_FOLDER_ID fuel body st)
    as [[? _] | [[? | [? | ?]] _]]; auto.
Qed.

(** A request of the client with an empty name is answered 400 by a
    server that does nothing else. *)
Lemma saveJson_blank {S V : Type} `{!Drive.Api S} (RESULT_FOLDER_ID : string)
    (fuel : nat) (jsonFile : JsonFile.t) (folderName : string)
    (st : Server.State S V) :
  JsonFile.name jsonFile = "" \/ folderName = "" ->
  Server.saveJson RESULT_FOLDER_ID fuel (Client.payload jsonFile folderName) st
  = (Resolved badRequest, st).
Proof.
  intros Hbad. unfold Server.saveJson, Client.payload.
  apply saveItem_invalid. destruct Hbad as [Hname | ->].
  - right. left. right. cbn. by rewrite Hname.
  - left. by right.
Qed.

End ClientFacts.

(** [saveJsonFile] against the promotion route.  The call resolves exactly
    when the route has answered 200, and it resolves with [undefined]: the
    answer of the route has no member [id].  An item without content is
    refused before any request is sent, and a request with an empty item
    name or an empty container name is answered 400: in each of these cases
    the call fails and the server is as it was. *)
Theorem saveJsonFile_resolves_without_id :
  forall (S V : Type) (api : Drive.Api S) (RESULT_FOLDER_ID : string)
         (fuel : nat) (jsonFile : JsonFile.t) (folderName : string)
         (st : Server.State S V),
    (forall st' : Server.State S V,
       Server.saveJson RESULT_FOLDER_ID fuel (Client.payload jsonFile folderName) st
       = (Resolved saved, st') ->
       JsonFile.content jsonFile <> None ->
       Client.saveJsonFile (Client.server RESULT_FOLDER_ID fuel) jsonFile folderName st
       = (DriveService.Fulfilled None, st'))
    /\ (forall (id : option Json.value) (st' : Server.State S V),
          Client.saveJsonFile (Client.server RESULT_FOLDER_ID fuel) jsonFile folderName st
          = (DriveService.Fulfilled id, st') ->
          id = None
          /\ Server.saveJson RESULT_FOLDER_ID fuel
               (Client.payload jsonFile folderName) st
             = (Resolved saved, st'))
    /\ (JsonFile.content jsonFile = None \/ JsonFile.name jsonFile = ""
        \/ folderName = "" ->
        exists message : string,
          Client.saveJsonFile (Client.server RESULT_FOLDER_ID fuel) jsonFile folderName st
          = (DriveService.Failed message, st)).
Proof.
  intros S V api root fuel jsonFile folderName st.
  split; [|split].
  - intros st' Hrun Hcontent. unfold Client.saveJsonFile, Client.server.
    destruct (JsonFile.content jsonFile); [|done]. by rewrite Hrun.
  - intros id st'. unfold Client.saveJsonFile, Client.server.
    destruct (JsonFile.content jsonFile); [|done].
    pose proof (saveJson_answers root fuel (Client.payload jsonFile folderName) st)
      as Hanswers.
    destruct (Server.saveJson _ _ _ _) as [answer st1]. cbn [fst] in Hanswers.
    destruct Hanswers as [-> | [-> | [-> | ->]]]; try done.
    vm_compute. by intros [= <- <-].
  - intros [Hcontent | Hblank].
    + unfold Client.saveJsonFile. rewrite Hcontent. by eexists.
    + unfold Client.saveJsonFile, Client.server.
      destruct (JsonFile.content jsonFile); [|by eexists].
      rewrite saveJson_blank; [by eexists | done].
Qed.

Lemma saveJsonFile_resolves_without_id_witness :
  exists message : string,
    Client.saveJsonFile (Client.server "results" 1) (itemCWith "{}") ""
      {| Server.drive := single;
         Server.cache := ({[ "result-index" := "cached" ]} : gmap string string) |}
    = (DriveService.Failed message,
       {| Server.drive := single; Server.cache := {[ "result-index" := "cached" ]} |}).
Proof.
  apply (proj2 (proj2 (saveJsonFile_resolves_without_id MemDrive.t string MemDrive.api
                         "results" 1 (itemCWith "{}") ""
                         {| Server.drive := single;
                            Server.cache := {[ "result-index" := "cached" ]} |}))).
  right. right. reflexivity.
Defined.

(** [saveToResults] against the promotion route, for a signed-in user and
    an item that has content.  One request is sent.  When the route answers
    200, the client state is that of [approveJsonFile] for the item, so an
    error shown before is still shown.  In every other case no approval is
    recorded: documents and containers are as they were, and the error is
    the one of a failed save. *)
Theorem saveToResults_approves_after_200 :
  forall (S V : Type) (api : Drive.Api S) (RESULT_FOLDER_ID : string)
         (fuel : nat) (fetched : DriveService.Promise Content)
         (jsonFile : JsonFile.t) (folderName : string)
         (state : FileState) (st : Server.State S V),
    JsonFile.content jsonFile <> None ->
    exists (after : FileState),
      Client.saveToResults (Client.server RESULT_FOLDER_ID fuel) true fetched
        jsonFile folderName state st
      = (after, (Server.saveJson RESULT_FOLDER_ID fuel
                   (Client.payload jsonFile folderName) st).2)
      /\ ((Server.saveJson RESULT_FOLDER_ID fuel
             (Client.payload jsonFile folderName) st).1 = Resolved saved ->
          after = FileContext.approveJsonFile jsonFile state
          /\ error after = error state)
      /\ ((Server.saveJson RESULT_FOLDER_ID fuel
             (Client.payload jsonFile folderName) st).1 <> Resolved saved ->
          markdownFiles after = markdownFiles state
          /\ jsonFolders after = jsonFolders state
          /\ error after
             = Some "Failed to save file to results folder. Please try again.").
Proof.
  intros S V api root fuel fetched jsonFile folderName state st Hcontent.
  unfold Client.saveToResults. cbn [negb].
  destruct (JsonFile.content jsonFile) as [c|] eqn:Hc; [|done].
  cbn beta iota zeta. unfold Client.saveJsonFile, Client.server. rewrite Hc.
  pose proof (saveJson_answers root fuel (Client.payload jsonFile folderName) st)
    as Hanswers.
  destruct (Server.saveJson _ _ _ _) as [answer st1]. cbn [fst snd] in *.
  destruct Hanswers as [-> | [-> | [-> | ->]]].
  - eexists. split; [vm_compute; reflexivity|]. by split.
  - eexists. split; [reflexivity|]. by split.
  - eexists. split; [vm_compute; reflexivity|]. by split.
  - eexists. split; [reflexivity|]. by split.
Qed.

Lemma saveToResults_approves_after_200_witness :
  exists after : FileState,
    Client.saveToResults (Client.server "results" 1) true
      (DriveService.Failed "not asked") (itemCWith "{}") "batch"
      fourItemsState resultsServer
    = (after,
       (Server.saveJson "results" 1 (Client.payload (itemCWith "{}") "batch")
          resultsServer).2)
    /\ ((Server.saveJson "results" 1 (Client.payload (itemCWith "{}") "batch")
           resultsServer).1 = Resolved saved ->
        after = FileContext.approveJsonFile (itemCWith "{}") fourItemsState
        /\ error after = error fourItemsState)
    /\ ((Server.saveJson "results" 1 (Client.payload (itemCWith "{}") "batch")
           resultsServer).1 <> Resolved saved ->
        markdownFiles after = markdownFiles fourItemsState
        /\ jsonFolders after = jsonFolders fourItemsState
        /\ error after
           = Some "Failed to save file to results folder. Please try again.").
Proof.
  apply (saveToResults_approves_after_200 MemDrive.t string MemDrive.api "results" 1
           (DriveService.Failed "not asked") (itemCWith "{}") "batch"
           fourItemsState resultsServer).
  discriminate.
Defined.

(* ================================================================= *)
(** ** Source-map comments after the JSON text *)

Section CommentFacts.
Import DriveService.

(** A pattern cannot match across a character it does not contain. *)
Lemma startsWith_stop (m a b : string) (c : ascii) :
  Js.includes m (String c "") = false ->
  Js.startsWith (a +:+ String c b) m = true ->
  Js.startsWith a m = true.
Proof.
  revert a. induction m as [|x m IH]; intros a Hc Hstart; [by destruct a|].
  cbn [Js.includes Js.startsWith] in Hc.
  apply orb_false_elim in Hc as [Hx Hm].
  rewrite startsWith_empty, andb_true_r in Hx.
  destruct a as [|y a].
  - change ("" +:+ String c b) with (String c b) in Hstart.
    cbn [Js.startsWith] in Hstart. apply andb_prop in Hstart as [Heq _].
    apply Ascii.eqb_eq in Heq. subst x. by rewrite Ascii.eqb_refl in Hx.
  - rewrite append_cons in Hstart. cbn [Js.startsWith] in *.
    apply andb_prop in Hstart as [-> Hstart]. by apply IH.
Qed.

Lemma includes_false (s sub : string) :
  Js.includes s sub = false ->
  Js.startsWith s sub = false
  /\ match s with
     | EmptyString => True
     | String _ r => Js.includes r sub = false
     end.
Proof.
  destruct s; cbn [Js.includes]; intros [H1 H2]%orb_false_elim; by split.
Qed.

Lemma includes_tail (c : ascii) (r sub : string) :
  Js.includes (String c r) sub = false -> Js.includes r sub = false.
Proof. by intros [_ H]%includes_false. Qed.

Lemma startsWith_false_stop (m a b : string) (c : ascii) :
  Js.includes m (String c "") = false ->
  Js.startsWith a m = false ->
  Js.startsWith (a +:+ String c b) m = false.
Proof.
  intros Hc Ha. destruct (Js.startsWith (a +:+ String c b) m) eqn:H; [|done].
  apply startsWith_stop in H; [congruence|done].
Qed.

(** The longer marker begins with the shorter one. *)
Lemma marker_prefix (s : string) :
  Js.startsWith s "//# sourceMappingURL" = false ->
  Js.startsWith s "//# sourceMappingURL=" = false.
Proof.
  intros H. destruct (Js.startsWith s "//# sourceMappingURL=") eqn:Hlong; [|done].
  apply startsWith_split in Hlong as [rest ->].
  change ("//# sourceMappingURL=" +:+ rest)
    with ("//# sourceMappingURL" +:+ ("=" +:+ rest)) in H.
  by rewrite startsWith_app in H.
Qed.

Lemma dropLine_one_line (url : string) :
  Js.includes url (String LF "") = false -> dropLine url = "".
Proof.
  induction url as [|c url IH]; [done|]. intros [Hc Hurl]%includes_false.
  cbn [dropLine]. cbn [Js.startsWith] in Hc.
  rewrite startsWith_empty, andb_true_r in Hc.
  rewrite Ascii.eqb_sym, Hc. by apply IH.
Qed.

Lemma removeSourceMap_without (json : string) :
  Js.includes json "//# sourceMappingURL" = false ->
  removeSourceMap json = json.
Proof.
  induction json as [|c json IH]; [done|]. intros [Hc Hjson]%includes_false.
  cbn [removeSourceMap]. rewrite (marker_prefix _ Hc). by rewrite IH.
Qed.

Lemma removeSourceMap_at_marker (rest : string) :
  removeSourceMap ("//# sourceMappingURL=" +:+ rest) = dropLine rest.
Proof.
  pose proof (startsWith_app "//# sourceMappingURL=" rest) as Hstart.
  cbv [String.append] in *. cbn [removeSourceMap]. by rewrite Hstart.
Qed.

Lemma removeSourceMap_trailing (json url : string) :
  Js.includes json "//# sourceMappingURL" = false ->
  Js.includes url (String LF "") = false ->
  removeSourceMap (json +:+ commentLine url) = json +:+ String LF "".
Proof.
  intros Hjson Hurl. induction json as [|c json IH].
  - change ("" +:+ commentLine url) with (commentLine url).
    unfold commentLine. cbn [removeSourceMap].
    change (Js.startsWith (String LF _) _) with false. cbn iota.
    fold removeSourceMap.
    by rewrite removeSourceMap_at_marker, dropLine_one_line.
  - apply includes_false in Hjson as [Hc Hjson].
    rewrite !append_cons. cbn [removeSourceMap]. rewrite <- append_cons.
    unfold commentLine at 1.
    rewrite (startsWith_false_stop _ (String c json)) by (done || by apply marker_prefix).
    by rewrite IH.
Qed.

Lemma trimEnd_app_space (s t : string) :
  Js.allSpace t = true -> Js.trimEnd (s +:+ t) = Js.trimEnd s.
Proof.
  intros Ht. induction s as [|c s IH].
  - by apply trimEnd_allSpace.
  - rewrite append_cons. cbn [Js.trimEnd]. rewrite IH.
    rewrite <- append_cons. by rewrite allSpace_app.
Qed.

Lemma trim_app_space (s t : string) :
  Js.allSpace t = true -> Js.trim (s +:+ t) = Js.trim s.
Proof.
  intros Ht. unfold Js.trim. destruct (Js.allSpace s) eqn:Hs.
  - rewrite trimStart_app_space by done.
    fold (Js.trim t). fold (Js.trim s). by rewrite !allSpace_trim.
  - rewrite trimStart_app_nonspace by (done || by apply allSpace_atBoundary).
    by apply trimEnd_app_space.
Qed.

Lemma includes_after (s r sub : string) :
  Js.afterSpace s = Some r -> Js.includes s sub = false ->
  Js.includes r sub = false.
Proof.
  intros [(c1 & -> & _) | [(c1 & c2 & -> & _) | (c1 & c2 & c3 & -> & _)]]%afterSpace_shape H.
  - by apply includes_tail in H.
  - by do 2 apply includes_tail in H.
  - by do 3 apply includes_tail in H.
Qed.

Lemma includes_trimStart (s sub : string) :
  Js.includes s sub = false -> Js.includes (Js.trimStart s) sub = false.
Proof.
  revert s. apply (space_ind (fun s => Js.includes s sub = false -> _)).
  - intros s Hnone H. by rewrite trimStart_step, Hnone.
  - intros s r Hsome IH H. rewrite (trimStart_after _ _ Hsome).
    apply IH. by apply (includes_after s).
Qed.

Lemma trimEnd_prefix (s : string) : exists r, s = Js.trimEnd s +:+ r.
Proof.
  induction s as [|c s [r IH]]; [by exists ""|]. cbn [Js.trimEnd].
  destruct (Js.allSpace (String c s)); [by exists (String c s)|].
  exists r. rewrite append_cons. by rewrite <- IH.
Qed.

Lemma startsWith_longer (p r m : string) :
  Js.startsWith p m = true -> Js.startsWith (p +:+ r) m = true.
Proof.
  intros [rest ->]%startsWith_split. rewrite append_assoc.
  apply startsWith_app.
Qed.

Lemma startsWith_trimEnd (s m : string) :
  Js.startsWith s m = false -> Js.startsWith (Js.trimEnd s) m = false.
Proof.
  intros H. destruct (Js.startsWith (Js.trimEnd s) m) eqn:Htrim; [|done].
  destruct (trimEnd_prefix s) as [r Hr].
  apply (startsWith_longer _ r) in Htrim. rewrite <- Hr in Htrim. congruence.
Qed.

(** A text without the marker does not begin with it once trimmed. *)
Lemma trim_without_marker (json : string) :
  Js.includes json "//# sourceMappingURL" = false ->
  Js.startsWith (Js.trim json) "//# sourceMappingURL" = false.
Proof.
  intros H. unfold Js.trim. apply startsWith_trimEnd.
  by apply includes_trimStart, includes_false in H as [H _].
Qed.

End CommentFacts.

(** [extractValidJson] does what it is for: a body that is JSON text
    followed by a line with a source-map comment is read as the JSON text
    alone, and a body without the marker is read as it is.  In both cases
    the fetch delivers the empty array when the JSON text is white space,
    and otherwise what [JSON.parse] makes of the trimmed text. *)
Theorem extractValidJson_ignores_trailing_comment :
  forall json url : string,
    Js.includes json "//# sourceMappingURL" = false ->
    Js.includes url (String DriveService.LF "") = false ->
    DriveService.extractValidJson (json +:+ commentLine url) = parsed json
    /\ DriveService.extractValidJson json = parsed json.
Proof.
  intros json url Hjson Hurl. unfold DriveService.extractValidJson, parsed. split.
  - rewrite removeSourceMap_trailing by done.
    rewrite (trim_app_space json (String DriveService.LF "")) by done.
    assert (Js.truthy (json +:+ commentLine url) = true) as ->
      by (by destruct json).
    cbn [negb orb]. destruct (Js.allSpace json) eqn:Hblank.
    + assert (json +:+ commentLine url
              = (json +:+ String DriveService.LF "")
                +:+ "//# sourceMappingURL" +:+ ("=" +:+ url)) as ->.
      { unfold commentLine. by rewrite append_assoc. }
      rewrite comment_recognised; [done|].
      by rewrite allSpace_app, Hblank.
    + assert (Js.startsWith (Js.trim (json +:+ commentLine url))
                            "//# sourceMappingURL" = false) as ->.
      { unfold Js.trim. apply startsWith_trimEnd.
        rewrite trimStart_app_nonspace
          by (done || (left; by apply Nat.ltb_lt)). unfold commentLine.
        apply startsWith_false_stop; [done|].
        by apply includes_trimStart, includes_false in Hjson as [H _]. }
      destruct (Js.trim json) eqn:Htrim; [|done].
      apply trim_empty_allSpace in Htrim. congruence.
  - rewrite removeSourceMap_without, trim_without_marker by done.
    rewrite orb_false_r. destruct (Js.allSpace json) eqn:Hblank.
    + rewrite (allSpace_trim _ Hblank). by destruct (negb _).
    + destruct json as [|c json]; [done|]. cbn [Js.truthy negb].
      destruct (Js.trim (String c json)) eqn:Htrim; [|done].
      apply trim_empty_allSpace in Htrim. congruence.
Qed.

Lemma extractValidJson_ignores_trailing_comment_witness :
  DriveService.extractValidJson (("[1]" +:+ NBSP) +:+ commentLine "app.js.map")
  = parsed ("[1]" +:+ NBSP)
  /\ DriveService.extractValidJson ("[1]" +:+ NBSP) = parsed ("[1]" +:+ NBSP).
Proof.
  apply (extractValidJson_ignores_trailing_comment ("[1]" +:+ NBSP) "app.js.map").
  - reflexivity.
  - reflexivity.
Defined.

(** The same at work: a body that ends in a no-break space is read as the
    array before it, with and without a comment line after. *)
Lemma extractValidJson_trims_no_break_space :
  parsed ("[1]" +:+ NBSP) = DriveService.Fulfilled (Json.Array [Json.Number "1"])
  /\ DriveService.extractValidJson (("[1]" +:+ NBSP) +:+ commentLine "app.js.map")
     = DriveService.Fulfilled (Json.Array [Json.Number "1"]).
Proof. split; reflexivity. Qed.
